(** * Daily synchronisation subsystem of the GA4 multi-client dashboard

    A shallow embedding of the backend's sync code and its collaborators:

    - [services/ga4Service.js]: [fetchDailyMetrics], [parseMetricsResponse],
      [parseOrganicSessions], [formatGA4Date], [validatePropertyAccess];
    - [services/syncService.js]: [logSync], [syncClientMetrics],
      [syncAllClients], [syncYesterday], [backfillClientData],
      [getYesterdayDate], [generateDateRange];
    - [config/database.js]: the [query] wrapper, over the tables of
      [database/schema.sql];
    - [middleware/autoSync.js], [jobs/dailySync.js] and the
      [POST /api/metrics/sync] route: the three entry points that start a
      sync, as an event-loop transition system;
    - the callers of the sync service as code: [fetchMetricsRange], the
      middleware of [middleware/autoSync.js] in its two versions, the job
      of [jobs/dailySync.js], [requireClientAccess] of [middleware/auth.js],
      the handler of [POST /api/clients], [convertToCSV] of
      [routes/metrics.js] and the two backfill scripts.

    JavaScript numbers that hold counts are modelled as [Z]; numbers that hold
    durations and rates are IEEE binary64 values ([float]), and the
    [DECIMAL] columns that store them hold decimal numbers with two digits
    after the point.  Asynchronous
    functions are computations over an explicit world (database, clock,
    console) that either resolve or reject. *)

From Stdlib Require Import ZArith List String Ascii Bool Lia QArith Floats.
From Stdlib Require Import Permutation.
Import ListNotations.

Open Scope string_scope.
Open Scope Z_scope.

(* ================================================================= *)
(** * JavaScript primitives *)

Module Js.

(** An exception value.  Errors raised by the provider client and by the
    database driver are [Error] objects: they carry a [message] and possibly a
    [code], which is a number for some libraries and a string for others. *)
Inductive ErrCode :=
| CodeNum (n : Z)
| CodeStr (s : string).

Record Error := mkError {
  code : option ErrCode;
  message : string
}.

(** [new Error(msg)] *)
Definition newError (msg : string) : Error := mkError None msg.

(** A [TypeError] raised by reading a property of [undefined]. *)
Definition typeErrorUndefined (prop : string) : Error :=
  mkError None ("Cannot read properties of undefined (reading '" ++ prop ++ "')").

(** [error.code === 'LITERAL'] *)
Definition code_is (e : Error) (lit : string) : bool :=
  match code e with
  | Some (CodeStr s) => String.eqb s lit
  | _ => false
  end.

(** [hay.includes(needle)] *)
Fixpoint includes (needle hay : string) : bool :=
  String.prefix needle hay ||
  match hay with
  | EmptyString => false
  | String _ rest => includes needle rest
  end.

(** [s.substring(a, b)] for [a <= b]. *)
Definition substring (a b : nat) (s : string) : string :=
  String.substring a (b - a) s.

(** ** Characters

    A string is the list of the bytes of its UTF-8 encoding. *)

(** The number of bytes of the white space at the head of [s], 0 when there
    is none.  White space is what [parseInt] and [parseFloat] strip
    ([WhiteSpace] and [LineTerminator]): TAB, LF, VT, FF, CR, SP, U+00A0,
    U+1680, U+2000 to U+200A, U+2028, U+2029, U+202F, U+205F, U+3000 and
    U+FEFF. *)
Definition white_space_width (s : string) : nat :=
  match s with
  | String c1 rest1 =>
      let b1 := nat_of_ascii c1 in
      if (Nat.eqb b1 32 || (Nat.leb 9 b1 && Nat.leb b1 13))%bool then 1%nat
      else
        match rest1 with
        | String c2 rest2 =>
            let b2 := nat_of_ascii c2 in
            if (Nat.eqb b1 194 && Nat.eqb b2 160)%bool then 2%nat
            else
              match rest2 with
              | String c3 _ =>
                  let b3 := nat_of_ascii c3 in
                  if (Nat.eqb b1 225 && Nat.eqb b2 154 && Nat.eqb b3 128)%bool then 3%nat
                  else if (Nat.eqb b1 226 && Nat.eqb b2 128 &&
                           ((Nat.leb 128 b3 && Nat.leb b3 138) || Nat.eqb b3 168 ||
                            Nat.eqb b3 169 || Nat.eqb b3 175))%bool then 3%nat
                  else if (Nat.eqb b1 226 && Nat.eqb b2 129 && Nat.eqb b3 159)%bool then 3%nat
                  else if (Nat.eqb b1 227 && Nat.eqb b2 128 && Nat.eqb b3 128)%bool then 3%nat
                  else if (Nat.eqb b1 239 && Nat.eqb b2 187 && Nat.eqb b3 191)%bool then 3%nat
                  else 0%nat
              | EmptyString => 0%nat
              end
        | EmptyString => 0%nat
        end
  | EmptyString => 0%nat
  end.

Fixpoint drop (n : nat) (s : string) : string :=
  match n, s with
  | S n', String _ rest => drop n' rest
  | _, _ => s
  end.

Fixpoint skip_white_space_from (fuel : nat) (s : string) : string :=
  match fuel with
  | O => s
  | S fuel' =>
      match white_space_width s with
      | O => s
      | width => skip_white_space_from fuel' (drop width s)
      end
  end.

Definition skip_white_space (s : string) : string :=
  skip_white_space_from (String.length s) s.

(** The value of [c] as a digit in radix [r], when it is one. *)
Definition digit_value (r : Z) (c : ascii) : option Z :=
  let n := Z.of_nat (nat_of_ascii c) in
  let v :=
    if (48 <=? n) && (n <=? 57) then Some (n - 48)
    else if (97 <=? n) && (n <=? 122) then Some (n - 87)
    else if (65 <=? n) && (n <=? 90) then Some (n - 55)
    else None in
  match v with
  | Some d => if d <? r then Some d else None
  | None => None
  end.

(** Reads the longest prefix of radix-[r] digits: the number of digits read,
    their value, and the rest of the string. *)
Fixpoint read_digits (r : Z) (s : string) (count : nat) (acc : Z)
  : nat * Z * string :=
  match s with
  | String c rest =>
      match digit_value r c with
      | Some d => read_digits r rest (S count) (acc * r + d)
      | None => (count, acc, s)
      end
  | EmptyString => (count, acc, s)
  end.

(** Strips an optional sign: [true] when the sign is [-]. *)
Definition read_sign (s : string) : bool * string :=
  match s with
  | String "-" rest => (true, rest)
  | String "+" rest => (false, rest)
  | _ => (false, s)
  end.

(** ** [parseInt(string)], radix omitted *)

(** The sign and the integer the text stands for; no integer when no digit
    follows the sign and the prefix. *)
Definition read_integer (s : string) : bool * option Z :=
  let '(neg, s1) := read_sign (skip_white_space s) in
  let '(radix, s2) :=
    match s1 with
    | String "0" (String "x" rest) => (16, rest)
    | String "0" (String "X" rest) => (16, rest)
    | _ => (10, s1)
    end in
  let '(count, value, _) := read_digits radix s2 0%nat 0 in
  match count with
  | O => (neg, None)
  | _ => (neg, Some value)
  end.

(** The binary64 value nearest to the integer [n], an infinity when [n] lies
    beyond the largest one; [negative] is the sign of a zero. *)
Definition number_of_Z (negative : bool) (n : Z) : float :=
  SF2Prim (binary_normalize prec emax n 0 negative).

(** [parseInt(s)]: [NaN] without digits, otherwise the number for the
    integer read, [-0] for [-0]. *)
Definition parseInt (s : string) : float :=
  match read_integer s with
  | (_, None) => nan
  | (neg, Some value) => number_of_Z neg (if neg then - value else value)
  end.

(** [x || 0] for the result [x] of [parseInt], as an integer: [NaN] and the
    zeros give 0.  A count is an integer or, for a text that stands for more
    than the largest number, an infinity; the infinities are counted as
    [2^1024] and [-2^1024], which no number stands for. *)
Definition int_or_zero (x : float) : Z :=
  match Prim2SF x with
  | S754_finite negative m e =>
      let n := if 0 <=? e then Zpos m * 2 ^ e else Zpos m / 2 ^ (- e) in
      if negative then - n else n
  | S754_infinity negative => if negative then - 2 ^ 1024 else 2 ^ 1024
  | _ => 0
  end.

(** ** [parseFloat(string)]

    The longest prefix that is a [StrDecimalLiteral] is read as a sign, a
    decimal mantissa and a power of ten, and rounded once to the nearest
    binary64 value. *)

(** The binary64 value nearest to [(-1)^neg * m * 10^e10]. *)
Definition decimal_to_float (neg : bool) (m : Z) (e10 : Z) : float :=
  match m with
  | Zpos p =>
      if 0 <=? e10 then
        let n := Zpos p * 10 ^ e10 in
        SF2Prim (binary_normalize prec emax (if neg then - n else n) 0 false)
      else
        match 10 ^ (- e10) with
        | Zpos q =>
            SF2Prim (SFdiv prec emax (S754_finite neg p 0) (S754_finite false q 0))
        | _ => nan
        end
  | _ => if neg then neg_zero else zero
  end.

(** An exponent part [e], [e+] or [e-] followed by at least one digit;
    otherwise the exponent is absent and nothing is consumed. *)
Definition read_exponent (s : string) : Z :=
  match s with
  | String c rest =>
      if (Ascii.eqb c "e" || Ascii.eqb c "E")%bool then
        let '(neg, rest') := read_sign rest in
        let '(count, value, _) := read_digits 10 rest' 0%nat 0 in
        match count with
        | O => 0
        | _ => if neg then - value else value
        end
      else 0
  | EmptyString => 0
  end.

Definition parseFloat (s : string) : float :=
  let '(neg, s1) := read_sign (skip_white_space s) in
  if String.prefix "Infinity" s1 then (if neg then neg_infinity else infinity)
  else
    let '(ni, int_part, s2) := read_digits 10 s1 0%nat 0 in
    let '(nf, mant, s3) :=
      match s2 with
      | String "." rest => read_digits 10 rest 0%nat int_part
      | _ => (0%nat, int_part, s2)
      end in
    match (ni + nf)%nat with
    | O => nan
    | _ => decimal_to_float neg mant (read_exponent s3 - Z.of_nat nf)
    end.

(** A number is falsy when it is [NaN], [0] or [-0]. *)
Definition is_falsy (x : float) : bool :=
  (PrimFloat.is_nan x || PrimFloat.is_zero x)%bool.

(** [x || 0] on numbers. *)
Definition float_or_zero (x : float) : float :=
  if is_falsy x then zero else x.

(** The rational number a finite binary64 value stands for. *)
Definition float_to_Q (x : float) : option Q :=
  match Prim2SF x with
  | S754_zero _ => Some 0%Q
  | S754_finite s m e =>
      let n := if s then Zneg m else Zpos m in
      Some (if 0 <=? e then inject_Z (n * 2 ^ e)
            else Qmake n (Z.to_pos (2 ^ (- e))))
  | _ => None
  end.

(** Decimal digits of [n], the [width] lowest ones, zero-padded. *)
Fixpoint pad (width : nat) (n : Z) : string :=
  match width with
  | O => ""
  | S w => pad w (n / 10) ++ String (ascii_of_nat (48 + Z.to_nat (n mod 10))) ""
  end.

(** The number of decimal digits of [n >= 0]. *)
Fixpoint countDigits (fuel : nat) (n : Z) : nat :=
  match fuel with
  | O => 1
  | S fuel' => if n <? 10 then 1%nat else S (countDigits fuel' (n / 10))
  end.

(** [String(n)] for an integer [n], as a template literal prints it. *)
Definition intToString (n : Z) : string :=
  let digits m := pad (countDigits (Z.to_nat (Z.log2 m)) m) m in
  if n <? 0 then "-" ++ digits (- n) else digits n.

(** ** [Number::toString(x)]

    The digits of a finite [x > 0] are the integers [s] and [e] such that
    [x] is the binary64 value nearest to [s * 10^e], with [s] of as few
    digits as possible and, among those, [s * 10^e] as near to [x] as
    possible (the even [s] when two are as near). *)

(** The positive rational [a / b] is at least [10^l]. *)
Definition at_least_pow10 (a b l : Z) : bool :=
  if 0 <=? l then 10 ^ l * b <=? a else b <=? a * 10 ^ (- l).

(** [floor (log10 (a / b))] for positive [a] and [b]: the binary logarithms
    place it within one of [guess]. *)
Definition floor_log10 (a b : Z) : Z :=
  let guess := (Z.log2 a - Z.log2 b) * 30103 / 100000 in
  if at_least_pow10 a b (guess + 1) then guess + 1
  else if at_least_pow10 a b guess then guess
  else guess - 1.

(** [x] is the binary64 value nearest to [s * 10^e]. *)
Definition reads_as (x : float) (s e : Z) : bool :=
  PrimFloat.eqb (decimal_to_float false s e) x.

(** The digits of [a / b], the value of [x > 0]: with [k], [k + 1], ...
    digits until some [s * 10^e] reads as [x]; of the two neighbours of
    [a / b] the nearer one, the even one on a tie. *)
Fixpoint shortest_from (x : float) (a b l k : Z) (fuel : nat) : Z * Z :=
  let e := l - k + 1 in
  let n := if 0 <=? e then a else a * 10 ^ (- e) in
  let d := if 0 <=? e then b * 10 ^ e else b in
  let s := n / d in
  let r := n mod d in
  let nearer := if 2 * r <? d then s
                else if d <? 2 * r then s + 1
                else if Z.even s then s else s + 1 in
  match fuel with
  | O => (nearer, e)
  | S fuel' =>
      match reads_as x s e, reads_as x (s + 1) e with
      | true, true => (nearer, e)
      | true, false => (s, e)
      | false, true => (s + 1, e)
      | false, false => shortest_from x a b l (k + 1) fuel'
      end
  end.

(** [s * 10^e] without the zeros at the end of [s]. *)
Fixpoint strip_zeros (fuel : nat) (s e : Z) : Z * Z :=
  match fuel with
  | O => (s, e)
  | S fuel' => if (0 <? s) && (s mod 10 =? 0) then strip_zeros fuel' (s / 10) (e + 1) else (s, e)
  end.

(** What a number prints as: [NaN], an infinity, or a sign and the digits
    [s * 10^e]; both zeros are [Digits false 0 0]. *)
Inductive Shortest :=
| NotANumber
| Infinite (negative : bool)
| Digits (negative : bool) (s e : Z).

Definition shortest (x : float) : Shortest :=
  match Prim2SF x with
  | S754_nan => NotANumber
  | S754_infinity negative => Infinite negative
  | S754_zero _ => Digits false 0 0
  | S754_finite negative m e2 =>
      let a := if 0 <=? e2 then Zpos m * 2 ^ e2 else Zpos m in
      let b := if 0 <=? e2 then 1 else 2 ^ (- e2) in
      let '(s, e) := shortest_from (abs x) a b (floor_log10 a b) 1 16 in
      let '(s, e) := strip_zeros 17 s e in
      Digits negative s e
  end.

Fixpoint zeros (n : nat) : string :=
  match n with
  | O => ""
  | S n' => String "0" (zeros n')
  end.

(** [String(x)]: the digits laid out without an exponent while the decimal
    point lies within 21 digits after the first digit or 6 before it, and
    with an exponent otherwise. *)
Definition numberToString (x : float) : string :=
  match shortest x with
  | NotANumber => "NaN"
  | Infinite negative => if negative then "-Infinity" else "Infinity"
  | Digits negative s e =>
      if s =? 0 then "0"
      else
        let k := countDigits 17 s in
        let digits := pad k s in
        let n := e + Z.of_nat k in
        let body :=
          if (Z.of_nat k <=? n) && (n <=? 21) then digits ++ zeros (Z.to_nat e)
          else if (0 <? n) && (n <=? 21)
          then String.substring 0 (Z.to_nat n) digits ++ "." ++
               String.substring (Z.to_nat n) (k - Z.to_nat n) digits
          else if (-6 <? n) && (n <=? 0)
          then "0." ++ zeros (Z.to_nat (- n)) ++ digits
          else
            let exponent := (if 0 <? n - 1 then "+" else "-") ++ intToString (Z.abs (n - 1)) in
            match k with
            | 1%nat => digits ++ "e" ++ exponent
            | _ => String.substring 0 1 digits ++ "." ++ String.substring 1 (k - 1) digits ++
                   "e" ++ exponent
            end in
        if negative then "-" ++ body else body
  end.

End Js.

(* ================================================================= *)
(** * Dates: the [Date] object of the host, over a process time zone *)

Module JsDate.

Definition msPerDay : Z := 86400000.
Definition msPerHour : Z := 3600000.
Definition msPerMinute : Z := 60000.

(** [Day(t)] and [TimeWithinDay(t)] *)
Definition Day (t : Z) : Z := t / msPerDay.
Definition TimeWithinDay (t : Z) : Z := t mod msPerDay.

(** The proleptic Gregorian date (year, month 1..12, day 1..31) of a day
    number counted from 1970-01-01: [YearFromTime], [MonthFromTime] and
    [DateFromTime] at once. *)
Definition civil_from_days (days : Z) : Z * Z * Z :=
  let z := days + 719468 in
  let era := z / 146097 in
  let doe := z mod 146097 in
  let yoe := (doe - doe / 1460 + doe / 36524 - doe / 146096) / 365 in
  let doy := doe - (365 * yoe + yoe / 4 - yoe / 100) in
  let mp := (5 * doy + 2) / 153 in
  let d := doy - (153 * mp + 2) / 5 + 1 in
  let m := if mp <? 10 then mp + 3 else mp - 9 in
  let y := yoe + era * 400 in
  (if m <=? 2 then y + 1 else y, m, d).

(** [MakeDay(year, month - 1, date)] for a month in 1..12: the day number of
    the first of the month plus [date - 1]; a [date] outside the month runs
    over into the neighbouring months. *)
Definition MakeDay (year month date : Z) : Z :=
  let y := if month <=? 2 then year - 1 else year in
  let era := y / 400 in
  let yoe := y mod 400 in
  let doy := (153 * (if 2 <? month then month - 3 else month + 9) + 2) / 5 + date - 1 in
  let doe := yoe * 365 + yoe / 4 - yoe / 100 + doy in
  era * 146097 + doe - 719468.

(** The time zone of the process: a standard offset from UTC in minutes and a
    daylight-saving rule that adds one hour.  The rule is asked in two ways,
    as the language definition does: for an instant ([LocalTime]) and for a
    local time value ([UTC]). *)
Record TimeZone := mkTimeZone {
  stdOffsetMin : Z;
  dstAtInstant : Z -> bool;
  dstAtLocal : Z -> bool
}.

Definition fixedOffset (minutes : Z) : TimeZone :=
  mkTimeZone minutes (fun _ => false) (fun _ => false).

Definition utcZone : TimeZone := fixedOffset 0.

Definition offsetMs (tz : TimeZone) (dst : bool) : Z :=
  stdOffsetMin tz * msPerMinute + (if dst then msPerHour else 0).

(** [LocalTime(t)] and [UTC(t)] *)
Definition LocalTime (tz : TimeZone) (t : Z) : Z :=
  t + offsetMs tz (dstAtInstant tz t).
Definition UTC (tz : TimeZone) (lt : Z) : Z :=
  lt - offsetMs tz (dstAtLocal tz lt).

(** A [Date] object holds a time value in milliseconds since the epoch, or
    [NaN] ([None]: an invalid date). *)
Definition Date := option Z.

(** [d.getDate()] of a valid date: the day of the month in local time. *)
Definition getDate (tz : TimeZone) (t : Z) : Z :=
  let '(_, _, d) := civil_from_days (Day (LocalTime tz t)) in d.

(** [d.setDate(date)] of a valid date: the new time value. *)
Definition setDate (tz : TimeZone) (date : Z) (t : Z) : Z :=
  let lt := LocalTime tz t in
  let '(y, m, _) := civil_from_days (Day lt) in
  UTC tz (MakeDay y m date * msPerDay + TimeWithinDay lt).

Definition isoYear (y : Z) : string :=
  if (0 <=? y) && (y <=? 9999) then Js.pad 4 y
  else if y <? 0 then "-" ++ Js.pad 6 (- y)
  else "+" ++ Js.pad 6 y.

(** [d.toISOString()] of a valid date: [YYYY-MM-DDTHH:mm:ss.sssZ], in UTC. *)
Definition toISOString (t : Z) : string :=
  let '(y, m, d) := civil_from_days (Day t) in
  let w := TimeWithinDay t in
  isoYear y ++ "-" ++ Js.pad 2 m ++ "-" ++ Js.pad 2 d ++ "T" ++
  Js.pad 2 (w / msPerHour) ++ ":" ++ Js.pad 2 (w / msPerMinute mod 60) ++ ":" ++
  Js.pad 2 (w / 1000 mod 60) ++ "." ++ Js.pad 3 (w mod 1000) ++ "Z".

(** [s.split('T')[0]]: the text before the first [T]. *)
Fixpoint beforeT (s : string) : string :=
  match s with
  | String c rest => if Ascii.eqb c "T" then "" else String c (beforeT rest)
  | EmptyString => ""
  end.

(** [d.toISOString().split('T')[0]] *)
Definition isoDate (t : Z) : string := beforeT (toISOString t).

(** Exactly [n] decimal digits at the head of [s]: their value and the rest. *)
Fixpoint take_digits (n : nat) (s : string) (acc : Z) : option (Z * string) :=
  match n with
  | O => Some (acc, s)
  | S n' =>
      match s with
      | String c rest =>
          match Js.digit_value 10 c with
          | Some d => take_digits n' rest (acc * 10 + d)
          | None => None
          end
      | EmptyString => None
      end
  end.

(** [new Date(s)] for a date-only string [YYYY-MM-DD]: midnight UTC of that
    day.  As in V8, the month must lie in 1..12 and the day in 1..31, and a
    day past the end of the month runs over into the next one.  Any other
    text is an invalid date here: the dates this code passes around all have
    the date-only form. *)
Definition parse (s : string) : Date :=
  match take_digits 4 s 0 with
  | Some (y, String "-" s1) =>
      match take_digits 2 s1 0 with
      | Some (m, String "-" s2) =>
          match take_digits 2 s2 0 with
          | Some (d, EmptyString) =>
              if (1 <=? m) && (m <=? 12) && (1 <=? d) && (d <=? 31)
              then Some (MakeDay y m d * msPerDay)
              else None
          | _ => None
          end
      | _ => None
      end
  | _ => None
  end.

(** New York in 2024: UTC-5, daylight saving from 2024-03-10 07:00 UTC to
    2024-11-03 06:00 UTC (local 03:00 on March 10 to local 02:00 on
    November 3). *)
Definition newYork2024 : TimeZone :=
  mkTimeZone (-300)
    (fun t => (1710054000000 <=? t) && (t <? 1730613600000))
    (fun lt => (1710039600000 <=? lt) && (lt <? 1730599200000)).

(** India: UTC+5:30 all year. *)
Definition kolkata : TimeZone := fixedOffset 330.

End JsDate.

(* ================================================================= *)
(** * Completions and asynchronous computations *)

(** How an evaluation ends: with a value, or with a thrown exception (a
    rejected promise). *)
Inductive Completion (A : Type) : Type :=
| Resolved (a : A)
| Rejected (e : Js.Error).
Arguments Resolved {A} a.
Arguments Rejected {A} e.

Definition bindC {A B} (c : Completion A) (k : A -> Completion B) : Completion B :=
  match c with
  | Resolved a => k a
  | Rejected e => Rejected e
  end.

Declare Scope completion_scope.
Delimit Scope completion_scope with completion.
Notation "x <~ c ;; k" := (bindC c (fun x => k))
  (at level 100, c at next level, right associativity) : completion_scope.

Definition isResolved {A} (c : Completion A) : bool :=
  match c with Resolved _ => true | Rejected _ => false end.

(* ================================================================= *)
(** * The provider: GA4 Data API requests and responses *)

Module Ga4.

(** One row of a report: the [value]s of its dimensions and of its metrics. *)
Record Row := mkRow {
  dimensionValues : list string;
  metricValues : list string
}.

(** A report; [rows] is absent ([None]) or present, possibly empty. *)
Record Response := mkResponse {
  rows : option (list Row)
}.

(** What varies between the [runReport] calls of this code: the property
    path, the date range, and whether the request carries the
    [sessionDefaultChannelGroup = 'Organic Search'] filter (the filtered
    request asks for [sessions] only, the other one for the six metrics). *)
Record ReportRequest := mkRequest {
  property : string;
  startDate : string;
  endDate : string;
  organicSearchOnly : bool
}.

(** The metrics of one day as the rest of the system sees them. *)
Record Metrics := mkMetrics {
  date : string;
  sessions : Z;
  users : Z;
  newUsers : Z;
  pageviews : Z;
  avgSessionDuration : float;
  bounceRate : float;
  organicSessions : Z
}.

(** The result of [parseMetricsResponse]: the six unfiltered metrics. *)
Record TotalMetrics := mkTotal {
  t_sessions : Z;
  t_users : Z;
  t_newUsers : Z;
  t_pageviews : Z;
  t_avgSessionDuration : float;
  t_bounceRate : float
}.

(** [metricValues[i].value]: reading [value] of a missing entry throws. *)
Definition metricValue (metricValues : list string) (i : nat) : Completion string :=
  match nth_error metricValues i with
  | Some v => Resolved v
  | None => Rejected (Js.typeErrorUndefined "value")
  end.

(** [!response.rows || response.rows.length === 0]: the first row, if any. *)
Definition firstRow (response : Response) : option Row :=
  match rows response with
  | Some (row :: _) => Some row
  | _ => None
  end.

Definition parseMetricsResponse (response : Response) : Completion TotalMetrics :=
  match firstRow response with
  | None => Resolved (mkTotal 0 0 0 0 zero zero)
  | Some row =>
      let metricValues := metricValues row in
      (v0 <~ metricValue metricValues 0 ;;
       v1 <~ metricValue metricValues 1 ;;
       v2 <~ metricValue metricValues 2 ;;
       v3 <~ metricValue metricValues 3 ;;
       v4 <~ metricValue metricValues 4 ;;
       v5 <~ metricValue metricValues 5 ;;
       Resolved {|
         t_sessions := Js.int_or_zero (Js.parseInt v0);
         t_users := Js.int_or_zero (Js.parseInt v1);
         t_newUsers := Js.int_or_zero (Js.parseInt v2);
         t_pageviews := Js.int_or_zero (Js.parseInt v3);
         t_avgSessionDuration := Js.float_or_zero (Js.parseFloat v4);
         t_bounceRate := Js.float_or_zero (Js.parseFloat v5 * 100)%float
       |})%completion
  end.

Definition parseOrganicSessions (response : Response) : Completion Z :=
  match firstRow response with
  | None => Resolved 0
  | Some row =>
      (v <~ metricValue (metricValues row) 0 ;;
       Resolved (Js.int_or_zero (Js.parseInt v)))%completion
  end.

(** [YYYYMMDD] to [YYYY-MM-DD] *)
Definition formatGA4Date (ga4Date : string) : string :=
  let year := Js.substring 0 4 ga4Date in
  let month := Js.substring 4 6 ga4Date in
  let day := Js.substring 6 8 ga4Date in
  year ++ "-" ++ month ++ "-" ++ day.

End Ga4.

(* ================================================================= *)
(** * The relational store *)

Module Db.

Inductive SyncStatus := success | failed | partial.

(** Table [clients] *)
Record ClientRow := mkClient {
  id : Z;
  name : string;
  ga_property_id : string;
  timezone : string;
  is_active : bool
}.

(** A value of type [NUMERIC]: [NaN], an infinity, or a decimal number,
    here with two digits after the point ([hundredths / 100]). *)
Inductive Numeric :=
| NaN
| Infinity (negative : bool)
| Decimal (hundredths : Z).

(** The [NUMERIC] value a column of scale 2 ([DECIMAL(10,2)], [DECIMAL(5,2)])
    takes for a number bound to a parameter: the driver sends the number as
    the text of [String(x)], and the server rounds the decimal number it
    reads there to two digits after the point, a half away from zero. *)
Definition numeric2 (x : float) : Numeric :=
  match Js.shortest x with
  | Js.NotANumber => NaN
  | Js.Infinite negative => Infinity negative
  | Js.Digits negative s e =>
      let h := if 0 <=? e + 2 then s * 10 ^ (e + 2)
               else (2 * s + 10 ^ (- (e + 2))) / (2 * 10 ^ (- (e + 2))) in
      Decimal (if negative then - h else h)
  end.

(** Table [daily_metrics]; [UNIQUE (client_id, date)].  A row holds the
    values its columns take for the statement's parameters:
    [avg_session_duration DECIMAL(10,2)] and [bounce_rate DECIMAL(5,2)] hold
    the numbers rounded to two decimals.  What the server does with a value
    its column type cannot take (an [INTEGER] out of range, a [DECIMAL(5,2)]
    that rounds to 1000 or more, an infinity, a text that is no date) is an
    error of the statement, which the environment decides. *)
Record DailyMetricsRow := mkDaily {
  dm_id : Z;
  dm_client_id : Z;
  dm_date : string;
  dm_sessions : Z;
  dm_users : Z;
  dm_new_users : Z;
  dm_pageviews : Z;
  dm_avg_session_duration : Numeric;
  dm_bounce_rate : Numeric;
  dm_organic_sessions : Z;
  dm_synced_at : Z;
  dm_created_at : Z
}.

(** Table [sync_logs] *)
Record SyncLogRow := mkSyncLog {
  sl_id : Z;
  sl_client_id : option Z;
  sl_sync_date : string;
  sl_status : SyncStatus;
  sl_records_synced : Z;
  sl_error_message : option string;
  sl_execution_time_ms : Z;
  sl_created_at : Z
}.

Record Database := mkDatabase {
  clients : list ClientRow;
  daily_metrics : list DailyMetricsRow;
  sync_logs : list SyncLogRow;
  daily_metrics_id_seq : Z;
  sync_logs_id_seq : Z
}.

(** The statements the sync service sends. *)
Inductive Statement :=
| SelectActiveClients
    (* SELECT id, name, ga_property_id, timezone FROM clients
       WHERE is_active = true ORDER BY name *)
| SelectClientById (clientId : Z)
    (* SELECT id, name, ga_property_id FROM clients WHERE id = $1 *)
| UpsertDailyMetrics (clientId : Z) (date : string) (metrics : Ga4.Metrics)
    (* INSERT INTO daily_metrics (...) VALUES ($1, ..., $9, NOW())
       ON CONFLICT (client_id, date) DO UPDATE SET ... , synced_at = NOW() *)
| InsertSyncLog (clientId : Z) (syncDate : string) (status : SyncStatus)
    (recordsSynced : Z) (errorMessage : option string) (executionTime : Z).
    (* INSERT INTO sync_logs (...) VALUES ($1, ..., $6) *)

(** [ORDER BY name]: a stable insertion sort on the byte order of strings. *)
Fixpoint insert_by_name (c : ClientRow) (l : list ClientRow) : list ClientRow :=
  match l with
  | [] => [c]
  | x :: rest =>
      if String.leb (name c) (name x) then c :: l
      else x :: insert_by_name c rest
  end.

Definition order_by_name (l : list ClientRow) : list ClientRow :=
  fold_right insert_by_name [] l.

Definition same_key (clientId : Z) (date : string) (r : DailyMetricsRow) : bool :=
  (dm_client_id r =? clientId) && String.eqb (dm_date r) date.

(** [DO UPDATE SET]: every metric column and [synced_at] of the conflicting
    row are overwritten, the two [DECIMAL] columns with the rounded numbers;
    [id], the key and [created_at] stay. *)
Definition overwrite (m : Ga4.Metrics) (now : Z) (r : DailyMetricsRow) : DailyMetricsRow :=
  {| dm_id := dm_id r;
     dm_client_id := dm_client_id r;
     dm_date := dm_date r;
     dm_sessions := Ga4.sessions m;
     dm_users := Ga4.users m;
     dm_new_users := Ga4.newUsers m;
     dm_pageviews := Ga4.pageviews m;
     dm_avg_session_duration := numeric2 (Ga4.avgSessionDuration m);
     dm_bounce_rate := numeric2 (Ga4.bounceRate m);
     dm_organic_sessions := Ga4.organicSessions m;
     dm_synced_at := now;
     dm_created_at := dm_created_at r |}.

Definition fresh_row (rowId clientId : Z) (date : string) (m : Ga4.Metrics) (now : Z)
  : DailyMetricsRow :=
  {| dm_id := rowId;
     dm_client_id := clientId;
     dm_date := date;
     dm_sessions := Ga4.sessions m;
     dm_users := Ga4.users m;
     dm_new_users := Ga4.newUsers m;
     dm_pageviews := Ga4.pageviews m;
     dm_avg_session_duration := numeric2 (Ga4.avgSessionDuration m);
     dm_bounce_rate := numeric2 (Ga4.bounceRate m);
     dm_organic_sessions := Ga4.organicSessions m;
     dm_synced_at := now;
     dm_created_at := now |}.

(** [INSERT ... ON CONFLICT (client_id, date) DO UPDATE] on the table. *)
Definition upsert (table : list DailyMetricsRow) (rowId clientId : Z) (date : string)
    (m : Ga4.Metrics) (now : Z) : list DailyMetricsRow :=
  if existsb (same_key clientId date) table
  then map (fun r => if same_key clientId date r then overwrite m now r else r) table
  else table ++ [fresh_row rowId clientId date m now].

(** Runs a statement at time [now]: the rows it returns (of [clients]; the
    inserts return none) and the database after it. *)
Definition execute (st : Statement) (now : Z) (db : Database)
  : list ClientRow * Database :=
  match st with
  | SelectActiveClients =>
      (order_by_name (filter is_active (clients db)), db)
  | SelectClientById clientId =>
      (filter (fun c => id c =? clientId) (clients db), db)
  | UpsertDailyMetrics clientId date m =>
      ([], {| clients := clients db;
              daily_metrics :=
                upsert (daily_metrics db) (daily_metrics_id_seq db) clientId date m now;
              sync_logs := sync_logs db;
              daily_metrics_id_seq := daily_metrics_id_seq db + 1;
              sync_logs_id_seq := sync_logs_id_seq db |})
  | InsertSyncLog clientId syncDate status recordsSynced errorMessage executionTime =>
      ([], {| clients := clients db;
              daily_metrics := daily_metrics db;
              sync_logs := sync_logs db ++
                [mkSyncLog (sync_logs_id_seq db) (Some clientId) syncDate status
                   recordsSynced errorMessage executionTime now];
              daily_metrics_id_seq := daily_metrics_id_seq db;
              sync_logs_id_seq := sync_logs_id_seq db + 1 |})
  end.

End Db.

(* ================================================================= *)
(** * The world of the process *)

(** What the process writes to its console, one constructor per call site. *)
Inductive Message :=
(* config/database.js *)
| SlowQuery (duration : Z) (st : Db.Statement)
| DatabaseQueryError (e : Js.Error)
(* services/ga4Service.js *)
| FetchingGA4Data (propertyId date : string)
| FetchedMetrics (date : string) (result : Ga4.Metrics)
| ErrorFetchingGA4Data (propertyId msg : string)
| CannotAccessProperty (propertyId msg : string)
| HintReauthenticate
(* services/syncService.js *)
| SyncingClient (name propertyId date : string)
| SyncedClient (name date : string) (executionTime : Z)
| FailedToSync (name date msg : string)
| Banner
| StartingDailySync (date : string)
| NoActiveClients
| FoundActiveClients (n : Z)
| SyncCompleted (date : string)
| TotalClients (n : Z)
| Successful (n : Z)
| Failed (n : Z)
| TotalTime (ms : Z)
| FatalSyncError (e : Js.Error)
| StartingBackfill (clientId : Z) (startDate endDate : string)
| BackfillingDays (n : Z)
| BackfillCompleted (successCount failureCount : Z)
| BackfillError (e : Js.Error)
| FailedToLogSync (e : Js.Error).

Inductive Level := Log | Warn | Err.

Record World := mkWorld {
  db : Db.Database;
  now : Z;
  console : list (Level * Message)
}.

(** What the process does not control: its time zone, how the provider
    answers a request and how long it takes, and whether the database server
    executes a statement or raises an error (a lost connection, a violated
    constraint, a value out of range) and how long it takes. *)
Record Env := mkEnv {
  processTimeZone : JsDate.TimeZone;
  runReportResult : Ga4.ReportRequest -> Completion Ga4.Response;
  runReportMs : Ga4.ReportRequest -> N;
  getMetadataResult : string -> Completion unit;
  getMetadataMs : string -> N;
  statementFault : Db.Statement -> option Js.Error;
  statementMs : Db.Statement -> N
}.

(** An asynchronous computation: from a world to a completion and the world
    it leaves. *)
Definition Async (A : Type) : Type := World -> Completion A * World.

Definition ret {A} (a : A) : Async A := fun w => (Resolved a, w).

Definition bind {A B} (m : Async A) (k : A -> Async B) : Async B :=
  fun w =>
    match m w with
    | (Resolved a, w') => k a w'
    | (Rejected e, w') => (Rejected e, w')
    end.

Definition throw {A} (e : Js.Error) : Async A := fun w => (Rejected e, w).

(** [try { m } catch (error) { handler error }] *)
Definition tryCatch {A} (m : Async A) (handler : Js.Error -> Async A) : Async A :=
  fun w =>
    match m w with
    | (Resolved a, w') => (Resolved a, w')
    | (Rejected e, w') => handler e w'
    end.

Definition liftC {A} (c : Completion A) : Async A := fun w => (c, w).

Declare Scope async_scope.
Delimit Scope async_scope with async.
Notation "x <- m ;; k" := (bind m (fun x => k))
  (at level 100, m at next level, right associativity) : async_scope.
Notation "m ;; k" := (bind m (fun _ => k))
  (at level 100, right associativity) : async_scope.
Open Scope async_scope.

(** [for (const x of xs) { r = await body(x); results.push(r) }] *)
Fixpoint forEach {A B} (xs : list A) (body : A -> Async B) : Async (list B) :=
  match xs with
  | [] => ret []
  | x :: rest =>
      r <- body x ;;
      rs <- forEach rest body ;;
      ret (r :: rs)
  end.

Definition advance (ms : Z) (w : World) : World :=
  mkWorld (db w) (now w + ms) (console w).

Definition say (l : Level) (m : Message) : Async unit :=
  fun w => (Resolved tt, mkWorld (db w) (now w) (console w ++ [(l, m)])).

(** [console.log], [console.warn], [console.error] *)
Definition console_log := say Log.
Definition console_warn := say Warn.
Definition console_error := say Err.

(** [Date.now()] *)
Definition dateNow : Async Z := fun w => (Resolved (now w), w).

(** [await sleep(ms)] *)
Definition sleep (ms : Z) : Async unit := fun w => (Resolved tt, advance ms w).

(** [analyticsDataClient.runReport(request)], its first element. *)
Definition runReport (env : Env) (request : Ga4.ReportRequest) : Async Ga4.Response :=
  fun w => (runReportResult env request, advance (Z.of_N (runReportMs env request)) w).

(** [analyticsDataClient.getMetadata({ name })] *)
Definition getMetadata (env : Env) (name : string) : Async unit :=
  fun w => (getMetadataResult env name, advance (Z.of_N (getMetadataMs env name)) w).

(** [pool.query(text, params)] *)
Definition poolQuery (env : Env) (st : Db.Statement) : Async (list Db.ClientRow) :=
  fun w =>
    let w' := advance (Z.of_N (statementMs env st)) w in
    match statementFault env st with
    | Some e => (Rejected e, w')
    | None =>
        let '(rows, db') := Db.execute st (now w') (db w') in
        (Resolved rows, mkWorld db' (now w') (console w'))
    end.

(** [query(text, params)] of [config/database.js] *)
Definition query (env : Env) (st : Db.Statement) : Async (list Db.ClientRow) :=
  start <- dateNow ;;
  tryCatch
    (res <- poolQuery env st ;;
     finish <- dateNow ;;
     let duration := finish - start in
     (if 1000 <? duration then console_warn (SlowQuery duration st) else ret tt) ;;
     ret res)
    (fun err =>
       console_error (DatabaseQueryError err) ;;
       throw err).

(* ================================================================= *)
(** * [services/ga4Service.js] *)

Definition dquote : string := String (ascii_of_nat 34) "".

Definition sessionExpired : Js.Error :=
  Js.newError ("Google Cloud session expired. Please run " ++ dquote ++
               "gcloud auth application-default login" ++ dquote ++
               " to re-authenticate.").

Definition fetchDailyMetrics (env : Env) (propertyId date : string) : Async Ga4.Metrics :=
  tryCatch
    (console_log (FetchingGA4Data propertyId date) ;;
     let property := "properties/" ++ propertyId in
     totalResponse <- runReport env (Ga4.mkRequest property date date false) ;;
     organicResponse <- runReport env (Ga4.mkRequest property date date true) ;;
     totalMetrics <- liftC (Ga4.parseMetricsResponse totalResponse) ;;
     organicSessions <- liftC (Ga4.parseOrganicSessions organicResponse) ;;
     let result :=
       {| Ga4.date := date;
          Ga4.sessions := Ga4.t_sessions totalMetrics;
          Ga4.users := Ga4.t_users totalMetrics;
          Ga4.newUsers := Ga4.t_newUsers totalMetrics;
          Ga4.pageviews := Ga4.t_pageviews totalMetrics;
          Ga4.avgSessionDuration := Ga4.t_avgSessionDuration totalMetrics;
          Ga4.bounceRate := Ga4.t_bounceRate totalMetrics;
          Ga4.organicSessions := organicSessions |} in
     console_log (FetchedMetrics date result) ;;
     ret result)
    (fun err =>
       console_error (ErrorFetchingGA4Data propertyId (Js.message err)) ;;
       if Js.code_is err "PERMISSION_DENIED" then
         throw (Js.newError ("Permission denied for property " ++ propertyId ++
                             ". Ensure service account has Viewer access."))
       else if Js.code_is err "INVALID_ARGUMENT" then
         throw (Js.newError ("Invalid property ID or date format: " ++ propertyId ++
                             ", " ++ date))
       else if Js.code_is err "RESOURCE_EXHAUSTED" then
         throw (Js.newError "GA4 API quota exceeded. Please try again later.")
       else if Js.includes "invalid_rapt" (Js.message err) then
         throw sessionExpired
       else throw err).

Definition validatePropertyAccess (env : Env) (propertyId : string) : Async bool :=
  tryCatch
    (let property := "properties/" ++ propertyId in
     getMetadata env (property ++ "/metadata") ;;
     ret true)
    (fun err =>
       console_error (CannotAccessProperty propertyId (Js.message err)) ;;
       (if Js.includes "invalid_rapt" (Js.message err)
        then console_error HintReauthenticate else ret tt) ;;
       ret false).

(* ================================================================= *)
(** * [services/syncService.js] *)

Module Sync.

(** The object [syncClientMetrics] resolves with; [metrics] is present on
    success and [error] on failure. *)
Record Result := mkResult {
  r_success : bool;
  clientId : Z;
  clientName : string;
  r_date : string;
  metrics : option Ga4.Metrics;
  error : option string;
  executionTime : Z
}.

(** The object [syncAllClients] resolves with; the summary of an empty roster
    has neither [date] nor [totalTime]. *)
Record Summary := mkSummary {
  success : bool;
  date : option string;
  totalClients : Z;
  successCount : Z;
  failureCount : Z;
  totalTime : option Z;
  results : list Result
}.

(** The object [backfillClientData] resolves with. *)
Record BackfillSummary := mkBackfill {
  b_success : bool;
  b_clientId : Z;
  startDate : string;
  endDate : string;
  totalDays : Z;
  b_successCount : Z;
  b_failureCount : Z;
  b_results : list Result
}.

(** [xs.length] *)
Definition len {A} (xs : list A) : Z := Z.of_nat (List.length xs).

Definition logSync (env : Env) (clientId : Z) (syncDate : string)
    (status : Db.SyncStatus) (recordsSynced : Z) (errorMessage : option string)
    (executionTime : Z) : Async unit :=
  tryCatch
    (query env (Db.InsertSyncLog clientId syncDate status recordsSynced
                  errorMessage executionTime) ;;
     ret tt)
    (fun err => console_error (FailedToLogSync err)).

Definition syncClientMetrics (env : Env) (client : Db.ClientRow) (date : string)
  : Async Result :=
  startTime <- dateNow ;;
  tryCatch
    (console_log (SyncingClient (Db.name client) (Db.ga_property_id client) date) ;;
     metrics <- fetchDailyMetrics env (Db.ga_property_id client) date ;;
     query env (Db.UpsertDailyMetrics (Db.id client) date metrics) ;;
     finish <- dateNow ;;
     let executionTime := finish - startTime in
     logSync env (Db.id client) date Db.success 1 None executionTime ;;
     console_log (SyncedClient (Db.name client) date executionTime) ;;
     ret {| r_success := true;
            clientId := Db.id client;
            clientName := Db.name client;
            r_date := date;
            metrics := Some metrics;
            error := None;
            executionTime := executionTime |})
    (fun err =>
       finish <- dateNow ;;
       let executionTime := finish - startTime in
       logSync env (Db.id client) date Db.failed 0 (Some (Js.message err)) executionTime ;;
       console_error (FailedToSync (Db.name client) date (Js.message err)) ;;
       ret {| r_success := false;
              clientId := Db.id client;
              clientName := Db.name client;
              r_date := date;
              metrics := None;
              error := Some (Js.message err);
              executionTime := executionTime |}).

Definition syncAllClients (env : Env) (date : string) : Async Summary :=
  console_log Banner ;;
  console_log (StartingDailySync date) ;;
  console_log Banner ;;
  startTime <- dateNow ;;
  tryCatch
    (clients <- query env Db.SelectActiveClients ;;
     if len clients =? 0 then
       console_log NoActiveClients ;;
       ret {| success := true;
              date := None;
              totalClients := 0;
              successCount := 0;
              failureCount := 0;
              totalTime := None;
              results := [] |}
     else
       console_log (FoundActiveClients (len clients)) ;;
       results <- forEach clients (fun client =>
                    result <- syncClientMetrics env client date ;;
                    sleep 500 ;;
                    ret result) ;;
       let successCount := len (filter r_success results) in
       let failureCount := len (filter (fun r => negb (r_success r)) results) in
       finish <- dateNow ;;
       let totalTime := finish - startTime in
       console_log Banner ;;
       console_log (SyncCompleted date) ;;
       console_log (TotalClients (len clients)) ;;
       console_log (Successful successCount) ;;
       console_log (Failed failureCount) ;;
       console_log (TotalTime totalTime) ;;
       console_log Banner ;;
       ret {| success := failureCount =? 0;
              date := Some date;
              totalClients := len clients;
              successCount := successCount;
              failureCount := failureCount;
              totalTime := Some totalTime;
              results := results |})
    (fun err =>
       console_error (FatalSyncError err) ;;
       throw err).

(** [getYesterdayDate()]: [new Date()], [setDate(getDate() - 1)], then the
    date part of [toISOString()]. *)
Definition getYesterdayDate (env : Env) : Async string :=
  yesterday <- dateNow ;;
  let tz := processTimeZone env in
  let yesterday := JsDate.setDate tz (JsDate.getDate tz yesterday - 1) yesterday in
  ret (JsDate.isoDate yesterday).

Definition syncYesterday (env : Env) : Async Summary :=
  yesterday <- getYesterdayDate env ;;
  syncAllClients env yesterday.

(** The loop of [generateDateRange]: [fuel] bounds the number of rounds. *)
Fixpoint dateLoop (tz : JsDate.TimeZone) (fuel : nat) (current finish : Z) : list string :=
  match fuel with
  | O => []
  | S fuel' =>
      if current <=? finish then
        JsDate.isoDate current ::
        dateLoop tz fuel' (JsDate.setDate tz (JsDate.getDate tz current + 1) current) finish
      else []
  end.

(** Every round moves [current] forward by at least 23 hours, so the loop
    ends within this many rounds (see [dateLoop_enough] below). *)
Definition roundsBound (current finish : Z) : nat :=
  Z.to_nat ((finish - current) / (JsDate.msPerDay - JsDate.msPerHour) + 1).

(** [generateDateRange(startDate, endDate)]; comparing an invalid date is
    false, so the loop does not run then. *)
Definition generateDateRange (tz : JsDate.TimeZone) (startDate endDate : string)
  : list string :=
  match JsDate.parse startDate, JsDate.parse endDate with
  | Some current, Some finish => dateLoop tz (roundsBound current finish) current finish
  | _, _ => []
  end.

Definition backfillClientData (env : Env) (clientId : Z) (startDate endDate : string)
  : Async BackfillSummary :=
  console_log (StartingBackfill clientId startDate endDate) ;;
  tryCatch
    (clientResult <- query env (Db.SelectClientById clientId) ;;
     match clientResult with
     | [] => throw (Js.newError ("Client " ++ Js.intToString clientId ++ " not found"))
     | client :: _ =>
         let dates := generateDateRange (processTimeZone env) startDate endDate in
         console_log (BackfillingDays (len dates)) ;;
         results <- forEach dates (fun date =>
                      result <- syncClientMetrics env client date ;;
                      sleep 1000 ;;
                      ret result) ;;
         let successCount := len (filter r_success results) in
         let failureCount := len (filter (fun r => negb (r_success r)) results) in
         console_log (BackfillCompleted successCount failureCount) ;;
         ret {| b_success := true;
                b_clientId := clientId;
                startDate := startDate;
                endDate := endDate;
                totalDays := len dates;
                b_successCount := successCount;
                b_failureCount := failureCount;
                b_results := results |}
     end)
    (fun err =>
       console_error (BackfillError err) ;;
       throw err).

End Sync.

(* ================================================================= *)
(** * The entry points that start a sync, on the event loop

    [syncYesterday()] runs synchronously up to its first [await] (the roster
    query) and then in turns, one per settled [await].  A run of the process
    is a sequence of events: requests and timers that call an entry point,
    and settlements that let one pending sync take its next turn. *)

Module EventLoop.

Inductive Origin :=
| AutoSync        (* middleware/autoSync.js: triggerBackgroundSync() *)
| ManualTrigger   (* routes/metrics.js: POST /api/metrics/sync *)
| ScheduledRun    (* jobs/dailySync.js: the cron callback *)
| RunSyncNow.     (* jobs/dailySync.js: runSyncNow() *)

Definition Origin_eqb (a b : Origin) : bool :=
  match a, b with
  | AutoSync, AutoSync | ManualTrigger, ManualTrigger
  | ScheduledRun, ScheduledRun | RunSyncNow, RunSyncNow => true
  | _, _ => false
  end.

(** Where a call of [syncAllClients] is waiting. *)
Inductive Phase :=
| LoadingRoster                               (* await query(SELECT ... clients) *)
| SyncingClient (client : Z) (rest : list Z)  (* await syncClientMetrics(client, date) *)
| Sleeping (rest : list Z)                    (* await sleep(500) *)
| Settled.                                    (* the promise is resolved or rejected *)

Record Task := mkTask {
  origin : Origin;
  phase : Phase
}.

(** The module variable [syncInProgress] of [autoSync.js], and every call of
    [syncYesterday] made so far, oldest first. *)
Record Process := mkProcess {
  syncInProgress : bool;
  tasks : list Task
}.

Definition initial : Process := mkProcess false [].

Inductive Event :=
| AutoSyncDue                                (* the middleware decides a sync is due *)
| PostSync (role : string)                   (* POST /api/metrics/sync by a user *)
| CronTick                                   (* the schedule fires *)
| RunSyncNowCalled                           (* runSyncNow() is called *)
| RosterLoaded (task : nat) (roster : list Z)
| RosterFailed (task : nat)
| ClientSynced (task : nat)
| SleepOver (task : nat).

(** Calling [syncYesterday()]: the new call waits for the roster. *)
Definition startSync (o : Origin) (p : Process) : Process :=
  mkProcess (syncInProgress p) (tasks p ++ [mkTask o LoadingRoster]).

(** [triggerBackgroundSync()] *)
Definition triggerBackgroundSync (p : Process) : Process :=
  if syncInProgress p then p
  else startSync AutoSync (mkProcess true (tasks p)).

(** The handler of [POST /api/metrics/sync]. *)
Definition postSync (role : string) (p : Process) : Process :=
  if negb (String.eqb role "admin") then p
  else startSync ManualTrigger p.

(** The rest of the loop over the roster. *)
Definition continue (rest : list Z) : Phase :=
  match rest with
  | [] => Settled
  | client :: rest' => SyncingClient client rest'
  end.

(** The next turn of a pending call on a settlement; [None] when the event
    does not settle what the call is waiting for. *)
Definition turn (ph : Phase) (e : Event) : option Phase :=
  match ph, e with
  | LoadingRoster, RosterLoaded _ roster => Some (continue roster)
  | LoadingRoster, RosterFailed _ => Some Settled
  | SyncingClient _ rest, ClientSynced _ => Some (Sleeping rest)
  | Sleeping rest, SleepOver _ => Some (continue rest)
  | _, _ => None
  end.

Definition isSettled (ph : Phase) : bool :=
  match ph with Settled => true | _ => false end.

(** The [.then] and [.catch] callbacks of [triggerBackgroundSync] clear the
    flag when the call it started settles. *)
Definition settle (o : Origin) (ph : Phase) (flag : bool) : bool :=
  if isSettled ph && Origin_eqb o AutoSync then false else flag.

Fixpoint replace {A} (i : nat) (x : A) (l : list A) : list A :=
  match l, i with
  | [], _ => []
  | _ :: rest, O => x :: rest
  | y :: rest, S i' => y :: replace i' x rest
  end.

Definition resume (i : nat) (e : Event) (p : Process) : Process :=
  match nth_error (tasks p) i with
  | Some t =>
      match turn (phase t) e with
      | Some ph =>
          mkProcess (settle (origin t) ph (syncInProgress p))
                    (replace i (mkTask (origin t) ph) (tasks p))
      | None => p
      end
  | None => p
  end.

Definition step (p : Process) (e : Event) : Process :=
  match e with
  | AutoSyncDue => triggerBackgroundSync p
  | PostSync role => postSync role p
  | CronTick => startSync ScheduledRun p
  | RunSyncNowCalled => startSync RunSyncNow p
  | RosterLoaded i _ | RosterFailed i | ClientSynced i | SleepOver i => resume i e p
  end.

Definition run (events : list Event) : Process := fold_left step events initial.

(** The tenant a call is syncing right now, if any. *)
Definition inFlight (t : Task) : option Z :=
  match phase t with
  | SyncingClient client _ => Some client
  | _ => None
  end.

Definition syncs (client : Z) (t : Task) : bool :=
  match inFlight t with
  | Some c => c =? client
  | None => false
  end.

(** Two of the calls selected by [sel] are syncing the same tenant. *)
Fixpoint overlapAmong (sel : Task -> bool) (ts : list Task) : bool :=
  match ts with
  | [] => false
  | t :: rest =>
      (sel t &&
       match inFlight t with
       | Some c => existsb (fun u => sel u && syncs c u) rest
       | None => false
       end) || overlapAmong sel rest
  end.

Definition overlap (p : Process) : bool := overlapAmong (fun _ => true) (tasks p).

Definition fromAutoSync (t : Task) : bool := Origin_eqb (origin t) AutoSync.

Definition autoSyncOverlap (p : Process) : bool := overlapAmong fromAutoSync (tasks p).

(** A call started by the auto-sync middleware that has not settled yet. *)
Definition pendingAutoSync (t : Task) : bool :=
  fromAutoSync t && negb (isSettled (phase t)).

Definition countIf {A} (q : A -> bool) (l : list A) : nat := List.length (filter q l).

Definition b2n (b : bool) : nat := if b then 1%nat else 0%nat.

(** The flag of [autoSync.js] is set exactly while the call it started is
    pending, and there is at most one such call. *)
Definition flagInvariant (p : Process) : Prop :=
  countIf pendingAutoSync (tasks p) = b2n (syncInProgress p).

End EventLoop.

(* ================================================================= *)
(** * Vocabulary of the properties *)

(** The active tenants, in the order [syncAllClients] visits them. *)
Definition roster (w : World) : list Db.ClientRow :=
  Db.order_by_name (filter Db.is_active (Db.clients (db w))).

Definition key (r : Db.DailyMetricsRow) : Z * string := (Db.dm_client_id r, Db.dm_date r).

(** The date and the metric columns of a row of [daily_metrics]. *)
Record Columns := mkColumns {
  c_date : string;
  c_sessions : Z;
  c_users : Z;
  c_new_users : Z;
  c_pageviews : Z;
  c_avg_session_duration : Db.Numeric;
  c_bounce_rate : Db.Numeric;
  c_organic_sessions : Z
}.

Definition rowMetrics (r : Db.DailyMetricsRow) : Columns :=
  mkColumns (Db.dm_date r) (Db.dm_sessions r) (Db.dm_users r) (Db.dm_new_users r)
    (Db.dm_pageviews r) (Db.dm_avg_session_duration r) (Db.dm_bounce_rate r)
    (Db.dm_organic_sessions r).

(** The columns as they hold a record of metrics: the counts as they are,
    the duration and the rate rounded to two decimals, as [DECIMAL(10,2)]
    and [DECIMAL(5,2)] store them. *)
Definition stored (m : Ga4.Metrics) : Columns :=
  mkColumns (Ga4.date m) (Ga4.sessions m) (Ga4.users m) (Ga4.newUsers m)
    (Ga4.pageviews m) (Db.numeric2 (Ga4.avgSessionDuration m))
    (Db.numeric2 (Ga4.bounceRate m)) (Ga4.organicSessions m).

Definition rowsFor (clientId : Z) (date : string) (w : World) : list Db.DailyMetricsRow :=
  filter (Db.same_key clientId date) (Db.daily_metrics (db w)).

Definition newLogs (before after : World) : list Db.SyncLogRow :=
  skipn (List.length (Db.sync_logs (db before))) (Db.sync_logs (db after)).

Definition logOf (clientId : Z) (l : Db.SyncLogRow) : bool :=
  match Db.sl_client_id l with
  | Some i => i =? clientId
  | None => false
  end.

Definition auditWritesSucceed (env : Env) : Prop :=
  forall clientId date status n msg ms,
    statementFault env (Db.InsertSyncLog clientId date status n msg ms) = None.

Definition upsertsSucceed (env : Env) : Prop :=
  forall clientId date m, statementFault env (Db.UpsertDailyMetrics clientId date m) = None.

(** What one call of [logSync] leaves behind: the row it inserted, or, when
    the insert failed, nothing but a console line. *)
Definition Audit (env : Env) (w w' : World) (clientId : Z) (date : string)
    (status : Db.SyncStatus) (n : Z) (msg : option string) (ms : Z) : Prop :=
  match statementFault env (Db.InsertSyncLog clientId date status n msg ms) with
  | None =>
      exists t,
        Db.sync_logs (db w') =
        (Db.sync_logs (db w) ++
           [Db.mkSyncLog (Db.sync_logs_id_seq (db w)) (Some clientId) date status n msg ms t])%list
  | Some e =>
      Db.sync_logs (db w') = Db.sync_logs (db w) /\
      In (Err, FailedToLogSync e) (console w')
  end.

(** One sync attempt for a tenant and a date, from the world [w]: the result
    it resolves with and the world it leaves. *)
Inductive Attempt (env : Env) (client : Db.ClientRow) (date : string) (w : World)
  : Sync.Result -> World -> Prop :=
| AttemptStored m t ms w' :
    (forall w0, fst (fetchDailyMetrics env (Db.ga_property_id client) date w0) = Resolved m) ->
    statementFault env (Db.UpsertDailyMetrics (Db.id client) date m) = None ->
    now w <= t <= now w' ->
    Db.clients (db w') = Db.clients (db w) ->
    Db.daily_metrics (db w') =
      Db.upsert (Db.daily_metrics (db w)) (Db.daily_metrics_id_seq (db w))
        (Db.id client) date m t ->
    Audit env w w' (Db.id client) date Db.success 1 None ms ->
    Attempt env client date w
      (Sync.mkResult true (Db.id client) (Db.name client) date (Some m) None ms) w'
| AttemptFailed e ms w' :
    ((forall w0, fst (fetchDailyMetrics env (Db.ga_property_id client) date w0) = Rejected e) \/
     (exists m,
        (forall w0, fst (fetchDailyMetrics env (Db.ga_property_id client) date w0) = Resolved m) /\
        statementFault env (Db.UpsertDailyMetrics (Db.id client) date m) = Some e)) ->
    now w <= now w' ->
    Db.clients (db w') = Db.clients (db w) ->
    Db.daily_metrics (db w') = Db.daily_metrics (db w) ->
    Audit env w w' (Db.id client) date Db.failed 0 (Some (Js.message e)) ms ->
    Attempt env client date w
      (Sync.mkResult false (Db.id client) (Db.name client) date None (Some (Js.message e)) ms) w'.

(** A loop of sync attempts over (tenant, date) pairs, each followed by a
    pause. *)
Inductive Attempts (env : Env)
  : list (Db.ClientRow * string) -> World -> list Sync.Result -> World -> Prop :=
| AttemptsDone w : Attempts env [] w [] w
| AttemptsNext client date rest w r w1 rs w2 :
    Attempt env client date w r w1 ->
    Attempts env rest w1 rs w2 ->
    Attempts env ((client, date) :: rest) w (r :: rs) w2.

Definition jobKey (j : Db.ClientRow * string) : Z * string := (Db.id (fst j), snd j).

(** The audit row that documents a result. *)
Definition documents (l : Db.SyncLogRow) (r : Sync.Result) : Prop :=
  Db.sl_client_id l = Some (Sync.clientId r) /\
  Db.sl_sync_date l = Sync.r_date r /\
  Db.sl_status l = (if Sync.r_success r then Db.success else Db.failed) /\
  Db.sl_records_synced l = (if Sync.r_success r then 1 else 0) /\
  Db.sl_error_message l = Sync.error r /\
  Db.sl_execution_time_ms l = Sync.executionTime r.

(** The record of a day without traffic. *)
Definition zeroMetrics (date : string) : Ga4.Metrics :=
  Ga4.mkMetrics date 0 0 0 0 zero zero 0.

(** The columns of a row that holds it: 0 and 0.00. *)
Definition zeroColumns (date : string) : Columns :=
  mkColumns date 0 0 0 0 (Db.Decimal 0) (Db.Decimal 0) 0.

(** [!response.rows || response.rows.length === 0] *)
Definition noRows (response : Ga4.Response) : Prop :=
  Ga4.rows response = None \/ Ga4.rows response = Some [].

(** An error that says the credential has no access to the property: gRPC
    status 7, or its name as a string. *)
Definition accessDenied (e : Js.Error) : bool :=
  match Js.code e with
  | Some (Js.CodeNum 7) => true
  | Some (Js.CodeStr s) => String.eqb s "PERMISSION_DENIED"
  | _ => false
  end.

Definition isAuditInsert (st : Db.Statement) : bool :=
  match st with
  | Db.InsertSyncLog _ _ _ _ _ _ => true
  | _ => false
  end.

(** Two environments that differ at most in how the audit insert goes. *)
Definition sameExceptAudit (env env' : Env) : Prop :=
  processTimeZone env = processTimeZone env' /\
  (forall request, runReportResult env request = runReportResult env' request) /\
  (forall request, runReportMs env request = runReportMs env' request) /\
  (forall st, isAuditInsert st = false ->
     statementFault env st = statementFault env' st /\
     statementMs env st = statementMs env' st).

(** The attempt up to the call of [logSync]: the result it will resolve
    with, and the world in which [logSync] is called. *)
Definition beforeAudit (env : Env) (client : Db.ClientRow) (date : string) (w : World)
  : Sync.Result * World :=
  let w1 := snd (console_log
                   (SyncingClient (Db.name client) (Db.ga_property_id client) date) w) in
  match fetchDailyMetrics env (Db.ga_property_id client) date w1 with
  | (Resolved m, w2) =>
      match query env (Db.UpsertDailyMetrics (Db.id client) date m) w2 with
      | (Resolved _, w3) =>
          (Sync.mkResult true (Db.id client) (Db.name client) date (Some m) None
             (now w3 - now w), w3)
      | (Rejected e, w3) =>
          (Sync.mkResult false (Db.id client) (Db.name client) date None
             (Some (Js.message e)) (now w3 - now w), w3)
      end
  | (Rejected e, w2) =>
      (Sync.mkResult false (Db.id client) (Db.name client) date None
         (Some (Js.message e)) (now w2 - now w), w2)
  end.

Definition auditStatement (r : Sync.Result) : Db.Statement :=
  Db.InsertSyncLog (Sync.clientId r) (Sync.r_date r)
    (if Sync.r_success r then Db.success else Db.failed)
    (if Sync.r_success r then 1 else 0) (Sync.error r) (Sync.executionTime r).

(** The calendar date of a day number, as text. *)
Definition calendarDate (day : Z) : string :=
  let '(y, m, d) := JsDate.civil_from_days day in
  JsDate.isoYear y ++ "-" ++ Js.pad 2 m ++ "-" ++ Js.pad 2 d.

(** Yesterday on the calendar of the process's time zone. *)
Definition localYesterday (tz : JsDate.TimeZone) (now : Z) : string :=
  calendarDate (JsDate.Day (JsDate.LocalTime tz now) - 1).

(** The days [first], [first + 1], ..., [count] of them. *)
Definition daysFrom (first : Z) (count : nat) : list Z :=
  map (fun i => first + Z.of_nat i) (seq 0 count).

Fixpoint noT (s : string) : bool :=
  match s with
  | EmptyString => true
  | String c rest => negb (Ascii.eqb c "T") && noT rest
  end.

(** [SELECT ... FROM clients WHERE id = $1] *)
Definition lookup (clientId : Z) (w : World) : list Db.ClientRow :=
  filter (fun c => Db.id c =? clientId) (Db.clients (db w)).

(* ================================================================= *)
(** * Concrete situations

    Tables, provider answers and process environments that the statements
    below are run on. *)

Module Scenario.

Definition birch : Db.ClientRow := Db.mkClient 2 "Birch" "222222" "Asia/Kolkata" true.

Definition clientsTable : list Db.ClientRow :=
  [ Db.mkClient 1 "Acme" "111111" "UTC" true;
    birch;
    Db.mkClient 3 "Cedar" "333333" "UTC" true;
    Db.mkClient 4 "Dormant" "444444" "UTC" false ].

Definition emptyTables : Db.Database := Db.mkDatabase clientsTable [] [] 1 1.

(** 2024-03-02 05:00 UTC *)
Definition world0 : World := mkWorld emptyTables 1709355600000 [].

(** No tenant is active. *)
Definition idleWorld : World :=
  mkWorld (Db.mkDatabase [Db.mkClient 4 "Dormant" "444444" "UTC" false] [] [] 1 1)
          1709355600000 [].

(** 2024-01-14 20:30 UTC, which is 02:00 on January 15 in India. *)
Definition earlyMorningInIndia : World := mkWorld emptyTables 1705264200000 [].

(** 2024-11-10 15:00 UTC *)
Definition november : World := mkWorld emptyTables 1731250800000 [].

Definition report (request : Ga4.ReportRequest) : Ga4.Response :=
  if Ga4.organicSearchOnly request
  then Ga4.mkResponse (Some [Ga4.mkRow ["20240301"] ["45"]])
  else Ga4.mkResponse
         (Some [Ga4.mkRow ["20240301"] ["120"; "80"; "30"; "400"; "95.5"; "0.38"]]).

(** A later answer of the provider for the same day. *)
Definition revisedReport (request : Ga4.ReportRequest) : Ga4.Response :=
  if Ga4.organicSearchOnly request
  then Ga4.mkResponse (Some [Ga4.mkRow ["20240301"] ["47"]])
  else Ga4.mkResponse
         (Some [Ga4.mkRow ["20240301"] ["131"; "85"; "32"; "420"; "97.25"; "0.4532"]]).

Definition revisedMetrics : Ga4.Metrics :=
  Ga4.mkMetrics "2024-03-01" 131 85 32 420 97.25%float
    (Js.parseFloat "0.4532" * 100)%float 47.

(** The columns of the row that holds it: 97.25 and 45.32. *)
Definition revisedRow : Columns :=
  mkColumns "2024-03-01" 131 85 32 420 (Db.Decimal 9725) (Db.Decimal 4532) 47.

(** gRPC status 7 *)
Definition permissionDenied : Js.Error :=
  Js.mkError (Some (Js.CodeNum 7))
    "7 PERMISSION_DENIED: User does not have sufficient permissions for this property.".

(** gRPC status 14 *)
Definition unavailable : Js.Error :=
  Js.mkError (Some (Js.CodeNum 14)) "14 UNAVAILABLE: No connection established".

Definition outage : Js.Error := Js.newError "Connection terminated unexpectedly".

(** A process in time zone [tz] whose provider answers with [answer] and
    whose database fails a statement as [fault] says. *)
Definition process (tz : JsDate.TimeZone)
    (answer : Ga4.ReportRequest -> Completion Ga4.Response)
    (fault : Db.Statement -> option Js.Error) : Env :=
  {| processTimeZone := tz;
     runReportResult := answer;
     runReportMs := fun _ => 120%N;
     getMetadataResult := fun _ => Resolved tt;
     getMetadataMs := fun _ => 40%N;
     statementFault := fault;
     statementMs := fun st => match fault st with Some _ => 10000%N | None => 5%N end |}.

(** Every request is answered, every statement runs. *)
Definition healthy : Env :=
  process JsDate.utcZone (fun request => Resolved (report request)) (fun _ => None).

(** As [healthy], with the later answers. *)
Definition revised : Env :=
  process JsDate.utcZone (fun request => Resolved (revisedReport request)) (fun _ => None).

(** An answer with more decimals than the table keeps. *)
Definition preciseReport (request : Ga4.ReportRequest) : Ga4.Response :=
  if Ga4.organicSearchOnly request
  then Ga4.mkResponse (Some [Ga4.mkRow ["20240301"] ["47"]])
  else Ga4.mkResponse
         (Some [Ga4.mkRow ["20240301"] ["131"; "85"; "32"; "420"; "95.123456"; "0.453211"]]).

(** As [healthy], with that answer. *)
Definition precise : Env :=
  process JsDate.utcZone (fun request => Resolved (preciseReport request)) (fun _ => None).

(** As [healthy], but the provider refuses every request about Birch's
    property. *)
Definition birchDenied : Env :=
  process JsDate.utcZone
    (fun request =>
       if String.eqb (Ga4.property request) "properties/222222"
       then Rejected permissionDenied
       else Resolved (report request))
    (fun _ => None).

(** As [healthy], but every insert into [sync_logs] fails. *)
Definition auditDown : Env :=
  process JsDate.utcZone (fun request => Resolved (report request))
    (fun st => if isAuditInsert st then Some outage else None).

(** A day without traffic: the unfiltered report comes without [rows], the
    filtered one with an empty list. *)
Definition noTraffic : Env :=
  process JsDate.utcZone
    (fun request =>
       Resolved (Ga4.mkResponse (if Ga4.organicSearchOnly request then Some [] else None)))
    (fun _ => None).

(** The provider cannot be reached. *)
Definition providerDown : Env :=
  {| processTimeZone := JsDate.utcZone;
     runReportResult := fun _ => Rejected unavailable;
     runReportMs := fun _ => 30000%N;
     getMetadataResult := fun _ => Rejected unavailable;
     getMetadataMs := fun _ => 30000%N;
     statementFault := fun _ => None;
     statementMs := fun _ => 5%N |}.

(** As [healthy], in India and in New York. *)
Definition inKolkata : Env :=
  process JsDate.kolkata (fun request => Resolved (report request)) (fun _ => None).

Definition inNewYork : Env :=
  process JsDate.newYork2024 (fun request => Resolved (report request)) (fun _ => None).

End Scenario.

(* ================================================================= *)
(** * Around the sync service

    The callers of the sync service and the other functions of its files:
    the range fetch of [services/ga4Service.js], the middleware of
    [middleware/autoSync.js] and [middleware/auth.js], the job of
    [jobs/dailySync.js], the tenant creation of [routes/clients.js], the
    export of [routes/metrics.js] and the backfill scripts. *)

(** ** Computations over a state

    A computation over a state [S] ends with a value or with a thrown
    exception and leaves a state; [Async] is the instance at [World]. *)

Module Run.

Definition t (S A : Type) : Type := S -> Completion A * S.

Section Operations.

Context {S : Type}.

Definition ret {A} (a : A) : t S A := fun s => (Resolved a, s).

Definition bind {A B} (m : t S A) (k : A -> t S B) : t S B :=
  fun s =>
    match m s with
    | (Resolved a, s') => k a s'
    | (Rejected e, s') => (Rejected e, s')
    end.

Definition throw {A} (e : Js.Error) : t S A := fun s => (Rejected e, s).

(** [try { m } catch (error) { handler error }] *)
Definition tryCatch {A} (m : t S A) (handler : Js.Error -> t S A) : t S A :=
  fun s =>
    match m s with
    | (Resolved a, s') => (Resolved a, s')
    | (Rejected e, s') => handler e s'
    end.

(** A step that cannot touch the state. *)
Definition liftC {A} (c : Completion A) : t S A := fun s => (c, s).

Definition get : t S S := fun s => (Resolved s, s).

Definition modify (f : S -> S) : t S unit := fun s => (Resolved tt, f s).

(** A computation on a part [T] of the state. *)
Definition zoom {T A} (view : S -> T) (update : T -> S -> S) (m : t T A) : t S A :=
  fun s => let '(c, part) := m (view s) in (c, update part s).

(** [for (const x of xs) { await body(x) }] *)
Fixpoint forEach {A} (xs : list A) (body : A -> t S unit) : t S unit :=
  match xs with
  | [] => ret tt
  | x :: rest => bind (body x) (fun _ => forEach rest body)
  end.

End Operations.

End Run.

Declare Scope run_scope.
Delimit Scope run_scope with run.
Notation "x <- m ;; k" := (Run.bind m (fun x => k))
  (at level 100, m at next level, right associativity) : run_scope.
Notation "m ;; k" := (Run.bind m (fun _ => k))
  (at level 100, right associativity) : run_scope.

(** ** The process around the services *)

(** The statements the modules here send, by their text. *)
Inductive Sql :=
| SelectLastSuccessfulSync
    (* SELECT MAX(created_at) as last_sync FROM sync_logs WHERE status = 'success' *)
| SelectClientMissing (date : string)
    (* SELECT c.id, c.name FROM clients c
       LEFT JOIN daily_metrics dm ON c.id = dm.client_id AND dm.date = $1
       WHERE c.is_active = true AND dm.id IS NULL LIMIT 1 *)
| SelectActiveIdsAndNames
    (* SELECT id, name FROM clients WHERE is_active = true *)
| SelectIdByProperty (gaPropertyId : string)
    (* SELECT id FROM clients WHERE ga_property_id = $1 *)
| InsertClient (name gaPropertyId timezone : string).
    (* INSERT INTO clients (name, ga_property_id, timezone)
       VALUES ($1, $2, $3) RETURNING * *)

(** What the modules below write to the console, one constructor per call
    site. *)
Inductive Line :=
(* config/database.js, for the statements above *)
| SlowStatement (duration : Z) (text : Sql)
| StatementError (e : Js.Error)
(* services/ga4Service.js, fetchMetricsRange *)
| FetchingGA4DataRange (propertyId startDate endDate : string)
| FetchedDays (n : Z)
(* middleware/autoSync.js *)
| NoPreviousSync
| LastSyncWas (hoursAgo : Q)
| MissingDataFor (yesterdayStr name : string)
| AutoSyncCheckError (e : Js.Error)
| SyncAlreadyInProgress
(* jobs/dailySync.js *)
| CronJobTriggered
| DailySyncCompleted
| DailySyncCompletedWithErrors
| DailySyncFailed (e : Js.Error)
| RunningSyncManually
| ManualSyncFailed (e : Js.Error)
(* backfill-new-client.js *)
| StartingBackfillFor (clientId : Z) (startStr endStr : string)
| BackfillResults
| BackfillSucceeded (n : Z)
| BackfillFailedDays (n : Z)
| BackfillFailed (e : Js.Error)
(* the bulk backfill script *)
| StartingBulkBackfill (startStr endStr : string)
| Processing (name : string) (clientId : Z)
| Finished (name : string) (successCount failureCount : Z)
| ErrorProcessing (name msg : string)
| AllClientsProcessed
| BulkBackfillFailed (e : Js.Error)
(* routes/clients.js *)
| ValidatingPropertyAccess (gaPropertyId : string)
| CreatedClient (name : string) (clientId : Z)
| CreateClientError (e : Js.Error).

(** The state of the process: the world of the services, and the console
    lines of the modules here.  The console is one stream; the two lists keep
    the lines of the two layers apart, each in its order. *)
Record Host := mkHost {
  world : World;
  lines : list (Level * Line)
}.

Definition Task : Type -> Type := Run.t Host.

(** A call into the services. *)
Definition service {A} (m : Async A) : Task A :=
  Run.zoom world (fun w h => mkHost w (lines h)) m.

Definition print (l : Level) (x : Line) : Task unit :=
  Run.modify (fun h => mkHost (world h) (lines h ++ [(l, x)])).

(** How the database serves one of the statements above: with an error or
    not, and after how long. *)
Record Served := mkServed {
  fault : option Js.Error;
  elapsed : N
}.

Section Statements.

Local Open Scope run_scope.

Context {A : Type}.

(** [pool.query(text, params)]; [perform] is what the statement does on the
    tables. *)
Definition poolQueryWith (served : Served) (perform : Db.Database -> A * Db.Database)
  : Task A :=
  service (fun w =>
    let w' := advance (Z.of_N (elapsed served)) w in
    match fault served with
    | Some e => (Rejected e, w')
    | None =>
        let '(rows, db') := perform (db w') in
        (Resolved rows, mkWorld db' (now w') (console w'))
    end).

(** [query(text, params)] of [config/database.js] *)
Definition queryWith (served : Served) (text : Sql)
    (perform : Db.Database -> A * Db.Database) : Task A :=
  start <- service dateNow ;;
  Run.tryCatch
    (res <- poolQueryWith served perform ;;
     finish <- service dateNow ;;
     let duration := finish - start in
     (if 1000 <? duration then print Warn (SlowStatement duration text) else Run.ret tt) ;;
     Run.ret res)
    (fun err =>
       print Err (StatementError err) ;;
       Run.throw err).

End Statements.

(** ** [services/ga4Service.js]: the range fetch *)

Module Ga4Range.

Local Open Scope run_scope.

(** The request of [fetchMetricsRange]: the six metrics by [date], ordered
    by [date], over a range of days. *)
Record Request := mkRequest {
  property : string;
  startDate : string;
  endDate : string
}.

(** How the provider answers it, and after how long. *)
Record Provider := mkProvider {
  runReportResult : Request -> Completion Ga4.Response;
  runReportMs : Request -> N
}.

(** One element of the array [fetchMetricsRange] resolves with. *)
Record DailyMetric := mkDailyMetric {
  date : string;
  sessions : Z;
  users : Z;
  newUsers : Z;
  pageviews : Z;
  avgSessionDuration : float;
  bounceRate : float
}.

(** [analyticsDataClient.runReport(request)], its first element. *)
Definition runReport (provider : Provider) (request : Request) : Task Ga4.Response :=
  service (fun w => (runReportResult provider request,
                     advance (Z.of_N (runReportMs provider request)) w)).

(** The callback of [response.rows.map]. *)
Definition parseRow (row : Ga4.Row) : Completion DailyMetric :=
  (d <~ Ga4.metricValue (Ga4.dimensionValues row) 0 ;;
   let date := Ga4.formatGA4Date d in
   let metricValues := Ga4.metricValues row in
   v0 <~ Ga4.metricValue metricValues 0 ;;
   v1 <~ Ga4.metricValue metricValues 1 ;;
   v2 <~ Ga4.metricValue metricValues 2 ;;
   v3 <~ Ga4.metricValue metricValues 3 ;;
   v4 <~ Ga4.metricValue metricValues 4 ;;
   v5 <~ Ga4.metricValue metricValues 5 ;;
   Resolved {|
     date := date;
     sessions := Js.int_or_zero (Js.parseInt v0);
     users := Js.int_or_zero (Js.parseInt v1);
     newUsers := Js.int_or_zero (Js.parseInt v2);
     pageviews := Js.int_or_zero (Js.parseInt v3);
     avgSessionDuration := Js.float_or_zero (Js.parseFloat v4);
     bounceRate := Js.float_or_zero (Js.parseFloat v5 * 100)%float
   |})%completion.

(** [rows.map(callback)]: the first exception ends it. *)
Fixpoint mapRows (rows : list Ga4.Row) : Completion (list DailyMetric) :=
  match rows with
  | [] => Resolved []
  | row :: rest =>
      (r <~ parseRow row ;;
       rs <~ mapRows rest ;;
       Resolved (r :: rs))%completion
  end.

(** [response.rows.map(...)]: reading [map] of a missing [rows] throws. *)
Definition parseRows (response : Ga4.Response) : Completion (list DailyMetric) :=
  match Ga4.rows response with
  | Some rows => mapRows rows
  | None => Rejected (Js.typeErrorUndefined "map")
  end.

Definition fetchMetricsRange (provider : Provider) (propertyId startDate endDate : string)
  : Task (list DailyMetric) :=
  Run.tryCatch
    (print Log (FetchingGA4DataRange propertyId startDate endDate) ;;
     let property := "properties/" ++ propertyId in
     response <- runReport provider (mkRequest property startDate endDate) ;;
     dailyMetrics <- Run.liftC (parseRows response) ;;
     print Log (FetchedDays (Sync.len dailyMetrics)) ;;
     Run.ret dailyMetrics)
    (fun error =>
       if Js.includes "invalid_rapt" (Js.message error)
       then Run.throw sessionExpired
       else Run.throw error).

End Ga4Range.

(** ** [middleware/autoSync.js] *)

Module AutoSync.

Local Open Scope run_scope.

(** The module variables [lastSyncCheck] and [syncInProgress], the calls of
    [syncYesterday] the flag guards, and how often the request at hand was
    passed on with [next()]. *)
Record State := mkState {
  host : Host;
  lastSyncCheck : option Z;
  process : EventLoop.Process;
  nextCalls : nat
}.

Definition Middleware : Type -> Type := Run.t State.

Definition onHost {A} (m : Task A) : Middleware A :=
  Run.zoom host (fun h s => mkState h (lastSyncCheck s) (process s) (nextCalls s)) m.

(** [next()] *)
Definition next : Middleware unit :=
  Run.modify (fun s => mkState (host s) (lastSyncCheck s) (process s) (S (nextCalls s))).

(** [MAX(created_at)]: [None] is the [NULL] of an empty set. *)
Definition maxCreatedAt (rows : list Db.SyncLogRow) : option Z :=
  fold_left
    (fun acc l =>
       match acc with
       | None => Some (Db.sl_created_at l)
       | Some t => Some (Z.max t (Db.sl_created_at l))
       end)
    rows None.

Definition isSuccess (l : Db.SyncLogRow) : bool :=
  match Db.sl_status l with
  | Db.success => true
  | _ => false
  end.

(** What [SelectLastSuccessfulSync] returns as [rows[0].last_sync]. *)
Definition lastSuccessfulSync (d : Db.Database) : option Z :=
  maxCreatedAt (filter isSuccess (Db.sync_logs d)).

(** [triggerBackgroundSync()]: the call of [syncYesterday] is started, not
    awaited; what it does later is the event loop's. *)
Definition triggerBackgroundSync : Middleware unit :=
  s <- Run.get ;;
  if EventLoop.syncInProgress (process s)
  then onHost (print Log SyncAlreadyInProgress)
  else Run.modify (fun s => mkState (host s) (lastSyncCheck s)
                              (EventLoop.triggerBackgroundSync (process s)) (nextCalls s)).

(** [lastSyncCheck && (now - lastSyncCheck) < 30 * 60 * 1000]: [null] and
    [0] are falsy. *)
Definition checkedRecently (lastSyncCheck : option Z) (now : Z) : bool :=
  match lastSyncCheck with
  | None => false
  | Some t => negb (t =? 0) && (now - t <? 30 * 60 * 1000)
  end.

(** [(now - new Date(lastSync).getTime()) / (1000 * 60 * 60)].  The source
    computes the quotient in binary64; that division is monotone and exact
    at [12 = 43200000 / 3600000], and the next quotient above is farther
    from 12 than half the spacing of the numbers there, so the comparison
    with 12 comes out as on the exact quotient. *)
Definition hoursSince (now lastSync : Z) : Q :=
  (inject_Z (now - lastSync) / inject_Z (1000 * 60 * 60))%Q.

Definition moreThan12 (hours : Q) : bool := negb (Qle_bool hours (inject_Z 12)).

Definition autoSyncMiddleware (served : Served) (path : string) : Middleware unit :=
  Run.tryCatch
    (if negb (Js.includes "/metrics" path) && negb (Js.includes "/clients" path)
     then next
     else
       now <- onHost (service dateNow) ;;
       s <- Run.get ;;
       if checkedRecently (lastSyncCheck s) now
       then next
       else
         Run.modify (fun s => mkState (host s) (Some now) (process s) (nextCalls s)) ;;
         lastSync <- onHost (queryWith served SelectLastSuccessfulSync
                               (fun d => (lastSuccessfulSync d, d))) ;;
         match lastSync with
         | None =>
             onHost (print Log NoPreviousSync) ;;
             triggerBackgroundSync
         | Some t =>
             let hoursSinceSync := hoursSince now t in
             if moreThan12 hoursSinceSync
             then onHost (print Log (LastSyncWas hoursSinceSync)) ;;
                  triggerBackgroundSync
             else Run.ret tt
         end ;;
         next)
    (fun error =>
       onHost (print Err (AutoSyncCheckError error)) ;;
       next).

(** *** The variant that looks for missing data

    The second version of the middleware in the repository asks whether an
    active tenant lacks yesterday's row instead of when the last sync was;
    the rest of the module is the same. *)

(** What [SelectClientMissing date] returns. *)
Definition clientsMissing (date : string) (d : Db.Database) : list Db.ClientRow :=
  firstn 1
    (filter (fun c => Db.is_active c &&
                      negb (existsb (Db.same_key (Db.id c) date) (Db.daily_metrics d)))
            (Db.clients d)).

Definition autoSyncMiddlewareByData (tz : JsDate.TimeZone) (served : Served) (path : string)
  : Middleware unit :=
  Run.tryCatch
    (if negb (Js.includes "/metrics" path) && negb (Js.includes "/clients" path)
     then next
     else
       now <- onHost (service dateNow) ;;
       s <- Run.get ;;
       if checkedRecently (lastSyncCheck s) now
       then next
       else
         Run.modify (fun s => mkState (host s) (Some now) (process s) (nextCalls s)) ;;
         yesterday <- onHost (service dateNow) ;;
         let yesterday := JsDate.setDate tz (JsDate.getDate tz yesterday - 1) yesterday in
         let yesterdayStr := JsDate.isoDate yesterday in
         rows <- onHost (queryWith served (SelectClientMissing yesterdayStr)
                           (fun d => (clientsMissing yesterdayStr d, d))) ;;
         match rows with
         | client :: _ =>
             onHost (print Log (MissingDataFor yesterdayStr (Db.name client))) ;;
             triggerBackgroundSync
         | [] => Run.ret tt
         end ;;
         next)
    (fun error =>
       onHost (print Err (AutoSyncCheckError error)) ;;
       next).

End AutoSync.

(** ** [jobs/dailySync.js] *)

Module DailySync.

Local Open Scope run_scope.

(** The callback of [cron.schedule]. *)
Definition cronCallback (env : Env) : Task unit :=
  print Log CronJobTriggered ;;
  Run.tryCatch
    (result <- service (Sync.syncYesterday env) ;;
     if Sync.success result
     then print Log DailySyncCompleted
     else print Err DailySyncCompletedWithErrors)
    (fun error => print Err (DailySyncFailed error)).

Definition runSyncNow (env : Env) : Task Sync.Summary :=
  print Log RunningSyncManually ;;
  Run.tryCatch
    (result <- service (Sync.syncYesterday env) ;;
     Run.ret result)
    (fun error =>
       print Err (ManualSyncFailed error) ;;
       Run.throw error).

End DailySync.

(** ** The backfill of new tenants *)

Module Backfill.

Local Open Scope run_scope.

(** The window of [routes/clients.js] and of the backfill scripts:
    [new Date()] and [setDate(getDate() - 1)] for the end,
    [new Date()] and [setDate(getDate() - 30)] for the start, each printed
    with [toISOString().split('T')[0]]. *)
Definition lastThirtyDays (env : Env) : Async (string * string) :=
  (endDate <- dateNow ;;
   let tz := processTimeZone env in
   let endDate := JsDate.setDate tz (JsDate.getDate tz endDate - 1) endDate in
   startDate <- dateNow ;;
   let startDate := JsDate.setDate tz (JsDate.getDate tz startDate - 30) startDate in
   let startStr := JsDate.isoDate startDate in
   let endStr := JsDate.isoDate endDate in
   ret (startStr, endStr))%async.

(** [runBackfill()] of [backfill-new-client.js]; the result is the code the
    process exits with. *)
Definition runBackfill (env : Env) : Task Z :=
  Run.tryCatch
    (let clientId := 2 in
     window <- service (lastThirtyDays env) ;;
     let '(startStr, endStr) := window in
     print Log (StartingBackfillFor clientId startStr endStr) ;;
     result <- service (Sync.backfillClientData env clientId startStr endStr) ;;
     print Log BackfillResults ;;
     print Log (BackfillSucceeded (Sync.b_successCount result)) ;;
     print Log (BackfillFailedDays (Sync.b_failureCount result)) ;;
     Run.ret 0)
    (fun error =>
       print Err (BackfillFailed error) ;;
       Run.ret 1).

(** What [SelectActiveIdsAndNames] returns: the statement has no [ORDER BY];
    the rows come as the table holds them. *)
Definition activeClients (d : Db.Database) : list Db.ClientRow :=
  filter Db.is_active (Db.clients d).

(** The body of the loop of [backfillAllMissing()]. *)
Definition processClient (env : Env) (startStr endStr : string) (client : Db.ClientRow)
  : Task unit :=
  print Log (Processing (Db.name client) (Db.id client)) ;;
  Run.tryCatch
    (result <- service (Sync.backfillClientData env (Db.id client) startStr endStr) ;;
     print Log (Finished (Db.name client) (Sync.b_successCount result)
                  (Sync.b_failureCount result)))
    (fun err => print Err (ErrorProcessing (Db.name client) (Js.message err))).

(** [backfillAllMissing()] of the bulk backfill script; the result is the
    code the process exits with. *)
Definition backfillAllMissing (env : Env) (served : Served) : Task Z :=
  Run.tryCatch
    (clients <- queryWith served SelectActiveIdsAndNames (fun d => (activeClients d, d)) ;;
     window <- service (lastThirtyDays env) ;;
     let '(startStr, endStr) := window in
     print Log (StartingBulkBackfill startStr endStr) ;;
     Run.forEach clients (processClient env startStr endStr) ;;
     print Log AllClientsProcessed ;;
     Run.ret 0)
    (fun error =>
       print Err (BulkBackfillFailed error) ;;
       Run.ret 1).

End Backfill.

(** ** [routes/clients.js]: creating a tenant *)

Module Clients.

Local Open Scope run_scope.

(** [req.body] after the validators: [timezone] may be missing. *)
Record Body := mkBody {
  name : string;
  gaPropertyId : string;
  timezone : option string
}.

(** What the handler answers. *)
Inductive Response :=
| InvalidInput                                            (* 400 *)
| CannotAccess (serviceAccountEmail propertyId : string)  (* 400 *)
| AlreadyRegistered                                       (* 400 *)
| Created (client : Db.ClientRow)                         (* 201 *)
| FailedToCreate.                                         (* 500 *)

(** A call of [backfillClientData] that was started and not awaited. *)
Record Job := mkJob {
  clientId : Z;
  startStr : string;
  endStr : string
}.

Record State := mkState {
  host : Host;
  background : list Job
}.

Definition Handler : Type -> Type := Run.t State.

Definition onHost {A} (m : Task A) : Handler A :=
  Run.zoom host (fun h s => mkState h (background s)) m.

(** What the handler needs from outside: the provider and the time zone
    ([env]), whether the validators passed, what the credential says about
    its account, how the database serves the two statements, and the [id]
    the sequence of [clients] hands out. *)
Record Setting := mkSetting {
  env : Env;
  valid : bool;
  authClient : Completion (option string);
  lookupServed : Served;
  insertServed : Served;
  nextId : Z
}.

(** [getServiceAccountEmail()] of [config/ga4.js] *)
Definition getServiceAccountEmail (authClient : Completion (option string)) : string :=
  match authClient with
  | Resolved (Some email) =>
      if String.eqb email "" then "Unknown (using Workload Identity)" else email
  | Resolved None => "Unknown (using Workload Identity)"
  | Rejected _ => "Error retrieving service account"
  end.

(** What [SelectIdByProperty] returns. *)
Definition withProperty (gaPropertyId : string) (d : Db.Database) : list Db.ClientRow :=
  filter (fun c => String.eqb (Db.ga_property_id c) gaPropertyId) (Db.clients d).

(** What [InsertClient] does: the new row, active by default, at the end of
    the table. *)
Definition insertClient (id : Z) (name gaPropertyId timezone : string) (d : Db.Database)
  : list Db.ClientRow * Db.Database :=
  let row := Db.mkClient id name gaPropertyId timezone true in
  ([row],
   Db.mkDatabase (Db.clients d ++ [row]) (Db.daily_metrics d) (Db.sync_logs d)
     (Db.daily_metrics_id_seq d) (Db.sync_logs_id_seq d)).

(** The handler of [POST /api/clients]. *)
Definition createClient (setting : Setting) (body : Body) : Handler Response :=
  Run.tryCatch
    (if negb (valid setting) then Run.ret InvalidInput
     else
       let name := name body in
       let gaPropertyId := gaPropertyId body in
       let timezone := match timezone body with Some tz => tz | None => "UTC" end in
       onHost (print Log (ValidatingPropertyAccess gaPropertyId)) ;;
       hasAccess <- onHost (service (validatePropertyAccess (env setting) gaPropertyId)) ;;
       if negb hasAccess
       then
         let email := getServiceAccountEmail (authClient setting) in
         Run.ret (CannotAccess email gaPropertyId)
       else
         existingResult <- onHost (queryWith (lookupServed setting)
                                     (SelectIdByProperty gaPropertyId)
                                     (fun d => (withProperty gaPropertyId d, d))) ;;
         if 0 <? Sync.len existingResult
         then Run.ret AlreadyRegistered
         else
           result <- onHost (queryWith (insertServed setting)
                               (InsertClient name gaPropertyId timezone)
                               (insertClient (nextId setting) name gaPropertyId timezone)) ;;
           match result with
           | [] => Run.throw (Js.typeErrorUndefined "name")
           | client :: _ =>
               onHost (print Log (CreatedClient (Db.name client) (Db.id client))) ;;
               window <- onHost (service (Backfill.lastThirtyDays (env setting))) ;;
               let '(startStr, endStr) := window in
               Run.modify (fun s => mkState (host s)
                                      (background s ++ [mkJob (Db.id client) startStr endStr])) ;;
               Run.ret (Created client)
           end)
    (fun error =>
       onHost (print Err (CreateClientError error)) ;;
       Run.ret FailedToCreate).

End Clients.

(** ** [middleware/auth.js]: who may read which tenant *)

Module Auth.

(** A value of the request.  [req.query] and [req.params] hold texts, and
    [req.query] and a form body also arrays and objects of them; a JSON body
    holds any of these. *)
#[warnings="-register-all"]
Inductive Value :=
| Undefined
| Null
| Bool (b : bool)
| Num (x : float)
| Str (s : string)
| Arr (items : list Value)
| Obj (fields : list (string * Value)).

(** [ToBoolean] *)
Definition truthy (v : Value) : bool :=
  match v with
  | Undefined | Null => false
  | Bool b => b
  | Num x => negb (Js.is_falsy x)
  | Str s => negb (String.eqb s "")
  | Arr _ | Obj _ => true
  end.

(** [a || b] *)
Definition or (a b : Value) : Value := if truthy a then a else b.

(** The object has a property [toString] of its own. *)
Definition hides_toString (fields : list (string * Value)) : bool :=
  existsb (fun field => String.eqb (fst field) "toString") fields.

Definition cannotConvert : Js.Error :=
  Js.mkError None "Cannot convert object to primitive value".

(** [ToString], which [parseInt] applies to its argument.  An array prints
    its elements with commas between them, [null] and [undefined] as
    nothing.  An object prints as [[object Object]], unless a property
    [toString] of its own hides the method: what a request puts there
    cannot be called, [valueOf] gives the object back, and the conversion
    throws a [TypeError]. *)
Fixpoint toString (v : Value) : Completion string :=
  match v with
  | Undefined => Resolved "undefined"
  | Null => Resolved "null"
  | Bool b => Resolved (if b then "true" else "false")
  | Num x => Resolved (Js.numberToString x)
  | Str s => Resolved s
  | Arr items =>
      (fix join (items : list Value) : Completion string :=
         match items with
         | [] => Resolved ""
         | item :: rest =>
             match (match item with
                    | Undefined | Null => Resolved ""
                    | _ => toString item
                    end) with
             | Rejected e => Rejected e
             | Resolved first =>
                 match rest with
                 | [] => Resolved first
                 | _ =>
                     match join rest with
                     | Rejected e => Rejected e
                     | Resolved others => Resolved (first ++ "," ++ others)
                     end
                 end
             end
         end) items
  | Obj fields =>
      if hides_toString fields then Rejected cannotConvert
      else Resolved "[object Object]"
  end.

(** [req.user], as [authenticateToken] sets it from the row of [users];
    [clientId] is [null] for an admin. *)
Record User := mkUser {
  id : Z;
  email : string;
  role : string;
  clientId : option Z
}.

(** The request: [req.body] is an object with or without [clientId], or
    missing when no parser has set it ([None]). *)
Record Request := mkRequest {
  queryClientId : Value;          (* req.query.clientId *)
  paramsClientId : Value;         (* req.params.clientId *)
  bodyClientId : option Value;    (* req.body.clientId *)
  user : User;                    (* req.user *)
  reqClientId : option float      (* req.clientId *)
}.

(** What a middleware ends with: [next()], or
    [res.status(status).json({ error })]. *)
Inductive Reply :=
| Next
| Json (status : Z) (error : string).

Definition setClientId (req : Request) (n : float) : Request :=
  mkRequest (queryClientId req) (paramsClientId req) (bodyClientId req) (user req) (Some n).

Definition requireAdmin (req : Request) : Reply :=
  if negb (String.eqb (role (user req)) "admin")
  then Json 403 "Access denied. Admin privileges required."
  else Next.

(** [req.query.clientId || req.params.clientId || req.body.clientId]: the
    body is read only when the two before it are falsy. *)
Definition requestedValue (req : Request) : Completion Value :=
  let first := or (queryClientId req) (paramsClientId req) in
  if truthy first then Resolved first
  else
    match bodyClientId req with
    | Some v => Resolved v
    | None => Rejected (Js.typeErrorUndefined "clientId")
    end.

(** [req.user.clientId === requestedClientId] *)
Definition isOwn (u : User) (requestedClientId : float) : bool :=
  match clientId u with
  | Some own => PrimFloat.eqb (Js.number_of_Z false own) requestedClientId
  | None => false
  end.

(** The middleware has no [try]: what the conversion throws leaves it as an
    exception, with neither [next()] nor an answer. *)
Definition requireClientAccess (req : Request) : Completion (Request * Reply) :=
  (v <~ requestedValue req ;;
   text <~ toString v ;;
   let requestedClientId := Js.parseInt text in
   if Js.is_falsy requestedClientId
   then Resolved (req, Json 400 "Client ID is required.")
   else if String.eqb (role (user req)) "admin"
   then Resolved (setClientId req requestedClientId, Next)
   else if String.eqb (role (user req)) "client" && isOwn (user req) requestedClientId
   then Resolved (setClientId req requestedClientId, Next)
   else Resolved (req, Json 403
                         "Access denied. You do not have permission to access this client."))%completion.

End Auth.

(** ** [routes/metrics.js]: the export *)

Module Csv.

(** A value of a row as the database driver delivers it: a text, a whole
    number (of a size that JavaScript prints with all its digits, below
    [10^21]), [null], or an object with what [String(val)] gives for it (a
    [Date], for a date column). *)
Inductive Value :=
| Text (s : string)
| Whole (n : Z)
| Null
| Object (rendered : string).

(** A row: its keys and values, in the order of [Object.keys]. *)
Definition Row : Type := list (string * Value).

Definition quote : string := String (ascii_of_nat 34) "".
Definition newline : string := String (ascii_of_nat 10) "".

(** [parts.join(sep)] of an array of strings *)
Fixpoint join (sep : string) (parts : list string) : string :=
  match parts with
  | [] => ""
  | p :: rest =>
      match rest with
      | [] => p
      | _ => p ++ sep ++ join sep rest
      end
  end.

(** An element of [Object.values(row).map(...)] as [join] prints it: a text
    between quotes, [null] as nothing, anything else by [ToString]. *)
Definition cell (v : Value) : string :=
  match v with
  | Text s => quote ++ s ++ quote
  | Whole n => Js.intToString n
  | Null => ""
  | Object rendered => rendered
  end.

Definition convertToCSV (data : list Row) : string :=
  match data with
  | [] => "No data available"
  | first :: _ =>
      let headers := join "," (map fst first) in
      let rows := map (fun row => join "," (map (fun kv => cell (snd kv)) row)) data in
      join newline (headers :: rows)
  end.

End Csv.

(** ** Vocabulary of the properties below *)

(** The days of the years 0000 to 9999, which [toISOString] prints with four
    digits. *)
Definition fourDigitYear (day : Z) : Prop := -719528 <= day <= 2932896.

(** A row [fetchMetricsRange] can read: a date and the six metrics. *)
Definition readable (row : Ga4.Row) : bool :=
  (1 <=? List.length (Ga4.dimensionValues row))%nat &&
  (6 <=? List.length (Ga4.metricValues row))%nat.

(** The date of a row as [fetchMetricsRange] returns it, its sessions, and
    its bounce rate in percent. *)
Definition rowDate (row : Ga4.Row) : string :=
  Ga4.formatGA4Date (nth 0 (Ga4.dimensionValues row) "").

Definition rowSessions (row : Ga4.Row) : Z :=
  Js.int_or_zero (Js.parseInt (nth 0 (Ga4.metricValues row) "")).

Definition rowBounceRate (row : Ga4.Row) : float :=
  Js.float_or_zero (Js.parseFloat (nth 5 (Ga4.metricValues row) "") * 100)%float.

(** From [w] to [w'] the clock has not gone back, and the audit table has
    only grown, by rows stamped in between. *)
Definition Stamped (w w' : World) : Prop :=
  now w <= now w' /\
  exists ls,
    Db.sync_logs (db w') = (Db.sync_logs (db w) ++ ls)%list /\
    forall l, In l ls -> now w <= Db.sl_created_at l <= now w'.

Definition Stamps {A} (m : Async A) : Prop := forall w, Stamped w (snd (m w)).

(** What the middleware's check comes to on a database at a time: no stored
    success, or the newest one more than twelve hours old. *)
Definition due (d : Db.Database) (now : Z) : bool :=
  match AutoSync.lastSuccessfulSync d with
  | None => true
  | Some t => AutoSync.moreThan12 (AutoSync.hoursSince now t)
  end.

(** The database answers the statement. *)
Definition answered (served : Served) : bool :=
  match fault served with
  | None => true
  | Some _ => false
  end.

(** The middleware looks at the database: the path is one it watches and
    the last look is not recent. *)
Definition looks (path : string) (s : AutoSync.State) : bool :=
  (Js.includes "/metrics" path || Js.includes "/clients" path) &&
  negb (AutoSync.checkedRecently (AutoSync.lastSyncCheck s) (now (world (AutoSync.host s)))).

(** The date [getYesterdayDate] and the middleware compute at an instant. *)
Definition yesterdayAt (tz : JsDate.TimeZone) (now : Z) : string :=
  JsDate.isoDate (JsDate.setDate tz (JsDate.getDate tz now - 1) now).

(** The window the backfill of a new tenant gets at an instant. *)
Definition windowAt (tz : JsDate.TimeZone) (now : Z) : string * string :=
  (JsDate.isoDate (JsDate.setDate tz (JsDate.getDate tz now - 30) now),
   JsDate.isoDate (JsDate.setDate tz (JsDate.getDate tz now - 1) now)).

(** [s.split(sep)] for a separator of one character. *)
Fixpoint split (sep : ascii) (s : string) : list string :=
  match s with
  | EmptyString => [""]
  | String c rest =>
      if Ascii.eqb c sep then "" :: split sep rest
      else match split sep rest with
           | part :: parts => String c part :: parts
           | [] => [String c ""]
           end
  end.

(** None of the characters of [s] is [c]. *)
Fixpoint without (c : ascii) (s : string) : bool :=
  match s with
  | EmptyString => true
  | String x rest => negb (Ascii.eqb x c) && without c rest
  end.

(** A text that holds neither a comma nor a line feed. *)
Definition plain (s : string) : bool :=
  without "," s && without (ascii_of_nat 10) s.

(** A line that opens the work on a tenant in the bulk backfill. *)
Definition isProcessing (line : Level * Line) : bool :=
  match snd line with
  | Processing _ _ => true
  | _ => false
  end.

(** The lines written from [h] to [h']. *)
Definition newLines (h h' : Host) : list (Level * Line) :=
  skipn (List.length (lines h)) (lines h').
(** ** Concrete cases for the request handlers *)

Module Cases.

(** The database runs a statement, in 5 ms. *)
Definition served : Served := mkServed None 5.

(** A process that has just started: nothing printed, no check made, no
    sync running. *)
Definition fresh (w : World) : AutoSync.State :=
  AutoSync.mkState (mkHost w []) None EventLoop.initial 0.

(** What the next request finds [ms] milliseconds after a request left
    [s]. *)
Definition later (ms : Z) (s : AutoSync.State) : AutoSync.State :=
  AutoSync.mkState
    (mkHost (advance ms (world (AutoSync.host s))) (lines (AutoSync.host s)))
    (AutoSync.lastSyncCheck s) (AutoSync.process s) 0.

(** The report over the first two days of March 2024. *)
Definition twoDays : Ga4.Response :=
  Ga4.mkResponse
    (Some [ Ga4.mkRow ["20240301"] ["120"; "80"; "30"; "400"; "95.5"; "0.38"];
            Ga4.mkRow ["20240302"] ["131"; "85"; "32"; "420"; "97.25"; "0.4532"] ]).

Definition provider : Ga4Range.Provider :=
  Ga4Range.mkProvider (fun _ => Resolved twoDays) (fun _ => 150%N).

(** An admin, and the user of tenant 2. *)
Definition admin : Auth.User := Auth.mkUser 1 "admin@example.com" "admin" None.
Definition birchUser : Auth.User := Auth.mkUser 2 "owner@birch.example" "client" (Some 2).

(** The text of U+00A0 and the digit 7. *)
Definition paddedSeven : string :=
  String (ascii_of_nat 194) (String (ascii_of_nat 160) "7").

(** A [GET] with [clientId] in the query, and a [POST] with [clientId] in a
    JSON body. *)
Definition get (u : Auth.User) (clientId : Auth.Value) : Auth.Request :=
  Auth.mkRequest clientId Auth.Undefined (Some Auth.Undefined) u None.

Definition post (u : Auth.User) (clientId : Auth.Value) : Auth.Request :=
  Auth.mkRequest Auth.Undefined Auth.Undefined (Some clientId) u None.

(** Two rows of the export, as the driver delivers them: the date as a
    [Date], the counts as numbers, the rate as a text. *)
Definition exported : list Csv.Row :=
  [ [ ("date", Csv.Object "Fri Mar 01 2024 00:00:00 GMT+0000 (Coordinated Universal Time)");
      ("sessions", Csv.Whole 120);
      ("bounce_rate", Csv.Text "38.00") ];
    [ ("date", Csv.Object "Sat Mar 02 2024 00:00:00 GMT+0000 (Coordinated Universal Time)");
      ("sessions", Csv.Whole 131);
      ("bounce_rate", Csv.Text "45.32") ] ].

End Cases.

(* ================================================================= *)
(** * Proofs *)

(** ** The database wrapper *)

Lemma query_ok env st w :
  statementFault env st = None ->
  exists w',
    query env st w =
      (Resolved (fst (Db.execute st (now w + Z.of_N (statementMs env st)) (db w))), w') /\
    db w' = snd (Db.execute st (now w + Z.of_N (statementMs env st)) (db w)) /\
    now w' = now w + Z.of_N (statementMs env st) /\
    (forall x, In x (console w) -> In x (console w')).
Proof.
  intros Hf. unfold query, bind, tryCatch, dateNow, poolQuery. rewrite Hf. cbn.
  destruct (Db.execute st _ (db w)) as [rows db'] eqn:He. cbn.
  destruct (1000 <? _); cbn; eexists; repeat split; cbn; auto.
  intros x Hx. apply in_or_app; auto.
Qed.

Lemma query_fault env st w e :
  statementFault env st = Some e ->
  query env st w =
    (Rejected e,
     mkWorld (db w) (now w + Z.of_N (statementMs env st))
             (console w ++ [(Err, DatabaseQueryError e)])).
Proof.
  intros Hf. unfold query, bind, tryCatch, dateNow, poolQuery. rewrite Hf. reflexivity.
Qed.

(** ** The provider client *)

(** Case analysis on the innermost scrutinee of the goal. *)
Ltac break_match :=
  match goal with
  | |- context [match ?x with _ => _ end] =>
      lazymatch x with
      | context [match _ with _ => _ end] => fail
      | _ => destruct x eqn:?
      end
  end.

Ltac unfold_async :=
  unfold bind, tryCatch, console_log, console_warn, console_error, say, runReport,
    getMetadata, liftC, throw, ret, sleep, dateNow, advance.

Lemma fetchDailyMetrics_frame env propertyId date w :
  db (snd (fetchDailyMetrics env propertyId date w)) = db w /\
  now w <= now (snd (fetchDailyMetrics env propertyId date w)).
Proof.
  unfold fetchDailyMetrics; unfold_async; cbn.
  repeat (break_match; cbn); split; try reflexivity; lia.
Qed.

Lemma fetchDailyMetrics_indep env propertyId date w1 w2 :
  fst (fetchDailyMetrics env propertyId date w1) =
  fst (fetchDailyMetrics env propertyId date w2).
Proof.
  unfold fetchDailyMetrics; unfold_async; cbn.
  repeat (break_match; cbn); congruence.
Qed.

(** ** One sync attempt *)

Lemma logSync_spec env clientId date status n msg ms w :
  exists w',
    Sync.logSync env clientId date status n msg ms w = (Resolved tt, w') /\
    now w <= now w' /\
    Db.clients (db w') = Db.clients (db w) /\
    Db.daily_metrics (db w') = Db.daily_metrics (db w) /\
    Db.daily_metrics_id_seq (db w') = Db.daily_metrics_id_seq (db w) /\
    (forall x, In x (console w) -> In x (console w')) /\
    Audit env w w' clientId date status n msg ms.
Proof.
  unfold Sync.logSync, Audit.
  destruct (statementFault env _) as [e|] eqn:Hf.
  - unfold tryCatch, bind. rewrite (query_fault _ _ _ _ Hf).
    unfold console_error, say; cbn.
    eexists; split; [reflexivity|]; cbn.
    repeat split; auto; try lia.
    + intros x Hx. apply in_or_app; left; apply in_or_app; auto.
    + apply in_or_app; right; left; reflexivity.
  - destruct (query_ok env _ w Hf) as (w' & Hq & Hdb & Hnow & Hcon).
    unfold tryCatch, bind. rewrite Hq. unfold ret.
    eexists; split; [reflexivity|].
    rewrite Hdb, Hnow; cbn. repeat split; auto; try lia.
    eexists; reflexivity.
Qed.

Lemma Audit_frame env w0 w w4 w' clientId date status n msg ms :
  Audit env w w4 clientId date status n msg ms ->
  Db.sync_logs (db w0) = Db.sync_logs (db w) ->
  Db.sync_logs_id_seq (db w0) = Db.sync_logs_id_seq (db w) ->
  Db.sync_logs (db w') = Db.sync_logs (db w4) ->
  (forall x, In x (console w4) -> In x (console w')) ->
  Audit env w0 w' clientId date status n msg ms.
Proof.
  unfold Audit. intros H H1 H2 H3 H4.
  destruct (statementFault env _).
  - destruct H as [Ha Hb]. split; [congruence | auto].
  - destruct H as [t Ht]. exists t. congruence.
Qed.

Ltac use_logSync :=
  match goal with |- context [Sync.logSync ?a ?b ?c ?d ?e ?f ?g ?h] =>
    let w4 := fresh "w4" in
    destruct (logSync_spec a b c d e f g h)
      as (w4 & Hlog & Hnow4 & Hcl & Hdm & Hseq & Hcon & Haud);
    rewrite Hlog
  end.

Lemma syncClientMetrics_attempt env client date w :
  exists r w',
    Sync.syncClientMetrics env client date w = (Resolved r, w') /\
    Attempt env client date w r w'.
Proof.
  unfold Sync.syncClientMetrics.
  unfold bind at 1. unfold dateNow at 1.
  unfold tryCatch at 1. unfold bind at 1. unfold console_log at 1, say at 1.
  unfold bind at 1.
  set (w1 := mkWorld (db w) (now w) _).
  pose proof (fetchDailyMetrics_frame env (Db.ga_property_id client) date w1) as [Hdb2 Hnow2].
  destruct (fetchDailyMetrics env (Db.ga_property_id client) date w1) as [[m|e] w2] eqn:Hfetch;
    cbn [fst snd db now w1] in Hdb2, Hnow2.
  - assert (Hm : forall w0, fst (fetchDailyMetrics env (Db.ga_property_id client) date w0) = Resolved m).
    { intros w0. rewrite (fetchDailyMetrics_indep _ _ _ w0 w1), Hfetch. reflexivity. }
    unfold bind at 1.
    destruct (statementFault env (Db.UpsertDailyMetrics (Db.id client) date m)) as [e|] eqn:Hup.
    + rewrite (query_fault _ _ _ _ Hup).
      unfold bind at 1. unfold dateNow at 1. cbn [now].
      unfold bind at 1. use_logSync.
      unfold bind, console_error, say, ret. cbn [db now console] in *.
      do 2 eexists; split; [reflexivity|].
      apply AttemptFailed; cbn [db now console]; try lia; try congruence.
      * right. exists m. auto.
      * eapply Audit_frame; [exact Haud | | | | ]; cbn [db console]; try congruence.
        intros x Hx; apply in_or_app; auto.
    + destruct (query_ok env _ w2 Hup) as (w3 & Hq & Hdb3 & Hnow3 & _).
      rewrite Hq. unfold bind at 1. unfold dateNow at 1. unfold bind at 1.
      use_logSync.
      unfold bind, console_log, say, ret. cbn [db now console] in *.
      do 2 eexists; split; [reflexivity|].
      rewrite Hdb3 in *. cbn [snd Db.execute Db.clients Db.daily_metrics Db.sync_logs
                              Db.daily_metrics_id_seq Db.sync_logs_id_seq] in *.
      eapply AttemptStored with
        (t := now w2 + Z.of_N (statementMs env (Db.UpsertDailyMetrics (Db.id client) date m)));
        cbn [db now console]; auto; try lia; try congruence.
      eapply Audit_frame; [exact Haud | | | | ]; cbn [db console];
        try (rewrite Hdb3; cbn [Db.sync_logs Db.sync_logs_id_seq]); try congruence.
      intros x Hx; apply in_or_app; auto.
  - assert (He : forall w0, fst (fetchDailyMetrics env (Db.ga_property_id client) date w0) = Rejected e).
    { intros w0. rewrite (fetchDailyMetrics_indep _ _ _ w0 w1), Hfetch. reflexivity. }
    unfold bind at 1. unfold dateNow at 1. unfold bind at 1.
    use_logSync.
    unfold bind, console_error, say, ret. cbn [db now console] in *.
    do 2 eexists; split; [reflexivity|].
    apply AttemptFailed; cbn [db now console]; auto; try lia; try congruence.
    eapply Audit_frame; [exact Haud | | | | ]; cbn [db console]; try congruence.
    intros x Hx; apply in_or_app; auto.
Qed.

(** ** The upsert statement on the table *)

Lemma same_key_iff clientId date r :
  Db.same_key clientId date r = true <-> key r = (clientId, date).
Proof.
  unfold Db.same_key, key. rewrite andb_true_iff, Z.eqb_eq, String.eqb_eq.
  split; [intros [-> ->]; reflexivity | intros H; inversion H; auto].
Qed.

Lemma same_key_overwrite c d m t r : Db.same_key c d (Db.overwrite m t r) = Db.same_key c d r.
Proof. reflexivity. Qed.

Lemma existsb_same_key c d table :
  existsb (Db.same_key c d) table = true <-> In (c, d) (map key table).
Proof.
  rewrite existsb_exists, in_map_iff. split.
  - intros (r & Hin & Hk). exists r. split; auto. apply same_key_iff; auto.
  - intros (r & Hk & Hin). exists r. split; auto. apply same_key_iff; auto.
Qed.

Lemma upsert_keys table rowId c d m t :
  map key (Db.upsert table rowId c d m t) =
  if existsb (Db.same_key c d) table then map key table
  else (map key table ++ [(c, d)])%list.
Proof.
  unfold Db.upsert. destruct (existsb _ table).
  - rewrite map_map. apply map_ext. intros r. destruct (Db.same_key c d r); reflexivity.
  - rewrite map_app. reflexivity.
Qed.

Lemma upsert_NoDup table rowId c d m t :
  NoDup (map key table) -> NoDup (map key (Db.upsert table rowId c d m t)).
Proof.
  intros H. rewrite upsert_keys.
  destruct (existsb (Db.same_key c d) table) eqn:E; auto.
  apply NoDup_app; auto.
  - repeat constructor. intros [].
  - intros k Hk [<-|[]].
    apply existsb_same_key in Hk. congruence.
Qed.

Lemma upsert_other table rowId c d m t c' d' :
  (c', d') <> (c, d) ->
  filter (Db.same_key c' d') (Db.upsert table rowId c d m t) =
  filter (Db.same_key c' d') table.
Proof.
  intros Hne. unfold Db.upsert.
  assert (Hnew : forall r, Db.same_key c d r = true -> Db.same_key c' d' r = false).
  { intros r Hr. apply same_key_iff in Hr.
    destruct (Db.same_key c' d' r) eqn:E; auto.
    apply same_key_iff in E. congruence. }
  destruct (existsb _ table).
  - induction table as [|r rest IH]; cbn; auto.
    destruct (Db.same_key c d r) eqn:E.
    + rewrite same_key_overwrite, (Hnew r E). exact IH.
    + destruct (Db.same_key c' d' r); rewrite IH; reflexivity.
  - rewrite filter_app. cbn.
    rewrite (Hnew (Db.fresh_row rowId c d m t)).
    + apply app_nil_r.
    + apply same_key_iff. reflexivity.
Qed.

(** The two [DECIMAL] columns round the number as its text reads: 45.3211 is
    stored as 45.32 and 0.125 as 0.13; 1.005, whose binary64 value lies
    below it, is stored as 1.01, and the zeros as 0.00. *)
Example numeric2_rounds_the_text :
  Db.numeric2 (Js.parseFloat "0.453211" * 100) = Db.Decimal 4532 /\
  Db.numeric2 (Js.parseFloat "0.125") = Db.Decimal 13 /\
  Db.numeric2 (Js.parseFloat "1.005") = Db.Decimal 101 /\
  Db.numeric2 (Js.parseFloat "-1.005") = Db.Decimal (-101) /\
  Db.numeric2 zero = Db.Decimal 0 /\
  Db.numeric2 neg_zero = Db.Decimal 0.
Proof. vm_compute. repeat split. Qed.

(** After the upsert, every row of the key holds the new metrics and the new
    timestamp, and there is such a row. *)
Lemma upsert_stored table rowId c d m t :
  Ga4.date m = d ->
  filter (Db.same_key c d) (Db.upsert table rowId c d m t) <> [] /\
  forall r, In r (filter (Db.same_key c d) (Db.upsert table rowId c d m t)) ->
    rowMetrics r = stored m /\ Db.dm_synced_at r = t.
Proof.
  intros Hd. unfold Db.upsert.
  destruct (existsb (Db.same_key c d) table) eqn:E.
  - split.
    + apply existsb_exists in E. destruct E as (r & Hin & Hk).
      intros Hnil.
      assert (In (Db.overwrite m t r)
                (filter (Db.same_key c d)
                   (map (fun r => if Db.same_key c d r then Db.overwrite m t r else r) table))).
      { apply filter_In. split.
        - apply in_map_iff. exists r. rewrite Hk. auto.
        - rewrite same_key_overwrite. exact Hk. }
      rewrite Hnil in H. destruct H.
    + intros r Hr. apply filter_In in Hr. destruct Hr as [Hin Hk].
      apply in_map_iff in Hin. destruct Hin as (r0 & Heq & _).
      destruct (Db.same_key c d r0) eqn:E0.
      * subst r. apply same_key_iff in E0. inversion E0.
        unfold rowMetrics; cbn. destruct m; cbn in *. subst. auto.
      * subst r. congruence.
  - rewrite filter_app. cbn.
    assert (Hk : Db.same_key c d (Db.fresh_row rowId c d m t) = true)
      by (apply same_key_iff; reflexivity).
    rewrite Hk.
    assert (Hnone : filter (Db.same_key c d) table = []).
    { destruct (filter (Db.same_key c d) table) as [|r l] eqn:F; auto.
      assert (In r (filter (Db.same_key c d) table)) by (rewrite F; left; auto).
      apply filter_In in H. destruct H as [Hin Hr].
      assert (existsb (Db.same_key c d) table = true)
        by (apply existsb_exists; eauto).
      congruence. }
    rewrite Hnone. cbn. split; [discriminate|].
    intros r [<-|[]]. unfold rowMetrics; cbn. destruct m; cbn in *. subst. auto.
Qed.

(** A table with unique keys has at most one row per key. *)
Lemma NoDup_keys_filter table c d :
  NoDup (map key table) -> (List.length (filter (Db.same_key c d) table) <= 1)%nat.
Proof.
  induction table as [|r rest IH]; cbn; intros H; auto.
  inversion H as [|k ks Hnotin Hnd]; subst.
  destruct (Db.same_key c d r) eqn:E; auto.
  cbn. apply same_key_iff in E.
  destruct (filter (Db.same_key c d) rest) as [|r' l] eqn:F; cbn; auto.
  exfalso. apply Hnotin.
  assert (In r' (filter (Db.same_key c d) rest)) by (rewrite F; left; auto).
  apply filter_In in H0. destruct H0 as [Hin Hk]. apply same_key_iff in Hk.
  rewrite E, <- Hk. apply in_map. exact Hin.
Qed.

(** The conflicting row keeps its [id] and [created_at]. *)
Lemma upsert_keeps_identity table rowId c d m t r0 :
  In r0 table -> Db.same_key c d r0 = true ->
  exists r, In r (filter (Db.same_key c d) (Db.upsert table rowId c d m t)) /\
            Db.dm_id r = Db.dm_id r0 /\ Db.dm_created_at r = Db.dm_created_at r0.
Proof.
  intros Hin Hk. unfold Db.upsert.
  assert (E : existsb (Db.same_key c d) table = true) by (apply existsb_exists; eauto).
  rewrite E. exists (Db.overwrite m t r0). split; [|split; reflexivity].
  apply filter_In. split.
  - apply in_map_iff. exists r0. rewrite Hk. auto.
  - rewrite same_key_overwrite. exact Hk.
Qed.

Lemma upsert_length table rowId c d m t :
  (List.length table <= List.length (Db.upsert table rowId c d m t) <= List.length table + 1)%nat.
Proof.
  unfold Db.upsert. destruct (existsb _ table).
  - rewrite length_map. lia.
  - rewrite length_app. cbn. lia.
Qed.

(** ** Loops of attempts *)

Lemma Attempt_advance env client date w r w' ms :
  0 <= ms -> Attempt env client date w r w' ->
  Attempt env client date w r (advance ms w').
Proof.
  intros Hms H. destruct H.
  - eapply AttemptStored with (t := t); cbn; auto; lia.
  - eapply AttemptFailed; cbn; auto; lia.
Qed.

Lemma forEach_attempts env ms {A} (cl : A -> Db.ClientRow) (dt : A -> string) xs w :
  0 <= ms ->
  exists rs w',
    forEach xs (fun x => r <- Sync.syncClientMetrics env (cl x) (dt x) ;; sleep ms ;; ret r) w
      = (Resolved rs, w') /\
    Attempts env (map (fun x => (cl x, dt x)) xs) w rs w'.
Proof.
  intros Hms. revert w. induction xs as [|x rest IH]; intros w; cbn [forEach map].
  - do 2 eexists; split; [reflexivity | constructor].
  - destruct (syncClientMetrics_attempt env (cl x) (dt x) w) as (r & w1 & Hrun & Hatt).
    destruct (IH (advance ms w1)) as (rs & w2 & Hrest & Hatts).
    unfold bind at 1. unfold bind at 1. rewrite Hrun.
    unfold bind at 1. unfold sleep at 1. unfold ret at 1.
    unfold bind at 1. rewrite Hrest. unfold ret.
    do 2 eexists; split; [reflexivity|].
    apply AttemptsNext with (w1 := advance ms w1); auto.
    apply Attempt_advance; auto.
Qed.

Lemma Attempt_clients env c d w r w' :
  Attempt env c d w r w' -> Db.clients (db w') = Db.clients (db w).
Proof. destruct 1; auto. Qed.

Lemma Attempt_now env c d w r w' : Attempt env c d w r w' -> now w <= now w'.
Proof. destruct 1; lia. Qed.

Lemma Attempt_result env c d w r w' :
  Attempt env c d w r w' -> Sync.clientId r = Db.id c /\ Sync.r_date r = d.
Proof. destruct 1; auto. Qed.

Lemma Attempt_NoDup env c d w r w' :
  Attempt env c d w r w' ->
  NoDup (map key (Db.daily_metrics (db w))) -> NoDup (map key (Db.daily_metrics (db w'))).
Proof.
  destruct 1 as [m t ms w' _ _ _ _ Hdm _ | e ms w' _ _ _ Hdm _]; rewrite Hdm; auto.
  apply upsert_NoDup.
Qed.

Lemma Attempt_other env c d w r w' c' d' :
  Attempt env c d w r w' -> (c', d') <> (Db.id c, d) ->
  rowsFor c' d' w' = rowsFor c' d' w.
Proof.
  unfold rowsFor.
  destruct 1 as [m t ms w' _ _ _ _ Hdm _ | e ms w' _ _ _ Hdm _]; rewrite Hdm; auto.
  intros. apply upsert_other; auto.
Qed.

Lemma Attempt_length env c d w r w' :
  Attempt env c d w r w' ->
  (List.length (Db.daily_metrics (db w)) <= List.length (Db.daily_metrics (db w'))
   <= List.length (Db.daily_metrics (db w)) + 1)%nat.
Proof.
  destruct 1 as [m t ms w' _ _ _ _ Hdm _ | e ms w' _ _ _ Hdm _]; rewrite Hdm;
    [apply upsert_length | lia].
Qed.

(** The metrics a fetch resolves with carry the date asked for. *)
Lemma fetchDailyMetrics_date env propertyId date w m :
  fst (fetchDailyMetrics env propertyId date w) = Resolved m -> Ga4.date m = date.
Proof.
  unfold fetchDailyMetrics; unfold_async; cbn.
  repeat (break_match; cbn); intros H; inversion H; reflexivity.
Qed.

Lemma Attempt_stored env c d w r w' :
  Attempt env c d w r w' -> Sync.r_success r = true ->
  exists m,
    Sync.metrics r = Some m /\
    (forall w0, fst (fetchDailyMetrics env (Db.ga_property_id c) d w0) = Resolved m) /\
    rowsFor (Db.id c) d w' <> [] /\
    forall row, In row (rowsFor (Db.id c) d w') ->
      rowMetrics row = stored m /\ now w <= Db.dm_synced_at row <= now w'.
Proof.
  destruct 1 as [m t ms w' Hm _ Ht _ Hdm _ | ]; cbn; [|discriminate].
  intros _. exists m. split; [reflexivity|]. split; [exact Hm|].
  unfold rowsFor. rewrite Hdm.
  assert (Hd : Ga4.date m = d)
    by (eapply fetchDailyMetrics_date with (w := w); apply Hm).
  destruct (upsert_stored (Db.daily_metrics (db w)) (Db.daily_metrics_id_seq (db w))
              (Db.id c) d m t Hd) as [Hne Hall].
  split; auto. intros row Hrow. destruct (Hall row Hrow) as [-> ->]. auto.
Qed.

Lemma Attempt_failed_untouched env c d w r w' :
  Attempt env c d w r w' -> Sync.r_success r = false ->
  Db.daily_metrics (db w') = Db.daily_metrics (db w).
Proof. destruct 1; cbn; auto; discriminate. Qed.

Lemma Attempts_clients env jobs w rs w' :
  Attempts env jobs w rs w' -> Db.clients (db w') = Db.clients (db w).
Proof.
  induction 1; auto. rewrite IHAttempts. eapply Attempt_clients; eauto.
Qed.

Lemma Attempts_now env jobs w rs w' : Attempts env jobs w rs w' -> now w <= now w'.
Proof.
  induction 1; try lia. apply Attempt_now in H. lia.
Qed.

Lemma Attempts_NoDup env jobs w rs w' :
  Attempts env jobs w rs w' ->
  NoDup (map key (Db.daily_metrics (db w))) -> NoDup (map key (Db.daily_metrics (db w'))).
Proof.
  induction 1; auto. intros Hnd. apply IHAttempts. eapply Attempt_NoDup; eauto.
Qed.

Lemma Attempts_results env jobs w rs w' :
  Attempts env jobs w rs w' ->
  map Sync.clientId rs = map (fun j => Db.id (fst j)) jobs /\
  map Sync.r_date rs = map snd jobs.
Proof.
  induction 1; cbn; auto.
  destruct IHAttempts as [-> ->]. apply Attempt_result in H. destruct H as [-> ->]. auto.
Qed.

Lemma Attempts_length env jobs w rs w' :
  Attempts env jobs w rs w' -> List.length rs = List.length jobs.
Proof. induction 1; cbn; auto. Qed.

Lemma Attempts_other env jobs w rs w' c d :
  Attempts env jobs w rs w' -> ~ In (c, d) (map jobKey jobs) ->
  rowsFor c d w' = rowsFor c d w.
Proof.
  induction 1; auto. cbn [map In]. unfold jobKey at 1. cbn [fst snd]. intros Hnot.
  rewrite IHAttempts by tauto.
  eapply Attempt_other; [exact H|]. intros Heq. apply Hnot. left. congruence.
Qed.

Lemma Attempts_table_length env jobs w rs w' :
  Attempts env jobs w rs w' ->
  (List.length (Db.daily_metrics (db w)) <= List.length (Db.daily_metrics (db w'))
   <= List.length (Db.daily_metrics (db w)) + List.length jobs)%nat.
Proof.
  induction 1; cbn [List.length]; try lia. apply Attempt_length in H. lia.
Qed.

Lemma Attempts_stored env jobs w rs w' :
  Attempts env jobs w rs w' -> NoDup (map jobKey jobs) ->
  forall c d r, In ((c, d), r) (combine jobs rs) -> Sync.r_success r = true ->
  exists m,
    Sync.metrics r = Some m /\
    (forall w0, fst (fetchDailyMetrics env (Db.ga_property_id c) d w0) = Resolved m) /\
    rowsFor (Db.id c) d w' <> [] /\
    forall row, In row (rowsFor (Db.id c) d w') ->
      rowMetrics row = stored m /\ now w <= Db.dm_synced_at row <= now w'.
Proof.
  induction 1 as [|client date rest w r0 w1 rs w2 Hatt Hrest IH]; cbn [combine map In].
  - intros _ c d r [].
  - intros Hnd c d r [Heq | Hin] Hok.
    + inversion Heq; subst c d r. inversion Hnd as [|k ks Hnotin _]; subst.
      destruct (Attempt_stored _ _ _ _ _ _ Hatt Hok) as (m & Hm & Hf & Hne & Hrows).
      rewrite (Attempts_other _ _ _ _ _ (Db.id client) date Hrest Hnotin).
      exists m. repeat split; auto; destruct (Hrows row H) as [? ?]; auto; try lia.
      apply Attempts_now in Hrest. lia.
    + inversion Hnd; subst.
      destruct (IH H2 c d r Hin Hok) as (m & Hm & Hf & Hne & Hrows).
      exists m. repeat split; auto; destruct (Hrows row H) as [? ?]; auto; try lia.
      apply Attempt_now in Hatt. lia.
Qed.

(** ** The audit trail of a loop *)

Lemma Attempt_audit env c d w r w' :
  auditWritesSucceed env -> Attempt env c d w r w' ->
  exists l, Db.sync_logs (db w') = (Db.sync_logs (db w) ++ [l])%list /\ documents l r.
Proof.
  intros Hok. destruct 1 as [m t ms w' _ _ _ _ _ Ha | e ms w' _ _ _ _ Ha];
    unfold Audit in Ha; rewrite Hok in Ha; destruct Ha as [t' Ht'];
    eexists; (split; [exact Ht'|]); repeat split.
Qed.

Lemma Attempts_audit env jobs w rs w' :
  auditWritesSucceed env -> Attempts env jobs w rs w' ->
  exists ls, Db.sync_logs (db w') = (Db.sync_logs (db w) ++ ls)%list /\
             Forall2 documents ls rs.
Proof.
  intros Hok. induction 1.
  - exists []. rewrite app_nil_r. auto.
  - destruct IHAttempts as (ls & Hls & Hall).
    destruct (Attempt_audit _ _ _ _ _ _ Hok H) as (l & Hl & Hdoc).
    exists (l :: ls). rewrite Hls, Hl, <- app_assoc. auto.
Qed.

(** Without that assumption the trail still only grows, by at most one row
    per attempt. *)
Lemma Attempt_audit_any env c d w r w' :
  Attempt env c d w r w' ->
  exists ls, Db.sync_logs (db w') = (Db.sync_logs (db w) ++ ls)%list /\
             (List.length ls <= 1)%nat.
Proof.
  destruct 1 as [m t ms w' _ _ _ _ _ Ha | e ms w' _ _ _ _ Ha];
    unfold Audit in Ha; destruct (statementFault env _);
    try (destruct Ha as [Ha _]; exists []; rewrite app_nil_r; split; [exact Ha | cbn; lia]);
    destruct Ha as [t' Ht']; eexists; (split; [exact Ht' | cbn; lia]).
Qed.

Lemma Attempts_audit_any env jobs w rs w' :
  Attempts env jobs w rs w' ->
  exists ls, Db.sync_logs (db w') = (Db.sync_logs (db w) ++ ls)%list /\
             (List.length ls <= List.length jobs)%nat.
Proof.
  induction 1.
  - exists []. rewrite app_nil_r. auto.
  - destruct IHAttempts as (ls & Hls & Hlen).
    destruct (Attempt_audit_any _ _ _ _ _ _ H) as (l & Hl & Hl1).
    exists (l ++ ls)%list. rewrite Hls, Hl, <- app_assoc. split; auto.
    rewrite length_app. cbn. lia.
Qed.

Lemma newLogs_app w w' ls :
  Db.sync_logs (db w') = (Db.sync_logs (db w) ++ ls)%list -> newLogs w w' = ls.
Proof.
  intros H. unfold newLogs. rewrite H.
  rewrite skipn_app, skipn_all, Nat.sub_diag. reflexivity.
Qed.

(** ** A whole run of [syncAllClients] *)

Lemma len_zero {A} (xs : list A) : (Sync.len xs =? 0) = true -> xs = [].
Proof.
  unfold Sync.len. destruct xs; auto. cbn [List.length]. intros H.
  apply Z.eqb_eq in H. lia.
Qed.

(** A whole run of [syncAllClients]: it rejects exactly when the roster query
    fails; otherwise it resolves after one attempt per tenant of the roster,
    in roster order, and counts their results. *)
Lemma syncAllClients_run env date w :
  match statementFault env Db.SelectActiveClients with
  | Some e =>
      exists w', Sync.syncAllClients env date w = (Rejected e, w') /\ db w' = db w /\
                 now w <= now w'
  | None =>
      exists s wa wb w',
        Sync.syncAllClients env date w = (Resolved s, w') /\
        db wa = db w /\ now w <= now wa /\
        Attempts env (map (fun c => (c, date)) (roster w)) wa (Sync.results s) wb /\
        db w' = db wb /\ now wb <= now w' /\
        Sync.totalClients s = Sync.len (roster w) /\
        Sync.successCount s = Sync.len (filter Sync.r_success (Sync.results s)) /\
        Sync.failureCount s =
          Sync.len (filter (fun r => negb (Sync.r_success r)) (Sync.results s)) /\
        Sync.success s = (Sync.failureCount s =? 0) /\
        (roster w = [] ->
         s = Sync.mkSummary true None 0 0 0 None [])
  end.
Proof.
  destruct (statementFault env Db.SelectActiveClients) as [e|] eqn:Hf;
    unfold Sync.syncAllClients;
    do 3 (unfold bind at 1; unfold console_log at 1, say at 1);
    unfold bind at 1; unfold dateNow at 1; cbn [now db console];
    unfold tryCatch at 1; unfold bind at 1;
    match goal with |- context [query env _ ?x] => set (w0 := x) end.
  - rewrite (query_fault _ _ _ _ Hf).
    unfold bind, console_error, say, throw. cbn [db now console].
    eexists; split; [reflexivity|]. cbn [db now]. subst w0; cbn [db now].
    split; auto. lia.
  - destruct (query_ok env _ w0 Hf) as (wa & Hq & Hdb & Hnow & _).
    rewrite Hq. cbn [Db.execute fst snd] in *.
    change (Db.order_by_name (filter Db.is_active (Db.clients (db w0)))) with (roster w).
    destruct (Sync.len (roster w) =? 0) eqn:Hlen.
    + apply len_zero in Hlen. rewrite Hlen.
      unfold bind, console_log, say, ret. cbn.
      exists (Sync.mkSummary true None 0 0 0 None []), wa, wa.
      eexists; split; [reflexivity|].
      cbn [Sync.results Sync.totalClients Sync.successCount
           Sync.failureCount Sync.success db now map filter].
      assert (now w <= now wa) by (rewrite Hnow; subst w0; cbn [now]; lia).
      repeat split; auto; try lia; try constructor.
    + unfold bind at 1. unfold console_log at 1, say at 1.
      unfold bind at 1.
      match goal with |- context [forEach _ _ ?w1] => set (w1' := w1) end.
      assert (H500 : 0 <= 500) by lia.
      destruct (forEach_attempts env 500 (fun c : Db.ClientRow => c) (fun _ => date)
                  (roster w) w1' H500) as (rs & wb & Hloop & Hatts).
      cbv beta in Hloop. rewrite Hloop.
      unfold bind, console_log, say, dateNow, ret. cbn [now db console].
      do 4 eexists.
      split; [reflexivity|]. cbn [Sync.results Sync.totalClients Sync.successCount
                                 Sync.failureCount Sync.success db now].
      split; [| split; [| split; [exact Hatts|]]].
      * subst w1'. cbn [db]. rewrite Hdb. reflexivity.
      * subst w1' w0. cbn [now] in *. lia.
      * repeat split; auto; try lia.
        intros Hr. rewrite Hr in Hlen. discriminate.
Qed.

(** ** The roster *)

Lemma insert_by_name_perm c l : Permutation (Db.insert_by_name c l) (c :: l).
Proof.
  induction l as [|x rest IH]; cbn; auto.
  destruct (String.leb (Db.name c) (Db.name x)); auto.
  rewrite IH. apply perm_swap.
Qed.

Lemma order_by_name_perm l : Permutation (Db.order_by_name l) l.
Proof.
  induction l as [|x rest IH]; cbn; auto.
  rewrite insert_by_name_perm. auto.
Qed.

Lemma NoDup_map_filter {A B} (f : A -> B) (p : A -> bool) l :
  NoDup (map f l) -> NoDup (map f (filter p l)).
Proof.
  induction l as [|x rest IH]; cbn; auto. intros H. inversion H; subst.
  destruct (p x); cbn; auto. constructor; auto.
  intros Hin. apply H2. apply in_map_iff in Hin. destruct Hin as (y & Hy & Hin).
  apply filter_In in Hin. rewrite <- Hy. apply in_map. tauto.
Qed.

Lemma roster_NoDup w :
  NoDup (map Db.id (Db.clients (db w))) -> NoDup (map Db.id (roster w)).
Proof.
  intros H. unfold roster.
  eapply Permutation_NoDup.
  - apply Permutation_map. symmetry. apply order_by_name_perm.
  - apply NoDup_map_filter. exact H.
Qed.

Lemma roster_active w c : In c (roster w) <-> In c (Db.clients (db w)) /\ Db.is_active c = true.
Proof.
  unfold roster. rewrite <- filter_In. split; intros H.
  - eapply Permutation_in; [apply order_by_name_perm | exact H].
  - eapply Permutation_in; [symmetry; apply order_by_name_perm | exact H].
Qed.

Lemma jobs_NoDup (cs : list Db.ClientRow) date :
  NoDup (map Db.id cs) -> NoDup (map jobKey (map (fun c => (c, date)) cs)).
Proof.
  intros H. rewrite map_map. unfold jobKey. cbn [fst snd].
  induction cs as [|c rest IH]; cbn in *; [constructor|].
  inversion H; subst. constructor; auto.
  intros Hin. apply H2. apply in_map_iff in Hin. destruct Hin as (x & Hx & Hin).
  inversion Hx. apply in_map_iff. eauto.
Qed.

(** ** Results and jobs of a loop *)

Lemma Attempts_each env jobs w rs w' :
  Attempts env jobs w rs w' ->
  Forall2 (fun j r => exists wi wj, Attempt env (fst j) (snd j) wi r wj) jobs rs.
Proof.
  induction 1; constructor; auto. cbn. eauto.
Qed.

Lemma Attempt_success_iff env c d w r w' :
  Attempt env c d w r w' ->
  upsertsSucceed env ->
  Sync.r_success r = isResolved (fst (fetchDailyMetrics env (Db.ga_property_id c) d w)).
Proof.
  intros H Hup. destruct H as [m t ms w' Hm _ _ _ _ _ | e ms w' Hcause _ _ _ _]; cbn.
  - rewrite Hm. reflexivity.
  - destruct Hcause as [He | (m & _ & Hfault)].
    + rewrite He. reflexivity.
    + rewrite Hup in Hfault. discriminate.
Qed.

Lemma Forall2_combine {A B} (R : A -> B -> Prop) xs ys :
  Forall2 R xs ys -> forall x y, In (x, y) (combine xs ys) -> R x y.
Proof.
  induction 1; cbn; [tauto|]. intros a b [Heq|Hin]; auto. inversion Heq; subst; auto.
Qed.

Lemma in_combine_of_length {A B} (xs : list A) (ys : list B) y :
  List.length xs = List.length ys -> In y ys -> exists x, In (x, y) (combine xs ys).
Proof.
  revert ys. induction xs as [|x xs IH]; destruct ys as [|y0 ys]; cbn; try tauto; try discriminate.
  intros Hlen [->|Hin]; [eauto|].
  destruct (IH ys) as (x' & Hx'); auto.
  eauto.
Qed.

Lemma Forall2_filter {A B} (R : A -> B -> Prop) (p : A -> bool) (q : B -> bool) xs ys :
  Forall2 R xs ys -> (forall x y, R x y -> p x = q y) ->
  Forall2 R (filter p xs) (filter q ys).
Proof.
  intros H Hpq. induction H; cbn; auto.
  rewrite (Hpq _ _ H). destruct (q y); auto.
Qed.

Lemma filter_none {A} (p : A -> bool) (xs : list A) :
  (forall x, In x xs -> p x = false) -> filter p xs = [].
Proof.
  induction xs as [|x rest IH]; cbn; auto. intros H.
  rewrite (H x) by auto. apply IH. auto.
Qed.

Lemma filter_unique {A} (f : A -> Z) (xs : list A) k :
  NoDup (map f xs) -> In k (map f xs) ->
  exists x, filter (fun y => f y =? k) xs = [x] /\ f x = k.
Proof.
  induction xs as [|x rest IH]; cbn; [tauto|]. intros H Hin. inversion H; subst.
  destruct (f x =? k) eqn:E.
  - apply Z.eqb_eq in E. exists x. split; auto. f_equal.
    apply filter_none. intros y Hy. apply Z.eqb_neq. intros Hc.
    apply H2. rewrite E, <- Hc. apply in_map. exact Hy.
  - apply Z.eqb_neq in E. destruct Hin as [Hk|Hin]; [congruence|].
    apply IH; auto.
Qed.

Lemma rowsFor_In c d w row :
  In row (rowsFor c d w) <-> In row (Db.daily_metrics (db w)) /\ key row = (c, d).
Proof.
  unfold rowsFor. rewrite filter_In, same_key_iff. tauto.
Qed.

Lemma nonempty_In {A} (l : list A) : l <> [] -> exists x, In x l.
Proof. destruct l; [congruence | intros _; eexists; left; reflexivity]. Qed.

(** One failing fetch in a batch whose database works: results, stored rows
    and audit rows. *)
Lemma batch_with_one_failure env date w K s wa wb :
  upsertsSucceed env -> auditWritesSucceed env ->
  NoDup (map Db.id (roster w)) ->
  In K (roster w) ->
  (forall c w0, In c (roster w) ->
     isResolved (fst (fetchDailyMetrics env (Db.ga_property_id c) date w0)) =
     negb (Db.id c =? Db.id K)) ->
  Attempts env (map (fun c => (c, date)) (roster w)) wa (Sync.results s) wb ->
  (forall r, In r (Sync.results s) ->
     Sync.r_success r = negb (Sync.clientId r =? Db.id K)) /\
  (forall c, In c (roster w) -> Db.id c <> Db.id K ->
     exists r m row,
       In r (Sync.results s) /\ Sync.clientId r = Db.id c /\ Sync.r_success r = true /\
       Sync.metrics r = Some m /\
       (forall w0, fst (fetchDailyMetrics env (Db.ga_property_id c) date w0) = Resolved m) /\
       In row (Db.daily_metrics (db wb)) /\ key row = (Db.id c, date) /\
       rowMetrics row = stored m).
Proof.
  intros Hup Haud Hnd HK Hfetch Hatts.
  pose proof (Attempts_each _ _ _ _ _ Hatts) as Heach.
  pose proof (Attempts_length _ _ _ _ _ Hatts) as Hlen.
  assert (Hpair : forall c r, In ((c, date), r)
                    (combine (map (fun c => (c, date)) (roster w)) (Sync.results s)) ->
                  In c (roster w) /\ Sync.clientId r = Db.id c /\
                  Sync.r_success r = negb (Db.id c =? Db.id K)).
  { intros c r Hin.
    assert (Hc : In c (roster w)).
    { apply in_combine_l in Hin. apply in_map_iff in Hin.
      destruct Hin as (c' & Heq & Hc'). inversion Heq; subst; auto. }
    destruct (Forall2_combine _ _ _ Heach _ _ Hin) as (wi & wj & Hatt). cbn [fst snd] in Hatt.
    split; auto. split; [apply (Attempt_result _ _ _ _ _ _ Hatt)|].
    rewrite (Attempt_success_iff _ _ _ _ _ _ Hatt Hup). apply Hfetch; auto. }
  split.
  - intros r Hr.
    destruct (in_combine_of_length (map (fun c => (c, date)) (roster w)) (Sync.results s) r)
      as ([c d] & Hin); auto.
    assert (d = date).
    { apply in_combine_l in Hin. apply in_map_iff in Hin.
      destruct Hin as (c' & Heq & _). inversion Heq; auto. }
    subst d. destruct (Hpair c r Hin) as (_ & -> & ->). reflexivity.
  - intros c Hc Hne.
    assert (Hjob : In (c, date) (map (fun c => (c, date)) (roster w)))
      by (apply in_map_iff; eauto).
    destruct (In_nth _ _ (c, date) Hjob) as (n & Hn & Hnth).
    set (r := nth n (Sync.results s) (Sync.mkResult false 0 "" "" None None 0)).
    assert (Hin : In ((c, date), r)
                    (combine (map (fun c => (c, date)) (roster w)) (Sync.results s))).
    { rewrite <- Hnth. unfold r. rewrite <- combine_nth by auto.
      apply nth_In. rewrite length_combine. lia. }
    destruct (Hpair c r Hin) as (_ & Hid & Hok).
    assert (Hok' : Sync.r_success r = true).
    { rewrite Hok. apply negb_true_iff. apply Z.eqb_neq. exact Hne. }
    destruct (Attempts_stored _ _ _ _ _ Hatts (jobs_NoDup _ date Hnd) c date r Hin Hok')
      as (m & Hm & Hf & Hne' & Hrows).
    destruct (nonempty_In _ Hne') as (row & Hrow).
    exists r, m, row. destruct (Hrows row Hrow) as [Hmet _].
    apply rowsFor_In in Hrow. destruct Hrow as [Hrow Hkey].
    repeat split; auto. apply in_combine_r in Hin. exact Hin.
Qed.

Lemma documents_logOf k l r : documents l r -> logOf k l = (Sync.clientId r =? k).
Proof. intros (H & _). unfold logOf. rewrite H. reflexivity. Qed.

(** The audit rows of one tenant in a batch whose audit writes succeed. *)
Lemma batch_audit_of env jobs w rs w' k :
  auditWritesSucceed env ->
  Attempts env jobs w rs w' ->
  NoDup (map Sync.clientId rs) -> In k (map Sync.clientId rs) ->
  List.length (newLogs w w') = List.length rs /\
  exists l r, filter (logOf k) (newLogs w w') = [l] /\ In r rs /\
              Sync.clientId r = k /\ documents l r.
Proof.
  intros Haud Hatts Hnd Hk.
  destruct (Attempts_audit _ _ _ _ _ Haud Hatts) as (ls & Hls & Hdoc).
  rewrite (newLogs_app _ _ _ Hls).
  split; [eapply Forall2_length; eauto|].
  destruct (filter_unique Sync.clientId rs k Hnd Hk) as (r & Hr & Hid).
  pose proof (Forall2_filter documents (logOf k) (fun r => Sync.clientId r =? k) ls rs Hdoc
                (documents_logOf k)) as Hf.
  assert (Hin : In r rs).
  { assert (In r (filter (fun r => Sync.clientId r =? k) rs)) by (rewrite Hr; left; auto).
    apply filter_In in H. tauto. }
  rewrite Hr in Hf. clear Hr.
  destruct (filter (logOf k) ls) as [|l [|l' rest]];
    inversion Hf as [|? ? ? ? Hlr Hnil]; subst; try solve [inversion Hnil].
  exists l, r. repeat split; auto; apply Hlr.
Qed.

(** ** Isolation of a failing tenant *)

Lemma filter_negb_nil {A} (p : A -> bool) (xs : list A) :
  filter (fun x => negb (p x)) xs = [] <-> forall x, In x xs -> p x = true.
Proof.
  induction xs as [|x rest IH]; cbn; [tauto|].
  destruct (p x) eqn:E; cbn.
  - rewrite IH. split; intros H; [intros y [<-|Hy]; auto | auto].
  - split; [discriminate|]. intros H. specialize (H x (or_introl eq_refl)). congruence.
Qed.

Lemma len_zero_iff {A} (xs : list A) : Sync.len xs = 0 <-> xs = [].
Proof.
  unfold Sync.len. destruct xs; cbn [List.length]; split; auto; try discriminate; lia.
Qed.

Lemma len_filter_split {A} (p : A -> bool) (xs : list A) :
  Sync.len (filter p xs) + Sync.len (filter (fun x => negb (p x)) xs) = Sync.len xs.
Proof. unfold Sync.len. rewrite <- (filter_length p xs). lia. Qed.

(** C1 (isolation).  [syncAllClients] rejects exactly when the roster query
    fails, whatever the provider and the database do afterwards.  And in a
    batch whose only fault is the fetch of one tenant [K] of the roster (the
    roster loads, every other fetch resolves, the database executes the
    upserts and the audit inserts), the call resolves with one result per
    tenant in roster order; the result of every tenant but [K] is a success
    whose metrics are those fetched, and [daily_metrics] holds a row for
    that tenant and date with these metrics (the duration and the rate
    rounded to two decimals, as their columns store them); [K]'s result is
    the only failure; one audit row is written per tenant, and exactly one
    of them is for [K], with status [failed] and [records_synced = 0]. *)
Theorem syncAllClients_isolates_one_failure :
  (forall env date w,
     isResolved (fst (Sync.syncAllClients env date w)) = false <->
     statementFault env Db.SelectActiveClients <> None) /\
  (forall env date w K,
     statementFault env Db.SelectActiveClients = None ->
     upsertsSucceed env ->
     auditWritesSucceed env ->
     NoDup (map Db.id (Db.clients (db w))) ->
     In K (roster w) ->
     (forall c w0, In c (roster w) ->
        isResolved (fst (fetchDailyMetrics env (Db.ga_property_id c) date w0)) =
        negb (Db.id c =? Db.id K)) ->
     exists s w',
       Sync.syncAllClients env date w = (Resolved s, w') /\
       map Sync.clientId (Sync.results s) = map Db.id (roster w) /\
       (forall r, In r (Sync.results s) ->
          Sync.r_success r = negb (Sync.clientId r =? Db.id K)) /\
       (forall c, In c (roster w) -> Db.id c <> Db.id K ->
          exists r m row,
            In r (Sync.results s) /\ Sync.clientId r = Db.id c /\
            Sync.r_success r = true /\ Sync.metrics r = Some m /\
            (forall w0, fst (fetchDailyMetrics env (Db.ga_property_id c) date w0) = Resolved m) /\
            In row (Db.daily_metrics (db w')) /\ key row = (Db.id c, date) /\
            rowMetrics row = stored m) /\
       Sync.failureCount s = 1 /\
       Sync.successCount s = Sync.len (roster w) - 1 /\
       List.length (newLogs w w') = List.length (roster w) /\
       exists l,
         filter (logOf (Db.id K)) (newLogs w w') = [l] /\
         Db.sl_sync_date l = date /\
         Db.sl_status l = Db.failed /\
         Db.sl_records_synced l = 0).
Proof.
  split.
  - intros env date w. pose proof (syncAllClients_run env date w) as H.
    destruct (statementFault env Db.SelectActiveClients) as [e|].
    + destruct H as (w' & -> & _). cbn. split; [discriminate | reflexivity].
    + destruct H as (s & wa & wb & w' & -> & _). cbn. split; [discriminate | congruence].
  - intros env date w K Hroster Hup Haud Hids HK Hfetch.
    pose proof (syncAllClients_run env date w) as H. rewrite Hroster in H.
    destruct H as (s & wa & wb & w' & Hrun & Hdba & _ & Hatts & Hdbb & _ & _ & Hsc & Hfc & _).
    pose proof (roster_NoDup w Hids) as Hnd.
    destruct (Attempts_results _ _ _ _ _ Hatts) as [Hcids Hdates].
    rewrite map_map in Hcids. cbn [fst] in Hcids.
    destruct (batch_with_one_failure env date w K s wa wb Hup Haud Hnd HK Hfetch Hatts)
      as [Hsucc Hstored].
    assert (Hlogs : newLogs w w' = newLogs wa wb)
      by (unfold newLogs; rewrite Hdba, Hdbb; reflexivity).
    assert (Hnd' : NoDup (map Sync.clientId (Sync.results s))) by (rewrite Hcids; exact Hnd).
    assert (HK' : In (Db.id K) (map Sync.clientId (Sync.results s)))
      by (rewrite Hcids; apply in_map; exact HK).
    assert (Hone : Sync.failureCount s = 1).
    { rewrite Hfc.
      rewrite (filter_ext_in (fun r => negb (Sync.r_success r))
                 (fun r => Sync.clientId r =? Db.id K) (Sync.results s))
        by (intros r Hr; rewrite (Hsucc r Hr); apply negb_involutive).
      destruct (filter_unique Sync.clientId (Sync.results s) (Db.id K) Hnd' HK') as (r & -> & _).
      reflexivity. }
    exists s, w'. split; [exact Hrun|]. split; [exact Hcids|]. split; [exact Hsucc|].
    split; [|split; [exact Hone|split]].
    + intros c Hc Hne. destruct (Hstored c Hc Hne) as (r & m & row & H).
      exists r, m, row. rewrite Hdbb. exact H.
    + pose proof (len_filter_split Sync.r_success (Sync.results s)) as Hsplit.
      rewrite <- Hsc, <- Hfc, Hone in Hsplit.
      assert (Sync.len (Sync.results s) = Sync.len (roster w)).
      { unfold Sync.len. rewrite <- (length_map Sync.clientId), Hcids, length_map. reflexivity. }
      lia.
    + rewrite Hlogs.
      destruct (batch_audit_of env _ wa (Sync.results s) wb (Db.id K) Haud Hatts Hnd' HK')
        as (Hlen & l & r & Hl & Hr & Hid & Hdoc).
      split.
      * rewrite Hlen, <- (length_map Sync.clientId), Hcids, length_map. reflexivity.
      * exists l. split; [exact Hl|].
        destruct Hdoc as (_ & Hdate & Hstatus & Hrec & _).
        rewrite (Hsucc r Hr), Hid, Z.eqb_refl in *. cbn in *.
        repeat split; auto.
        rewrite Hdate.
        assert (In (Sync.r_date r) (map Sync.r_date (Sync.results s))) by (apply in_map; auto).
        rewrite Hdates, map_map in H. cbn [snd] in H.
        apply in_map_iff in H. destruct H as (? & ? & _). auto.
Qed.

Lemma syncAllClients_isolates_one_failure_witness :
  exists s w',
    Sync.syncAllClients Scenario.birchDenied "2024-03-01" Scenario.world0 = (Resolved s, w') /\
    map Sync.clientId (Sync.results s) = [1; 2; 3] /\
    Sync.failureCount s = 1 /\
    List.length (newLogs Scenario.world0 w') = 3%nat /\
    exists l,
      filter (logOf 2) (newLogs Scenario.world0 w') = [l] /\
      Db.sl_status l = Db.failed /\ Db.sl_records_synced l = 0.
Proof.
  destruct (proj2 syncAllClients_isolates_one_failure
              Scenario.birchDenied "2024-03-01" Scenario.world0 Scenario.birch)
    as (s & w' & Hrun & Hids & _ & _ & Hfail & _ & Hlen & l & Hl & _ & Hst & Hrec).
  - reflexivity.
  - intros c d m; reflexivity.
  - intros c d st n msg ms; reflexivity.
  - cbn. repeat constructor; cbn; intuition discriminate.
  - cbn. auto.
  - intros c w0 Hc. cbn in Hc.
    destruct Hc as [<-|[<-|[<-|[]]]]; reflexivity.
  - exists s, w'. repeat split; auto. exists l. auto.
Defined.

(** ** Running a sync twice *)

Lemma Attempt_succeeds env c d w r w' m :
  Attempt env c d w r w' ->
  (forall w0, fst (fetchDailyMetrics env (Db.ga_property_id c) d w0) = Resolved m) ->
  statementFault env (Db.UpsertDailyMetrics (Db.id c) d m) = None ->
  Sync.r_success r = true.
Proof.
  intros H Hm Hup. destruct H as [| e ms w' Hcause _ _ _ _]; cbn; auto.
  destruct Hcause as [He | (m' & Hm' & Hfault)].
  - specialize (He w). rewrite Hm in He. discriminate.
  - specialize (Hm' w). rewrite Hm in Hm'. inversion Hm'; subst. congruence.
Qed.

Lemma Attempt_identity env c' d' w r w' c d row0 :
  Attempt env c' d' w r w' -> In row0 (rowsFor c d w) ->
  exists row, In row (rowsFor c d w') /\
              Db.dm_id row = Db.dm_id row0 /\ Db.dm_created_at row = Db.dm_created_at row0.
Proof.
  intros H Hin.
  destruct (Z.eq_dec c (Db.id c')) as [Hc|Hc]; [destruct (string_dec d d') as [Hd|Hd]|].
  - subst c d.
    destruct H as [m t ms w' _ _ _ _ Hdm _ | e ms w' _ _ _ Hdm _]; unfold rowsFor in *;
      rewrite Hdm.
    + apply filter_In in Hin. destruct Hin as [Hin Hk].
      apply upsert_keeps_identity; auto.
    + eauto.
  - rewrite (Attempt_other _ _ _ _ _ _ c d H) by congruence. eauto.
  - rewrite (Attempt_other _ _ _ _ _ _ c d H) by congruence. eauto.
Qed.

Lemma Attempts_identity env jobs w rs w' c d row0 :
  Attempts env jobs w rs w' -> In row0 (rowsFor c d w) ->
  exists row, In row (rowsFor c d w') /\
              Db.dm_id row = Db.dm_id row0 /\ Db.dm_created_at row = Db.dm_created_at row0.
Proof.
  intros H. revert row0. induction H; intros row0 Hin; eauto.
  destruct (Attempt_identity _ _ _ _ _ _ c d row0 H Hin) as (row1 & Hin1 & Hid1 & Hcr1).
  destruct (IHAttempts row1 Hin1) as (row & Hrow & Hid & Hcr).
  exists row. repeat split; auto; congruence.
Qed.

(** A loop that reaches a (tenant, date) whose fetch and upsert succeed
    leaves exactly one row for it, holding the fetched metrics. *)
Lemma Attempts_single_row env jobs w rs w' c d m :
  Attempts env jobs w rs w' ->
  NoDup (map jobKey jobs) ->
  NoDup (map key (Db.daily_metrics (db w))) ->
  In (c, d) jobs ->
  (forall w0, fst (fetchDailyMetrics env (Db.ga_property_id c) d w0) = Resolved m) ->
  statementFault env (Db.UpsertDailyMetrics (Db.id c) d m) = None ->
  exists row,
    rowsFor (Db.id c) d w' = [row] /\ rowMetrics row = stored m /\
    now w <= Db.dm_synced_at row <= now w' /\
    forall row0, In row0 (rowsFor (Db.id c) d w) ->
      Db.dm_id row = Db.dm_id row0 /\ Db.dm_created_at row = Db.dm_created_at row0.
Proof.
  intros Hatts Hjobs Hkeys Hin Hm Hup.
  pose proof (Attempts_each _ _ _ _ _ Hatts) as Heach.
  pose proof (Attempts_length _ _ _ _ _ Hatts) as Hlen.
  destruct (In_nth _ _ (c, d) Hin) as (n & Hn & Hnth).
  set (r := nth n rs (Sync.mkResult false 0 "" "" None None 0)).
  assert (Hpair : In ((c, d), r) (combine jobs rs)).
  { rewrite <- Hnth. unfold r. rewrite <- combine_nth by auto.
    apply nth_In. rewrite length_combine. lia. }
  destruct (Forall2_combine _ _ _ Heach _ _ Hpair) as (wi & wj & Hatt). cbn [fst snd] in Hatt.
  pose proof (Attempt_succeeds _ _ _ _ _ _ _ Hatt Hm Hup) as Hok.
  destruct (Attempts_stored _ _ _ _ _ Hatts Hjobs c d r Hpair Hok)
    as (m' & _ & Hm' & Hne & Hrows).
  assert (m' = m) by (specialize (Hm w); specialize (Hm' w); congruence). subst m'.
  pose proof (NoDup_keys_filter _ (Db.id c) d (Attempts_NoDup _ _ _ _ _ Hatts Hkeys)) as Hone.
  fold (rowsFor (Db.id c) d w') in Hone.
  destruct (rowsFor (Db.id c) d w') as [|row [|row' rest]] eqn:Hrows';
    [congruence | | cbn in Hone; lia].
  exists row. destruct (Hrows row (or_introl eq_refl)) as [Hmet Htime].
  repeat split; auto; try lia;
    destruct (Attempts_identity _ _ _ _ _ (Db.id c) d row0 Hatts H) as (row1 & Hin1 & Hid & Hcr);
    rewrite Hrows' in Hin1; destruct Hin1 as [<-|[]]; auto.
Qed.

(** Whatever happens in a run, it leaves the [clients] table alone, keeps the
    keys of [daily_metrics] unique, and does not set the clock back. *)
Lemma syncAllClients_preserves env date w :
  let w' := snd (Sync.syncAllClients env date w) in
  Db.clients (db w') = Db.clients (db w) /\
  (NoDup (map key (Db.daily_metrics (db w))) ->
   NoDup (map key (Db.daily_metrics (db w')))) /\
  now w <= now w'.
Proof.
  pose proof (syncAllClients_run env date w) as H.
  destruct (statementFault env Db.SelectActiveClients).
  - destruct H as (w' & -> & Hdb & Hnow). cbn. rewrite Hdb. auto.
  - destruct H as (s & wa & wb & w' & -> & Hdba & Hnowa & Hatts & Hdbb & Hnowb & _). cbn.
    rewrite Hdbb. split; [|split].
    + rewrite (Attempts_clients _ _ _ _ _ Hatts), Hdba. reflexivity.
    + intros Hnd. apply (Attempts_NoDup _ _ _ _ _ Hatts). rewrite Hdba. exact Hnd.
    + apply Attempts_now in Hatts. lia.
Qed.

(** C2 as stated fails: the stored values are not always those of the
    response.  After a second run whose response gives the duration 95.123456
    and the bounce rate 0.453211, the record fetched holds these numbers (the
    rate times 100), but the one row of the tenant and date holds 95.12 and
    45.32: [avg_session_duration] is a [DECIMAL(10,2)] and [bounce_rate] a
    [DECIMAL(5,2)]. *)
Lemma resync_stores_two_decimals :
  let w1 := snd (Sync.syncAllClients Scenario.healthy "2024-03-01" Scenario.world0) in
  let w2 := snd (Sync.syncAllClients Scenario.precise "2024-03-01" w1) in
  exists m row duration rate,
    (forall w0, fst (fetchDailyMetrics Scenario.precise "222222" "2024-03-01" w0)
                = Resolved m) /\
    Ga4.avgSessionDuration m = Js.parseFloat "95.123456" /\
    Ga4.bounceRate m = (Js.parseFloat "0.453211" * 100)%float /\
    rowsFor 2 "2024-03-01" w2 = [row] /\
    Db.dm_avg_session_duration row = Db.Decimal 9512 /\
    Db.dm_bounce_rate row = Db.Decimal 4532 /\
    Js.float_to_Q (Ga4.avgSessionDuration m) = Some duration /\
    Js.float_to_Q (Ga4.bounceRate m) = Some rate /\
    ~ (duration == 9512 # 100)%Q /\
    ~ (rate == 4532 # 100)%Q.
Proof.
  cbv zeta. do 4 eexists.
  split; [intros w0; reflexivity|].
  split; [vm_compute; reflexivity|].
  split; [vm_compute; reflexivity|].
  split; [vm_compute; reflexivity|].
  split; [vm_compute; reflexivity|].
  split; [vm_compute; reflexivity|].
  split; [vm_compute; reflexivity|].
  split; [vm_compute; reflexivity|].
  split; intros H; vm_compute in H; discriminate H.
Qed.

(** C2 amended (idempotence).  Take a store whose tables respect their
    keys, run [syncAllClients] for a date, then run it again (the provider
    and the database may behave differently the second time).  For every
    active tenant whose fetch and upsert succeed in the second run,
    [daily_metrics] then holds exactly one row for (tenant, date): its
    metric columns hold the values of the second fetch as the table keeps
    them (the counts as they are, the duration and the rate rounded to two
    decimals, as [DECIMAL(10,2)] and [DECIMAL(5,2)] store them), its
    [synced_at] lies within the second run, and it is the row the first run
    left, if it left one (same [id], same [created_at]).  No key of the
    table is duplicated. *)
Theorem resync_overwrites_the_row :
  forall env1 env2 date w c m,
    NoDup (map Db.id (Db.clients (db w))) ->
    NoDup (map key (Db.daily_metrics (db w))) ->
    In c (roster w) ->
    statementFault env2 Db.SelectActiveClients = None ->
    (forall w0, fst (fetchDailyMetrics env2 (Db.ga_property_id c) date w0) = Resolved m) ->
    statementFault env2 (Db.UpsertDailyMetrics (Db.id c) date m) = None ->
    let w1 := snd (Sync.syncAllClients env1 date w) in
    let w2 := snd (Sync.syncAllClients env2 date w1) in
    NoDup (map key (Db.daily_metrics (db w2))) /\
    exists row,
      rowsFor (Db.id c) date w2 = [row] /\
      rowMetrics row = stored m /\
      now w1 <= Db.dm_synced_at row <= now w2 /\
      forall row1, In row1 (rowsFor (Db.id c) date w1) ->
        Db.dm_id row = Db.dm_id row1 /\ Db.dm_created_at row = Db.dm_created_at row1.
Proof.
  intros env1 env2 date w c m Hids Hkeys Hc Hroster Hm Hup w1 w2.
  destruct (syncAllClients_preserves env1 date w) as (Hcl1 & Hnd1 & Hnow1).
  fold w1 in Hcl1, Hnd1, Hnow1. specialize (Hnd1 Hkeys).
  assert (Hr1 : roster w1 = roster w) by (unfold roster; rewrite Hcl1; reflexivity).
  destruct (syncAllClients_preserves env2 date w1) as (_ & Hnd2 & _). fold w2 in Hnd2.
  split; [auto|].
  pose proof (syncAllClients_run env2 date w1) as H. rewrite Hroster in H.
  destruct H as (s & wa & wb & w' & Hrun & Hdba & Hnowa & Hatts & Hdbb & Hnowb & _).
  assert (Hw2 : w2 = w') by (unfold w2; rewrite Hrun; reflexivity).
  rewrite Hr1 in Hatts.
  assert (Hids1 : NoDup (map Db.id (roster w))) by (apply roster_NoDup; exact Hids).
  assert (Hkeysa : NoDup (map key (Db.daily_metrics (db wa)))) by (rewrite Hdba; exact Hnd1).
  assert (Hjob : In (c, date) (map (fun c => (c, date)) (roster w)))
    by (apply in_map_iff; eauto).
  destruct (Attempts_single_row env2 _ wa _ wb c date m Hatts (jobs_NoDup _ date Hids1)
              Hkeysa Hjob Hm Hup) as (row & Hrows & Hmet & Htime & Hident).
  exists row. unfold rowsFor in *. rewrite Hw2, Hdbb. rewrite Hdba in Hident.
  repeat split; auto; try lia; apply Hident; auto.
Qed.

Lemma resync_overwrites_the_row_witness :
  let w1 := snd (Sync.syncAllClients Scenario.healthy "2024-03-01" Scenario.world0) in
  let w2 := snd (Sync.syncAllClients Scenario.revised "2024-03-01" w1) in
  NoDup (map key (Db.daily_metrics (db w2))) /\
  exists row,
    rowsFor 2 "2024-03-01" w2 = [row] /\
    rowMetrics row = Scenario.revisedRow /\
    now w1 <= Db.dm_synced_at row <= now w2 /\
    forall row1, In row1 (rowsFor 2 "2024-03-01" w1) ->
      Db.dm_id row = Db.dm_id row1 /\ Db.dm_created_at row = Db.dm_created_at row1.
Proof.
  apply (resync_overwrites_the_row Scenario.healthy Scenario.revised "2024-03-01"
           Scenario.world0 Scenario.birch Scenario.revisedMetrics).
  - cbn. repeat constructor; cbn; intuition discriminate.
  - cbn. constructor.
  - cbn. auto.
  - reflexivity.
  - intros w0. reflexivity.
  - reflexivity.
Defined.

(** ** A day without traffic, and unit conversion *)

Lemma noRows_firstRow response : noRows response -> Ga4.firstRow response = None.
Proof. unfold Ga4.firstRow. intros [-> | ->]; reflexivity. Qed.

Lemma fetchDailyMetrics_no_rows env propertyId date total organic w :
  runReportResult env (Ga4.mkRequest ("properties/" ++ propertyId) date date false)
    = Resolved total ->
  runReportResult env (Ga4.mkRequest ("properties/" ++ propertyId) date date true)
    = Resolved organic ->
  noRows total -> noRows organic ->
  fst (fetchDailyMetrics env propertyId date w) = Resolved (zeroMetrics date).
Proof.
  intros Ht Ho Hnt Hno.
  unfold fetchDailyMetrics; unfold_async.
  change ("properties/" ++ propertyId) with (String.append "properties/" propertyId) in *.
  cbv beta. rewrite Ht. cbv beta iota. rewrite Ho. cbv beta iota.
  unfold Ga4.parseMetricsResponse, Ga4.parseOrganicSessions.
  rewrite (noRows_firstRow _ Hnt), (noRows_firstRow _ Hno). reflexivity.
Qed.

(** C3 (zero traffic).  When both reports for a tenant and date come back
    without rows ([rows] absent or empty), [fetchDailyMetrics] resolves with
    the record whose seven numeric fields are 0, and, the upsert being
    executed, [syncClientMetrics] resolves with a success carrying that
    record and leaves a row for (tenant, date) in [daily_metrics] all of
    whose metric columns are zero. *)
Theorem zero_rows_sync_as_zeros :
  forall env client date total organic w,
    runReportResult env
      (Ga4.mkRequest ("properties/" ++ Db.ga_property_id client) date date false)
      = Resolved total ->
    runReportResult env
      (Ga4.mkRequest ("properties/" ++ Db.ga_property_id client) date date true)
      = Resolved organic ->
    noRows total -> noRows organic ->
    statementFault env (Db.UpsertDailyMetrics (Db.id client) date (zeroMetrics date)) = None ->
    (forall w0,
       fst (fetchDailyMetrics env (Db.ga_property_id client) date w0)
       = Resolved (zeroMetrics date)) /\
    exists r w',
      Sync.syncClientMetrics env client date w = (Resolved r, w') /\
      Sync.r_success r = true /\
      Sync.metrics r = Some (zeroMetrics date) /\
      rowsFor (Db.id client) date w' <> [] /\
      forall row, In row (rowsFor (Db.id client) date w') ->
        rowMetrics row = zeroColumns date.
Proof.
  intros env client date total organic w Ht Ho Hnt Hno Hup.
  assert (Hfetch : forall w0,
            fst (fetchDailyMetrics env (Db.ga_property_id client) date w0)
            = Resolved (zeroMetrics date))
    by (intros w0; eapply fetchDailyMetrics_no_rows; eauto).
  split; [exact Hfetch|].
  destruct (syncClientMetrics_attempt env client date w) as (r & w' & Hrun & Hatt).
  pose proof (Attempt_succeeds _ _ _ _ _ _ _ Hatt Hfetch Hup) as Hok.
  destruct (Attempt_stored _ _ _ _ _ _ Hatt Hok) as (m & Hm & Hf & Hne & Hrows).
  assert (m = zeroMetrics date) by (specialize (Hf w); specialize (Hfetch w); congruence).
  subst m. exists r, w'. repeat split; auto. apply Hrows; auto.
Qed.

Lemma zero_rows_sync_as_zeros_witness :
  exists r w',
    Sync.syncClientMetrics Scenario.noTraffic Scenario.birch "2024-03-01" Scenario.world0
      = (Resolved r, w') /\
    Sync.r_success r = true /\
    Sync.metrics r = Some (zeroMetrics "2024-03-01") /\
    rowsFor 2 "2024-03-01" w' <> [].
Proof.
  destruct (zero_rows_sync_as_zeros Scenario.noTraffic Scenario.birch "2024-03-01"
              (Ga4.mkResponse None) (Ga4.mkResponse (Some [])) Scenario.world0)
    as (_ & r & w' & Hrun & Hok & Hm & Hne & _).
  - reflexivity.
  - reflexivity.
  - left; reflexivity.
  - right; reflexivity.
  - reflexivity.
  - exists r, w'. repeat split; assumption.
Defined.

(** C4 (unit conversion).  [parseMetricsResponse] returns as bounce rate
    the sixth metric value of the first row, parsed as a number and
    multiplied by 100; for the text [0.4532] that is a finite binary64
    number within 0.01 of 45.32, whatever the other values are.
    [formatGA4Date] puts a dash after the fourth and after the sixth of
    eight characters: it turns [20240115] into [2024-01-15]. *)
Theorem normalizer_converts_units :
  (forall dims v0 v1 v2 v3 v4 v5 more rest,
     exists totals,
       Ga4.parseMetricsResponse
         (Ga4.mkResponse
            (Some (Ga4.mkRow dims (v0 :: v1 :: v2 :: v3 :: v4 :: v5 :: more) :: rest)))
       = Resolved totals /\
       Ga4.t_bounceRate totals = Js.float_or_zero (Js.parseFloat v5 * 100)%float) /\
  (forall dims v0 v1 v2 v3 v4 more rest,
     exists totals q,
       Ga4.parseMetricsResponse
         (Ga4.mkResponse
            (Some (Ga4.mkRow dims (v0 :: v1 :: v2 :: v3 :: v4 :: "0.4532" :: more) :: rest)))
       = Resolved totals /\
       Js.float_to_Q (Ga4.t_bounceRate totals) = Some q /\
       ((4532 # 100) - (1 # 100) <= q <= (4532 # 100) + (1 # 100))%Q) /\
  (forall y1 y2 y3 y4 m1 m2 d1 d2 : ascii,
     Ga4.formatGA4Date
       (String y1 (String y2 (String y3 (String y4
          (String m1 (String m2 (String d1 (String d2 ""))))))))
     = String y1 (String y2 (String y3 (String y4 (String "-"
          (String m1 (String m2 (String "-" (String d1 (String d2 "")))))))))) /\
  Ga4.formatGA4Date "20240115" = "2024-01-15".
Proof.
  split; [|split; [|split]]; try reflexivity.
  - intros. eexists. split; reflexivity.
  - intros. eexists. eexists. split; [reflexivity|].
    cbn [Ga4.t_bounceRate]. split; [vm_compute; reflexivity|].
    split; vm_compute; discriminate.
Qed.

(** ** [validatePropertyAccess] *)

(** C6 as stated fails: when the provider is unreachable (gRPC status 14,
    not an access denial), [validatePropertyAccess] resolves with [false]
    instead of throwing. *)
Lemma validatePropertyAccess_turns_outage_into_false :
  getMetadataResult Scenario.providerDown "properties/123456789/metadata"
    = Rejected Scenario.unavailable /\
  accessDenied Scenario.unavailable = false /\
  fst (validatePropertyAccess Scenario.providerDown "123456789" Scenario.world0)
    = Resolved false.
Proof. repeat split. Qed.

(** C6 amended.  [validatePropertyAccess] never throws: it resolves with
    [true] when the metadata request resolves and with [false] when it
    rejects, whatever the error. *)
Theorem validatePropertyAccess_never_throws :
  forall env propertyId w,
    fst (validatePropertyAccess env propertyId w) =
    Resolved (isResolved
                (getMetadataResult env (("properties/" ++ propertyId) ++ "/metadata"))).
Proof.
  intros. unfold validatePropertyAccess; unfold_async. cbv beta.
  destruct (getMetadataResult env _) as [[]|e]; cbn [isResolved]; [reflexivity|].
  destruct (Js.includes "invalid_rapt" (Js.message e)); reflexivity.
Qed.

(** ** The audit write is best effort *)

Lemma syncClientMetrics_split env client date w :
  exists w4,
    Sync.syncClientMetrics env client date w = (Resolved (fst (beforeAudit env client date w)), w4) /\
    Db.daily_metrics (db w4) = Db.daily_metrics (db (snd (beforeAudit env client date w))) /\
    match statementFault env (auditStatement (fst (beforeAudit env client date w))) with
    | Some e =>
        Db.sync_logs (db w4) = Db.sync_logs (db (snd (beforeAudit env client date w))) /\
        In (Err, FailedToLogSync e) (console w4)
    | None =>
        List.length (Db.sync_logs (db w4)) =
        S (List.length (Db.sync_logs (db (snd (beforeAudit env client date w)))))
    end.
Proof.
  unfold Sync.syncClientMetrics, beforeAudit.
  unfold bind at 1. unfold dateNow at 1.
  unfold tryCatch at 1. unfold bind at 1. unfold console_log, console_error, say.
  unfold bind at 1. cbn [snd].
  destruct (fetchDailyMetrics env (Db.ga_property_id client) date _) as [[m|e] w2].
  - unfold bind at 1.
    destruct (query env (Db.UpsertDailyMetrics (Db.id client) date m) w2) as [[rows|e] w3].
    + unfold bind at 1. unfold dateNow at 1. unfold bind at 1.
      use_logSync. unfold bind, console_log, say, ret. cbn [fst snd db now console].
      eexists; split; [reflexivity|]. cbn [db console]. split; [exact Hdm|].
      unfold auditStatement, Audit in *. cbn [Sync.clientId Sync.r_date Sync.r_success
        Sync.error Sync.executionTime] in *.
      destruct (statementFault env _).
      * destruct Haud as [Ha Hb]. split; auto. apply in_or_app; auto.
      * destruct Haud as [t Ht]. rewrite Ht, length_app. cbn. lia.
    + unfold bind at 1. unfold dateNow at 1. unfold bind at 1.
      use_logSync. unfold bind, console_error, say, ret. cbn [fst snd db now console].
      eexists; split; [reflexivity|]. cbn [db console]. split; [exact Hdm|].
      unfold auditStatement, Audit in *. cbn [Sync.clientId Sync.r_date Sync.r_success
        Sync.error Sync.executionTime] in *.
      destruct (statementFault env _).
      * destruct Haud as [Ha Hb]. split; auto. apply in_or_app; auto.
      * destruct Haud as [t Ht]. rewrite Ht, length_app. cbn. lia.
  - unfold bind at 1. unfold dateNow at 1. unfold bind at 1.
    use_logSync. unfold bind, console_error, say, ret. cbn [fst snd db now console].
    eexists; split; [reflexivity|]. cbn [db console]. split; [exact Hdm|].
    unfold auditStatement, Audit in *. cbn [Sync.clientId Sync.r_date Sync.r_success
      Sync.error Sync.executionTime] in *.
    destruct (statementFault env _).
    + destruct Haud as [Ha Hb]. split; auto. apply in_or_app; auto.
    + destruct Haud as [t Ht]. rewrite Ht, length_app. cbn. lia.
Qed.

Lemma fetchDailyMetrics_same env env' propertyId date w :
  (forall request, runReportResult env request = runReportResult env' request) ->
  (forall request, runReportMs env request = runReportMs env' request) ->
  fetchDailyMetrics env propertyId date w = fetchDailyMetrics env' propertyId date w.
Proof.
  intros Hres Hms. unfold fetchDailyMetrics; unfold_async.
  rewrite !Hres, !Hms. reflexivity.
Qed.

Lemma query_same env env' st w :
  statementFault env st = statementFault env' st ->
  statementMs env st = statementMs env' st ->
  query env st w = query env' st w.
Proof.
  intros Hf Hms. unfold query, poolQuery; unfold_async. rewrite Hf, Hms. reflexivity.
Qed.

Lemma beforeAudit_same env env' client date w :
  sameExceptAudit env env' ->
  beforeAudit env client date w = beforeAudit env' client date w.
Proof.
  intros (_ & Hres & Hms & Hst). unfold beforeAudit.
  rewrite (fetchDailyMetrics_same env env' _ _ _ Hres Hms).
  destruct (fetchDailyMetrics env' _ _ _) as [[m|e] w2]; auto.
  destruct (Hst (Db.UpsertDailyMetrics (Db.id client) date m) eq_refl) as [Hf Hm].
  rewrite (query_same env env' _ _ Hf Hm). reflexivity.
Qed.

(** C8 (best-effort audit).  Two environments that agree on everything but
    the outcome and duration of the audit insert give the same result for a
    sync attempt (resolved in both, success or failure alike, with the same
    metrics, error and execution time) and the same [daily_metrics] table.
    When the audit insert fails, no row is added to [sync_logs] and the
    console gets the line of [logSync]. *)
Theorem audit_failure_does_not_change_the_outcome :
  forall env env' client date w,
    sameExceptAudit env env' ->
    let run := Sync.syncClientMetrics env client date w in
    let run' := Sync.syncClientMetrics env' client date w in
    (exists r, fst run = Resolved r /\ fst run' = Resolved r) /\
    Db.daily_metrics (db (snd run)) = Db.daily_metrics (db (snd run')) /\
    (forall r e,
       fst run = Resolved r ->
       statementFault env (auditStatement r) = Some e ->
       In (Err, FailedToLogSync e) (console (snd run)) /\
       newLogs (snd (beforeAudit env client date w)) (snd run) = []).
Proof.
  intros env env' client date w Hsame run run'.
  destruct (syncClientMetrics_split env client date w) as (w4 & Hrun & Hdm & Haud).
  destruct (syncClientMetrics_split env' client date w) as (w4' & Hrun' & Hdm' & _).
  rewrite <- (beforeAudit_same env env' client date w Hsame) in Hrun', Hdm'.
  subst run run'. rewrite Hrun, Hrun'. cbn [fst snd].
  split; [eauto|]. split; [congruence|].
  intros r e Hr Hfault. inversion Hr; subst r. rewrite Hfault in Haud.
  destruct Haud as [Hlogs Hcon]. split; auto.
  unfold newLogs. rewrite Hlogs. apply skipn_all.
Qed.

Lemma audit_failure_does_not_change_the_outcome_witness :
  let run := Sync.syncClientMetrics Scenario.auditDown Scenario.birch "2024-03-01"
               Scenario.world0 in
  let run' := Sync.syncClientMetrics Scenario.healthy Scenario.birch "2024-03-01"
                Scenario.world0 in
  (exists r, fst run = Resolved r /\ fst run' = Resolved r) /\
  Db.daily_metrics (db (snd run)) = Db.daily_metrics (db (snd run')).
Proof.
  destruct (audit_failure_does_not_change_the_outcome
              Scenario.auditDown Scenario.healthy Scenario.birch "2024-03-01" Scenario.world0)
    as (H1 & H2 & _).
  - repeat split; destruct st; try discriminate; reflexivity.
  - split; assumption.
Defined.

(** ** The summary of a run *)

(** C10 (summary).  Whenever [syncAllClients] resolves, [success] is true
    exactly when [failureCount] is 0, which is exactly when every result in
    [results] is a success; [totalClients] is the size of the roster and of
    [results], and the two counts add up to it; an empty roster gives the
    summary with [success = true], zero counts and no results. *)
Theorem summary_success_iff_no_failure :
  forall env date w s w',
    Sync.syncAllClients env date w = (Resolved s, w') ->
    (Sync.success s = true <-> Sync.failureCount s = 0) /\
    (Sync.failureCount s = 0 <-> forall r, In r (Sync.results s) -> Sync.r_success r = true) /\
    Sync.totalClients s = Sync.len (roster w) /\
    Sync.totalClients s = Sync.len (Sync.results s) /\
    Sync.successCount s + Sync.failureCount s = Sync.totalClients s /\
    (roster w = [] -> s = Sync.mkSummary true None 0 0 0 None []).
Proof.
  intros env date w s w' Hrun.
  pose proof (syncAllClients_run env date w) as H.
  destruct (statementFault env Db.SelectActiveClients).
  - destruct H as (w1 & H & _). congruence.
  - destruct H as (s1 & wa & wb & w1 & H & _ & _ & Hatts & _ & _ & Htot & Hsc & Hfc & Hok & Hempty).
    assert (s1 = s) by congruence. subst s1.
    pose proof (Attempts_length _ _ _ _ _ Hatts) as Hlen. rewrite length_map in Hlen.
    assert (Hlen' : Sync.len (Sync.results s) = Sync.len (roster w))
      by (unfold Sync.len; rewrite Hlen; reflexivity).
    split; [rewrite Hok; apply Z.eqb_eq|].
    split; [rewrite Hfc, len_zero_iff; apply filter_negb_nil|].
    split; [exact Htot|]. split; [congruence|].
    split; [rewrite Hsc, Hfc, len_filter_split; congruence | exact Hempty].
Qed.

Lemma summary_success_iff_no_failure_witness :
  let run := Sync.syncAllClients Scenario.healthy "2024-03-01" Scenario.idleWorld in
  fst run = Resolved (Sync.mkSummary true None 0 0 0 None []).
Proof.
  cbv zeta.
  destruct (summary_success_iff_no_failure Scenario.healthy "2024-03-01" Scenario.idleWorld
              (Sync.mkSummary true None 0 0 0 None [])
              (snd (Sync.syncAllClients Scenario.healthy "2024-03-01" Scenario.idleWorld)))
    as (_ & _ & _ & _ & _ & Hempty).
  - vm_compute. reflexivity.
  - vm_compute. reflexivity.
Defined.

(** ** Calendar arithmetic *)

Lemma MakeDay_civil_from_days z :
  let '(y, m, d) := JsDate.civil_from_days z in JsDate.MakeDay y m d = z.
Proof.
  unfold JsDate.civil_from_days, JsDate.MakeDay.
  repeat match goal with |- context [if ?b then _ else _] => destruct b eqn:? end;
    Z.div_mod_to_equations; lia.
Qed.

Lemma MakeDay_shift y m d k : JsDate.MakeDay y m (d + k) = JsDate.MakeDay y m d + k.
Proof. unfold JsDate.MakeDay. lia. Qed.

Lemma Day_TimeWithinDay t :
  JsDate.Day t * JsDate.msPerDay + JsDate.TimeWithinDay t = t.
Proof.
  unfold JsDate.Day, JsDate.TimeWithinDay, JsDate.msPerDay.
  pose proof (Z.div_mod t 86400000). lia.
Qed.

(** [setDate(getDate() + k)] moves the local time by [k] days. *)
Lemma setDate_getDate tz k t :
  JsDate.setDate tz (JsDate.getDate tz t + k) t =
  JsDate.UTC tz (JsDate.LocalTime tz t + k * JsDate.msPerDay).
Proof.
  unfold JsDate.setDate, JsDate.getDate.
  pose proof (MakeDay_civil_from_days (JsDate.Day (JsDate.LocalTime tz t))) as H.
  destruct (JsDate.civil_from_days (JsDate.Day (JsDate.LocalTime tz t))) as [[y m] d].
  rewrite MakeDay_shift, H. f_equal.
  pose proof (Day_TimeWithinDay (JsDate.LocalTime tz t)). lia.
Qed.

Lemma setDate_getDate_fixed minutes k t :
  JsDate.setDate (JsDate.fixedOffset minutes) (JsDate.getDate (JsDate.fixedOffset minutes) t + k) t
  = t + k * JsDate.msPerDay.
Proof.
  rewrite setDate_getDate. unfold JsDate.UTC, JsDate.LocalTime, JsDate.offsetMs. cbn. lia.
Qed.

(** Every round of the loop moves [current] forward by 23 to 25 hours. *)
Lemma next_day_progress tz t :
  let t' := JsDate.setDate tz (JsDate.getDate tz t + 1) t in
  t + (JsDate.msPerDay - JsDate.msPerHour) <= t' <= t + (JsDate.msPerDay + JsDate.msPerHour).
Proof.
  cbv zeta. rewrite setDate_getDate.
  unfold JsDate.UTC, JsDate.LocalTime, JsDate.offsetMs, JsDate.msPerDay, JsDate.msPerHour.
  destruct (JsDate.dstAtInstant tz t), (JsDate.dstAtLocal tz _); lia.
Qed.

Lemma dateLoop_fuel tz n :
  forall current finish fuel1 fuel2,
    finish - current < Z.of_nat n * (JsDate.msPerDay - JsDate.msPerHour) ->
    (n <= fuel1)%nat -> (n <= fuel2)%nat ->
    Sync.dateLoop tz fuel1 current finish = Sync.dateLoop tz fuel2 current finish.
Proof.
  induction n as [|n IH]; intros current finish fuel1 fuel2 Hlt H1 H2.
  - assert (Hgt : (current <=? finish) = false) by (apply Z.leb_gt; lia).
    destruct fuel1, fuel2; cbn [Sync.dateLoop]; rewrite ?Hgt; reflexivity.
  - destruct fuel1 as [|fuel1]; [lia|]. destruct fuel2 as [|fuel2]; [lia|].
    cbn [Sync.dateLoop]. destruct (current <=? finish); [|reflexivity].
    f_equal. apply IH; try lia.
    pose proof (next_day_progress tz current) as Hp. cbv zeta in Hp.
    unfold JsDate.msPerDay, JsDate.msPerHour in *. lia.
Qed.

(** The bound of [generateDateRange] never cuts the loop short: more rounds
    give the same list. *)
Lemma dateLoop_enough tz current finish fuel :
  (Sync.roundsBound current finish <= fuel)%nat ->
  Sync.dateLoop tz fuel current finish =
  Sync.dateLoop tz (Sync.roundsBound current finish) current finish.
Proof.
  intros H. apply dateLoop_fuel with (n := Sync.roundsBound current finish); auto.
  unfold Sync.roundsBound, JsDate.msPerDay, JsDate.msPerHour.
  change (86400000 - 3600000) with 82800000.
  pose proof (Z.div_mod (finish - current) 82800000 ltac:(lia)) as Hdm.
  pose proof (Z.mod_pos_bound (finish - current) 82800000 ltac:(lia)) as Hmod.
  lia.
Qed.

(** ** The date part of [toISOString] *)

Lemma noT_app a b : noT (a ++ b) = noT a && noT b.
Proof. induction a as [|c a IH]; cbn; auto. rewrite IH, andb_assoc. reflexivity. Qed.

Lemma beforeT_app a rest : noT a = true -> JsDate.beforeT (a ++ String "T" rest) = a.
Proof.
  induction a as [|c a IH]; cbn; auto.
  intros H. apply andb_true_iff in H. destruct H as [Hc Ha].
  apply negb_true_iff in Hc. rewrite Hc, IH; auto.
Qed.

Lemma noT_digit n : noT (String (ascii_of_nat (48 + Z.to_nat (n mod 10))) "") = true.
Proof.
  pose proof (Z.mod_pos_bound n 10 ltac:(lia)) as H.
  assert (Hc : n mod 10 = 0 \/ n mod 10 = 1 \/ n mod 10 = 2 \/ n mod 10 = 3 \/
               n mod 10 = 4 \/ n mod 10 = 5 \/ n mod 10 = 6 \/ n mod 10 = 7 \/
               n mod 10 = 8 \/ n mod 10 = 9) by lia.
  repeat (destruct Hc as [-> | Hc]; [reflexivity|]). rewrite Hc. reflexivity.
Qed.

Lemma noT_pad width n : noT (Js.pad width n) = true.
Proof.
  revert n. induction width as [|w IH]; intros n; cbn [Js.pad]; auto.
  rewrite noT_app, IH, noT_digit. reflexivity.
Qed.

Lemma noT_isoYear y : noT (JsDate.isoYear y) = true.
Proof.
  unfold JsDate.isoYear.
  destruct ((0 <=? y) && (y <=? 9999)); [apply noT_pad|].
  destruct (y <? 0); cbn [String.append noT]; rewrite noT_pad; reflexivity.
Qed.

Lemma string_app_assoc (a b c : string) : (a ++ b) ++ c = a ++ (b ++ c).
Proof. induction a as [|x a IH]; cbn; congruence. Qed.

Lemma isoDate_calendarDate t : JsDate.isoDate t = calendarDate (JsDate.Day t).
Proof.
  unfold JsDate.isoDate, JsDate.toISOString, calendarDate.
  destruct (JsDate.civil_from_days (JsDate.Day t)) as [[y m] d].
  set (date := JsDate.isoYear y ++ "-" ++ Js.pad 2 m ++ "-" ++ Js.pad 2 d).
  set (time := Js.pad 2 (JsDate.TimeWithinDay t / JsDate.msPerHour) ++ _).
  assert (Heq : JsDate.isoYear y ++ "-" ++ Js.pad 2 m ++ "-" ++ Js.pad 2 d ++ "T" ++ time
                = date ++ String "T" time).
  { unfold date. rewrite !string_app_assoc. reflexivity. }
  rewrite Heq. apply beforeT_app.
  unfold date. rewrite !noT_app, noT_isoYear, !noT_pad. reflexivity.
Qed.

Lemma Day_shift t k : JsDate.Day (t + k * JsDate.msPerDay) = JsDate.Day t + k.
Proof. unfold JsDate.Day, JsDate.msPerDay. apply Z.div_add. lia. Qed.

Lemma Day_of_day d : JsDate.Day (d * JsDate.msPerDay) = d.
Proof. unfold JsDate.Day, JsDate.msPerDay. apply Z.div_mul. lia. Qed.

(** ** [getYesterdayDate] and [syncYesterday] *)

(** C7 at a failing input.  In a process whose time zone is India's, at
    02:00 local time on 2024-01-15, yesterday on the local calendar is
    2024-01-14, but [getYesterdayDate] returns 2024-01-13: it steps one day
    back in local time and then prints the UTC date of that instant.
    [syncYesterday] syncs the date it returns. *)
Theorem getYesterdayDate_is_two_days_back_in_india :
  JsDate.toISOString (JsDate.LocalTime JsDate.kolkata (now Scenario.earlyMorningInIndia))
    = "2024-01-15T02:00:00.000Z" /\
  localYesterday JsDate.kolkata (now Scenario.earlyMorningInIndia) = "2024-01-14" /\
  fst (Sync.getYesterdayDate Scenario.inKolkata Scenario.earlyMorningInIndia)
    = Resolved "2024-01-13" /\
  Sync.syncYesterday Scenario.inKolkata Scenario.earlyMorningInIndia
    = Sync.syncAllClients Scenario.inKolkata "2024-01-13" Scenario.earlyMorningInIndia.
Proof. repeat split; vm_compute; reflexivity. Qed.

(** In a zone without daylight saving, [getYesterdayDate] returns the UTC
    calendar date minus one day, and leaves the world as it is. *)
Theorem getYesterdayDate_fixed_offset :
  forall env minutes w,
    processTimeZone env = JsDate.fixedOffset minutes ->
    Sync.getYesterdayDate env w = (Resolved (calendarDate (JsDate.Day (now w) - 1)), w).
Proof.
  intros env minutes w Htz. unfold Sync.getYesterdayDate; unfold_async. rewrite Htz.
  replace (JsDate.getDate (JsDate.fixedOffset minutes) (now w) - 1)
    with (JsDate.getDate (JsDate.fixedOffset minutes) (now w) + -1) by lia.
  rewrite setDate_getDate_fixed, isoDate_calendarDate, Day_shift.
  replace (JsDate.Day (now w) + -1) with (JsDate.Day (now w) - 1) by lia.
  reflexivity.
Qed.

(** [syncYesterday] is [syncAllClients] at the date [getYesterdayDate]
    returns. *)
Lemma syncYesterday_delegates :
  forall env w,
    Sync.syncYesterday env w =
    match Sync.getYesterdayDate env w with
    | (Resolved yesterday, w') => Sync.syncAllClients env yesterday w'
    | (Rejected e, w') => (Rejected e, w')
    end.
Proof. reflexivity. Qed.

Lemma getYesterdayDate_fixed_offset_witness :
  Sync.getYesterdayDate Scenario.healthy Scenario.world0
  = (Resolved "2024-03-01", Scenario.world0).
Proof.
  exact (getYesterdayDate_fixed_offset Scenario.healthy 0 Scenario.world0 eq_refl).
Defined.

(** ** [generateDateRange] and [backfillClientData] *)

Lemma dateLoop_fixed minutes last n :
  forall fuel first,
    (n <= fuel)%nat -> last - first + 1 <= Z.of_nat n ->
    Sync.dateLoop (JsDate.fixedOffset minutes) fuel
      (first * JsDate.msPerDay) (last * JsDate.msPerDay)
    = map calendarDate (daysFrom first (Z.to_nat (last - first + 1))).
Proof.
  induction n as [|n IH]; intros fuel first Hfuel Hn.
  - replace (Z.to_nat (last - first + 1)) with 0%nat by lia. cbn [daysFrom seq map].
    destruct fuel; cbn [Sync.dateLoop]; auto.
    replace (first * JsDate.msPerDay <=? last * JsDate.msPerDay) with false; auto.
    symmetry. apply Z.leb_gt. unfold JsDate.msPerDay. lia.
  - destruct fuel as [|fuel]; [lia|]. cbn [Sync.dateLoop].
    destruct (first * JsDate.msPerDay <=? last * JsDate.msPerDay) eqn:E.
    + apply Z.leb_le in E. unfold JsDate.msPerDay in E.
      rewrite setDate_getDate_fixed.
      replace (first * JsDate.msPerDay + 1 * JsDate.msPerDay)
        with ((first + 1) * JsDate.msPerDay) by lia.
      rewrite IH by lia.
      replace (Z.to_nat (last - first + 1)) with (S (Z.to_nat (last - (first + 1) + 1))) by lia.
      unfold daysFrom. cbn [seq map]. rewrite isoDate_calendarDate, Day_of_day.
      rewrite Z.add_0_r. f_equal.
      rewrite <- seq_shift, !map_map. apply map_ext. intros i. f_equal. lia.
    + apply Z.leb_gt in E. unfold JsDate.msPerDay in E.
      replace (Z.to_nat (last - first + 1)) with 0%nat by lia. reflexivity.
Qed.

(** In a zone without daylight saving the range is every calendar day from
    the first to the last, once each. *)
Lemma generateDateRange_fixed minutes startDate endDate first last :
  JsDate.parse startDate = Some (first * JsDate.msPerDay) ->
  JsDate.parse endDate = Some (last * JsDate.msPerDay) ->
  Sync.generateDateRange (JsDate.fixedOffset minutes) startDate endDate
  = map calendarDate (daysFrom first (Z.to_nat (last - first + 1))).
Proof.
  intros Hs He. unfold Sync.generateDateRange. rewrite Hs, He.
  apply dateLoop_fixed with (n := Z.to_nat (last - first + 1)); [|lia].
  unfold Sync.roundsBound, JsDate.msPerDay, JsDate.msPerHour.
  change (86400000 - 3600000) with 82800000.
  destruct (Z.le_gt_cases first last); [|lia].
  apply Z2Nat.inj_le; try lia.
  - apply Z.add_nonneg_nonneg; [apply Z.div_pos|]; lia.
  - assert ((last - first) * 82800000 <= last * 86400000 - first * 86400000) by lia.
    assert (last - first <= (last * 86400000 - first * 86400000) / 82800000).
    { apply Z.div_le_lower_bound; lia. }
    lia.
Qed.

(** A whole run of [backfillClientData]. *)
Lemma backfillClientData_run env clientId startDate endDate w :
  match statementFault env (Db.SelectClientById clientId), lookup clientId w with
  | Some e, _ =>
      exists w', Sync.backfillClientData env clientId startDate endDate w = (Rejected e, w') /\
                 db w' = db w
  | None, [] =>
      exists w',
        Sync.backfillClientData env clientId startDate endDate w =
          (Rejected (Js.newError ("Client " ++ Js.intToString clientId ++ " not found")), w') /\
        db w' = db w
  | None, client :: _ =>
      exists s wa wb w',
        Sync.backfillClientData env clientId startDate endDate w = (Resolved s, w') /\
        db wa = db w /\
        Attempts env
          (map (fun date => (client, date))
               (Sync.generateDateRange (processTimeZone env) startDate endDate))
          wa (Sync.b_results s) wb /\
        db w' = db wb /\
        Sync.b_success s = true /\
        Sync.totalDays s =
          Sync.len (Sync.generateDateRange (processTimeZone env) startDate endDate) /\
        Sync.b_successCount s = Sync.len (filter Sync.r_success (Sync.b_results s)) /\
        Sync.b_failureCount s =
          Sync.len (filter (fun r => negb (Sync.r_success r)) (Sync.b_results s))
  end.
Proof.
  destruct (statementFault env (Db.SelectClientById clientId)) as [e|] eqn:Hf;
    [| destruct (lookup clientId w) as [|client others] eqn:Hl];
    unfold Sync.backfillClientData;
    unfold bind at 1; unfold console_log at 1, say at 1;
    unfold tryCatch at 1; unfold bind at 1;
    match goal with |- context [query env _ ?x] => set (w0 := x) end.
  - rewrite (query_fault _ _ _ _ Hf).
    unfold bind, console_error, say, throw. eexists; split; reflexivity.
  - destruct (query_ok env _ w0 Hf) as (wa & Hq & Hdb & _).
    rewrite Hq. cbn [Db.execute fst snd] in *.
    change (filter _ (Db.clients (db w0))) with (lookup clientId w). rewrite Hl.
    unfold bind, console_error, say, throw. eexists; split; [reflexivity|].
    cbn [db]. rewrite Hdb. reflexivity.
  - destruct (query_ok env _ w0 Hf) as (wa & Hq & Hdb & _).
    rewrite Hq. cbn [Db.execute fst snd] in *.
    change (filter _ (Db.clients (db w0))) with (lookup clientId w). rewrite Hl.
    unfold bind at 1. unfold console_log at 1, say at 1. unfold bind at 1.
    match goal with |- context [forEach _ _ ?w1] => set (w1' := w1) end.
    assert (H1000 : 0 <= 1000) by lia.
    destruct (forEach_attempts env 1000 (fun _ : string => client) (fun date => date)
                (Sync.generateDateRange (processTimeZone env) startDate endDate) w1' H1000)
      as (rs & wb & Hloop & Hatts).
    cbv beta in Hloop. rewrite Hloop.
    unfold bind, console_log, say, ret. cbn [now db console].
    do 4 eexists. split; [reflexivity|].
    cbn [Sync.b_results Sync.totalDays Sync.b_successCount Sync.b_failureCount
         Sync.b_success db].
    split; [| split; [exact Hatts|]]; auto.
Qed.

(** C5 at a failing input.  In a process whose time zone is New York's, the
    backfill of 2024-11-02 to 2024-11-04 (three calendar days, across the
    end of daylight saving) for an existing tenant makes two attempts and
    writes two audit rows, for November 2 and 3: the last day is never
    attempted. *)
Theorem backfill_loses_the_last_day_when_clocks_go_back :
  let run := Sync.backfillClientData Scenario.inNewYork 2 "2024-11-02" "2024-11-04"
               Scenario.november in
  exists s,
    fst run = Resolved s /\
    Sync.totalDays s = 2 /\
    map Sync.r_date (Sync.b_results s) = ["2024-11-02"; "2024-11-03"] /\
    map Db.sl_sync_date (newLogs Scenario.november (snd run)) = ["2024-11-02"; "2024-11-03"].
Proof.
  cbv zeta. eexists. split; [vm_compute; reflexivity|].
  split; [vm_compute; reflexivity|]. split; vm_compute; reflexivity.
Qed.

(** In a zone without daylight saving, the backfill of an existing tenant
    over the days [first] to [last] makes one attempt per calendar day, in
    order, whatever fails on a day; with working audit inserts it writes one
    audit row per day, all for that tenant; and [daily_metrics] grows by at
    most one row per day. *)
Theorem backfill_covers_every_day_fixed_offset :
  forall env minutes client startDate endDate first last w,
    processTimeZone env = JsDate.fixedOffset minutes ->
    JsDate.parse startDate = Some (first * JsDate.msPerDay) ->
    JsDate.parse endDate = Some (last * JsDate.msPerDay) ->
    first <= last ->
    statementFault env (Db.SelectClientById (Db.id client)) = None ->
    lookup (Db.id client) w = [client] ->
    auditWritesSucceed env ->
    let days := daysFrom first (Z.to_nat (last - first + 1)) in
    exists s w',
      Sync.backfillClientData env (Db.id client) startDate endDate w = (Resolved s, w') /\
      List.length days = Z.to_nat (last - first + 1) /\
      map Sync.r_date (Sync.b_results s) = map calendarDate days /\
      Sync.totalDays s = last - first + 1 /\
      map Db.sl_sync_date (newLogs w w') = map calendarDate days /\
      (forall l, In l (newLogs w w') -> Db.sl_client_id l = Some (Db.id client)) /\
      (List.length (Db.daily_metrics (db w')) <=
       List.length (Db.daily_metrics (db w)) + List.length days)%nat.
Proof.
  intros env minutes client startDate endDate first last w Htz Hs He Hle Hf Hl Haud days.
  pose proof (backfillClientData_run env (Db.id client) startDate endDate w) as H.
  rewrite Hf, Hl, Htz, (generateDateRange_fixed minutes _ _ first last Hs He) in H.
  fold days in H.
  destruct H as (s & wa & wb & w' & Hrun & Hdba & Hatts & Hdbb & _ & Htot & _).
  assert (Hdays : List.length days = Z.to_nat (last - first + 1))
    by (unfold days, daysFrom; rewrite length_map, length_seq; reflexivity).
  destruct (Attempts_results _ _ _ _ _ Hatts) as [Hcids Hdates].
  rewrite !map_map in Hcids, Hdates. cbn [fst snd] in Hcids, Hdates.
  destruct (Attempts_audit _ _ _ _ _ Haud Hatts) as (ls & Hls & Hdoc).
  assert (Hlogs : newLogs w w' = ls).
  { rewrite <- (newLogs_app wa wb ls Hls). unfold newLogs. rewrite Hdba, Hdbb. reflexivity. }
  exists s, w'. split; [exact Hrun|]. split; [exact Hdays|].
  split; [rewrite Hdates; reflexivity|].
  split; [rewrite Htot; unfold Sync.len; rewrite length_map, Hdays; lia|].
  rewrite Hlogs. split; [|split].
  - transitivity (map Sync.r_date (Sync.b_results s)); [|rewrite Hdates; reflexivity].
    clear - Hdoc. induction Hdoc as [|l r ls rs (_ & Hd & _) _ IH]; cbn; congruence.
  - intros l Hin.
    assert (Hall : Forall (fun r => Sync.clientId r = Db.id client) (Sync.b_results s)).
    { apply Forall_forall. intros r Hr.
      assert (In (Sync.clientId r) (map Sync.clientId (Sync.b_results s))) by (apply in_map; auto).
      rewrite Hcids in H. apply in_map_iff in H. destruct H as (? & ? & _). congruence. }
    clear - Hdoc Hall Hin. induction Hdoc as [|l0 r ls rs (Hc & _) _ IH]; [destruct Hin|].
    inversion Hall; subst. destruct Hin as [<-|Hin]; [congruence | auto].
  - pose proof (Attempts_table_length _ _ _ _ _ Hatts) as Hlen.
    rewrite !length_map, Hdba in Hlen. rewrite Hdbb. lia.
Qed.

Lemma backfill_covers_every_day_fixed_offset_witness :
  exists s w',
    Sync.backfillClientData Scenario.inKolkata 2 "2024-01-01" "2024-01-03" Scenario.world0
      = (Resolved s, w') /\
    Sync.totalDays s = 3 /\
    map Db.sl_sync_date (newLogs Scenario.world0 w')
      = ["2024-01-01"; "2024-01-02"; "2024-01-03"].
Proof.
  destruct (backfill_covers_every_day_fixed_offset Scenario.inKolkata 330 Scenario.birch
              "2024-01-01" "2024-01-03" 19723 19725 Scenario.world0)
    as (s & w' & Hrun & _ & _ & Htot & Hlogs & _).
  - reflexivity.
  - vm_compute. reflexivity.
  - vm_compute. reflexivity.
  - lia.
  - reflexivity.
  - reflexivity.
  - intros c d st n msg ms. reflexivity.
  - exists s, w'. repeat split; assumption.
Defined.

(** [backfillClientData] rejects exactly when the tenant cannot be loaded:
    the lookup fails or finds no row.  Otherwise it resolves, with one
    result per date of the range it generated, in order, whatever happened
    on each date; it writes at most one audit row and adds at most one
    [daily_metrics] row per date. *)
Theorem backfill_fails_fast_only_on_the_tenant :
  forall env clientId startDate endDate w,
    let run := Sync.backfillClientData env clientId startDate endDate w in
    let dates := Sync.generateDateRange (processTimeZone env) startDate endDate in
    (isResolved (fst run) = false <->
     statementFault env (Db.SelectClientById clientId) <> None \/ lookup clientId w = []) /\
    (forall s, fst run = Resolved s ->
       Sync.b_success s = true /\
       map Sync.r_date (Sync.b_results s) = dates /\
       Sync.totalDays s = Sync.len dates /\
       Sync.b_successCount s + Sync.b_failureCount s = Sync.totalDays s /\
       (List.length (newLogs w (snd run)) <= List.length dates)%nat /\
       (List.length (Db.daily_metrics (db (snd run))) <=
        List.length (Db.daily_metrics (db w)) + List.length dates)%nat).
Proof.
  intros env clientId startDate endDate w run dates.
  pose proof (backfillClientData_run env clientId startDate endDate w) as H.
  fold run dates in H.
  destruct (statementFault env (Db.SelectClientById clientId)) as [e|];
    [| destruct (lookup clientId w) as [|client others]].
  - destruct H as (w' & Hrun & _). rewrite Hrun. cbn. split.
    + split; [left; discriminate | reflexivity].
    + intros s Hs. discriminate.
  - destruct H as (w' & Hrun & _). rewrite Hrun. cbn. split.
    + split; [right; reflexivity | reflexivity].
    + intros s Hs. discriminate.
  - destruct H as (s & wa & wb & w' & Hrun & Hdba & Hatts & Hdbb & Hok & Htot & Hsc & Hfc).
    rewrite Hrun. cbn [fst snd isResolved]. split.
    + split; [discriminate | intros [Hc|Hc]; congruence].
    + intros s' Hs. inversion Hs; subst s'.
      destruct (Attempts_results _ _ _ _ _ Hatts) as [_ Hdates].
      rewrite map_map in Hdates. cbn [snd] in Hdates. rewrite map_id in Hdates.
      pose proof (Attempts_length _ _ _ _ _ Hatts) as Hlen. rewrite length_map in Hlen.
      destruct (Attempts_audit_any _ _ _ _ _ Hatts) as (ls & Hls & Hlsn).
      pose proof (Attempts_table_length _ _ _ _ _ Hatts) as Htab.
      rewrite length_map in Hlsn, Htab.
      split; [exact Hok|]. split; [exact Hdates|]. split; [exact Htot|].
      split; [|split].
      * rewrite Hsc, Hfc, len_filter_split, Htot. unfold Sync.len. rewrite Hlen. reflexivity.
      * replace (newLogs w w') with ls; [exact Hlsn|].
        rewrite <- (newLogs_app wa wb ls Hls). unfold newLogs. rewrite Hdba, Hdbb. reflexivity.
      * rewrite Hdbb, <- Hdba. lia.
Qed.

Lemma backfill_fails_fast_only_on_the_tenant_witness :
  let run := Sync.backfillClientData Scenario.birchDenied 2 "2024-01-01" "2024-01-03"
               Scenario.world0 in
  exists s,
    fst run = Resolved s /\
    Sync.b_failureCount s = 3 /\
    map Sync.r_date (Sync.b_results s) = ["2024-01-01"; "2024-01-02"; "2024-01-03"].
Proof.
  cbv zeta.
  assert (Hrun : exists s,
             fst (Sync.backfillClientData Scenario.birchDenied 2 "2024-01-01" "2024-01-03"
                    Scenario.world0) = Resolved s /\ Sync.b_failureCount s = 3).
  { eexists. split; vm_compute; reflexivity. }
  destruct Hrun as (s & Hs & Hfail). exists s. split; [exact Hs|]. split; [exact Hfail|].
  destruct (proj2 (backfill_fails_fast_only_on_the_tenant Scenario.birchDenied 2
                     "2024-01-01" "2024-01-03" Scenario.world0) s Hs)
    as (_ & Hdates & _).
  rewrite Hdates. vm_compute. reflexivity.
Defined.


(* ================================================================= *)
(** * The entry points on the event loop *)

Module EventLoopFacts.
Import EventLoop.

Lemma countIf_app {A} (q : A -> bool) l1 l2 :
  countIf q (l1 ++ l2) = (countIf q l1 + countIf q l2)%nat.
Proof. unfold countIf. rewrite filter_app, length_app. reflexivity. Qed.

Lemma countIf_cons {A} (q : A -> bool) x l :
  countIf q (x :: l) = (b2n (q x) + countIf q l)%nat.
Proof. unfold countIf. cbn. destruct (q x); reflexivity. Qed.

Lemma countIf_replace {A} (q : A -> bool) l : forall i old x,
  nth_error l i = Some old ->
  (countIf q (replace i x l) + b2n (q old) = countIf q l + b2n (q x))%nat.
Proof.
  induction l as [|y rest IH]; intros [|i] old x H; cbn in H; try discriminate.
  - inversion H; subst. cbn [replace]. rewrite !countIf_cons. lia.
  - cbn [replace]. rewrite !countIf_cons. specialize (IH i old x H). lia.
Qed.

Lemma turn_not_settled ph e ph' : turn ph e = Some ph' -> isSettled ph = false.
Proof. destruct ph; cbn; auto. destruct e; discriminate. Qed.

Lemma startSync_other o p :
  Origin_eqb o AutoSync = false -> flagInvariant p -> flagInvariant (startSync o p).
Proof.
  unfold flagInvariant, startSync. cbn [tasks syncInProgress]. intros Ho H.
  rewrite countIf_app, H. unfold countIf, pendingAutoSync, fromAutoSync.
  cbn [filter origin phase]. rewrite Ho. cbn. lia.
Qed.

Lemma resume_invariant i e p : flagInvariant p -> flagInvariant (resume i e p).
Proof.
  intros H. unfold resume.
  destruct (nth_error (tasks p) i) as [t|] eqn:Ht; [|exact H].
  destruct (turn (phase t) e) as [ph|] eqn:Hturn; [|exact H].
  unfold flagInvariant in *. cbn [tasks syncInProgress].
  pose proof (countIf_replace pendingAutoSync (tasks p) i t (mkTask (origin t) ph) Ht) as Hc.
  pose proof (turn_not_settled _ _ _ Hturn) as Hns.
  assert (Hold : pendingAutoSync t = Origin_eqb (origin t) AutoSync)
    by (unfold pendingAutoSync, fromAutoSync; rewrite Hns; apply andb_true_r).
  assert (Hnew : pendingAutoSync (mkTask (origin t) ph)
                 = Origin_eqb (origin t) AutoSync && negb (isSettled ph)) by reflexivity.
  rewrite Hold, Hnew in Hc. unfold settle.
  destruct (Origin_eqb (origin t) AutoSync), (isSettled ph), (syncInProgress p);
    unfold b2n in *; cbn [andb negb] in *; lia.
Qed.

Lemma step_invariant p e : flagInvariant p -> flagInvariant (step p e).
Proof.
  intros H. destruct e as [|role| | |i roster|i|i|i]; cbn [step];
    try (apply startSync_other; [reflexivity | exact H]);
    try (apply resume_invariant; exact H).
  - unfold triggerBackgroundSync. destruct (syncInProgress p) eqn:E; [exact H|].
    unfold flagInvariant in *. unfold startSync. cbn [tasks syncInProgress].
    rewrite countIf_app, H, E. reflexivity.
  - unfold postSync. destruct (negb _); [exact H|].
    apply startSync_other; [reflexivity | exact H].
Qed.

Lemma run_snoc events e : run (events ++ [e]) = step (run events) e.
Proof. unfold run. rewrite fold_left_app. reflexivity. Qed.

Lemma run_invariant events : flagInvariant (run events).
Proof.
  induction events as [|e events IH] using rev_ind.
  - reflexivity.
  - rewrite run_snoc. apply step_invariant. exact IH.
Qed.

Lemma syncs_pending sel c u :
  sel u && syncs c u = true -> sel u && negb (isSettled (phase u)) = true.
Proof.
  unfold syncs, inFlight. destruct (sel u); cbn; auto.
  destruct (phase u); cbn; auto; discriminate.
Qed.

Lemma overlapAmong_two sel ts :
  overlapAmong sel ts = true ->
  (2 <= countIf (fun t => sel t && negb (isSettled (phase t))) ts)%nat.
Proof.
  induction ts as [|t rest IH]; cbn [overlapAmong]; [discriminate|].
  rewrite countIf_cons. intros H. apply orb_true_iff in H. destruct H as [H|H].
  - apply andb_true_iff in H. destruct H as [Hsel Hex]. rewrite Hsel.
    unfold inFlight in Hex. destruct (phase t) eqn:Hph; try discriminate. cbn [isSettled negb andb b2n].
    apply existsb_exists in Hex. destruct Hex as (u & Hin & Hu).
    apply syncs_pending in Hu.
    assert (1 <= countIf (fun t => sel t && negb (isSettled (phase t))) rest)%nat.
    { unfold countIf. clear - Hin Hu. induction rest as [|x l IHl]; [destruct Hin|].
      cbn. destruct Hin as [->|Hin].
      - rewrite Hu. cbn. lia.
      - specialize (IHl Hin).
        destruct (sel x && negb (isSettled (phase x))); cbn [List.length]; lia. }
    lia.
  - specialize (IH H). lia.
Qed.

(** C9 as stated fails: while the sync started by the auto-sync middleware
    is syncing tenant 7, a manual trigger starts a second sync that reaches
    tenant 7 as well. *)
Lemma manual_trigger_overlaps_auto_sync :
  overlap (run [AutoSyncDue; PostSync "admin"; RosterLoaded 0 [7; 8]; RosterLoaded 1 [7; 8]])
  = true.
Proof. reflexivity. Qed.

(** C9 amended.  In every run of the process, no two syncs started by the
    auto-sync middleware are in flight for the same tenant: at most one
    call started by it is pending at any time, and [syncInProgress] is set
    exactly while one is.  (Manual triggers, scheduled runs and
    [runSyncNow] never read the flag.) *)
Theorem auto_sync_never_overlaps_itself :
  forall events,
    autoSyncOverlap (run events) = false /\
    (countIf pendingAutoSync (tasks (run events)) <= 1)%nat /\
    (syncInProgress (run events) = true <->
     exists t, In t (tasks (run events)) /\ pendingAutoSync t = true).
Proof.
  intros events. pose proof (run_invariant events) as Hinv. unfold flagInvariant in Hinv.
  split; [|split].
  - destruct (autoSyncOverlap (run events)) eqn:E; auto.
    apply overlapAmong_two in E. fold pendingAutoSync in E.
    change (fun t => fromAutoSync t && negb (isSettled (phase t))) with pendingAutoSync in E.
    rewrite Hinv in E. destruct (syncInProgress (run events)); cbn in E; lia.
  - rewrite Hinv. destruct (syncInProgress (run events)); cbn; lia.
  - unfold countIf in Hinv. split.
    + intros Hflag. rewrite Hflag in Hinv. cbn in Hinv.
      destruct (filter pendingAutoSync (tasks (run events))) as [|t l] eqn:F; [discriminate|].
      exists t. apply filter_In. rewrite F. left; reflexivity.
    + intros (t & Hin & Hp).
      assert (In t (filter pendingAutoSync (tasks (run events)))) by (apply filter_In; auto).
      destruct (syncInProgress (run events)); auto.
      cbn in Hinv. apply length_zero_iff_nil in Hinv. rewrite Hinv in H. destruct H.
Qed.

End EventLoopFacts.


(* ================================================================= *)
(** * Around the sync service: what its callers can rely on *)

(** ** One attempt, whatever goes wrong *)

Lemma Attempt_logs env c d w r w' :
  Attempt env c d w r w' ->
  exists ls,
    Db.sync_logs (db w') = (Db.sync_logs (db w) ++ ls)%list /\
    (List.length ls <= 1)%nat /\
    forall l, In l ls ->
      Db.sl_client_id l = Some (Db.id c) /\ Db.sl_sync_date l = d /\
      Db.sl_status l = (if Sync.r_success r then Db.success else Db.failed).
Proof.
  destruct 1 as [m t ms w' _ _ _ _ _ Ha | e ms w' _ _ _ _ Ha]; unfold Audit in Ha;
    destruct (statementFault env _).
  - destruct Ha as [Ha _]. exists []. rewrite app_nil_r. cbn.
    split; [auto|]. split; [lia|]. intros l [].
  - destruct Ha as [t' Ha]. eexists. split; [exact Ha|]. cbn. split; [lia|].
    intros l [<- | []]. cbn. auto.
  - destruct Ha as [Ha _]. exists []. rewrite app_nil_r. cbn.
    split; [auto|]. split; [lia|]. intros l [].
  - destruct Ha as [t' Ha]. eexists. split; [exact Ha|]. cbn. split; [lia|].
    intros l [<- | []]. cbn. auto.
Qed.

Lemma Attempts_logs env jobs w rs w' :
  Attempts env jobs w rs w' ->
  exists ls,
    Db.sync_logs (db w') = (Db.sync_logs (db w) ++ ls)%list /\
    (List.length ls <= List.length jobs)%nat /\
    forall l, In l ls ->
      exists j, In j jobs /\
        Db.sl_client_id l = Some (Db.id (fst j)) /\ Db.sl_sync_date l = snd j.
Proof.
  induction 1 as [w | client date rest w r w1 rs w2 Ha _ IH].
  - exists []. rewrite app_nil_r. cbn. split; [auto|]. split; [lia|]. intros l [].
  - destruct (Attempt_logs _ _ _ _ _ _ Ha) as (l1 & H1 & Hn1 & Hl1).
    destruct IH as (l2 & H2 & Hn2 & Hl2).
    exists (l1 ++ l2)%list. rewrite H2, H1, app_assoc. split; [reflexivity|].
    rewrite length_app. cbn [List.length]. split; [lia|].
    intros l Hl. apply in_app_or in Hl. destruct Hl as [Hl | Hl].
    + exists (client, date). split; [left; reflexivity|].
      destruct (Hl1 l Hl) as (Hc & Hd & _). cbn. auto.
    + destruct (Hl2 l Hl) as (j & Hj & Hc & Hd). exists j. split; [right; exact Hj|]. auto.
Qed.

(** X4 (an attempt never rejects).  [syncClientMetrics] resolves whatever the
    provider and the database do.  Its result names the tenant and the date;
    [clients] is unchanged and [sync_logs] grows by at most one row.  A
    success carries the metrics the provider returned, its upsert was
    executed, and [daily_metrics] then holds a row for (tenant, date), each
    such row with those metrics as the columns store them: the counts as
    they are, the duration and the rate rounded to two decimals.  A failure
    carries the message of the error of the fetch, or of the upsert after a
    fetch that resolved, and leaves [daily_metrics] as it was. *)
Theorem syncClientMetrics_never_rejects :
  forall env client date w,
    exists r w',
      Sync.syncClientMetrics env client date w = (Resolved r, w') /\
      Sync.clientId r = Db.id client /\
      Sync.clientName r = Db.name client /\
      Sync.r_date r = date /\
      Db.clients (db w') = Db.clients (db w) /\
      (exists ls, Db.sync_logs (db w') = (Db.sync_logs (db w) ++ ls)%list /\
                  (List.length ls <= 1)%nat) /\
      if Sync.r_success r
      then exists m,
             Sync.metrics r = Some m /\ Sync.error r = None /\
             (forall w0, fst (fetchDailyMetrics env (Db.ga_property_id client) date w0)
                         = Resolved m) /\
             statementFault env (Db.UpsertDailyMetrics (Db.id client) date m) = None /\
             rowsFor (Db.id client) date w' <> [] /\
             (forall row, In row (rowsFor (Db.id client) date w') -> rowMetrics row = stored m)
      else exists e,
             Sync.metrics r = None /\ Sync.error r = Some (Js.message e) /\
             ((forall w0, fst (fetchDailyMetrics env (Db.ga_property_id client) date w0)
                          = Rejected e) \/
              (exists m,
                 (forall w0, fst (fetchDailyMetrics env (Db.ga_property_id client) date w0)
                             = Resolved m) /\
                 statementFault env (Db.UpsertDailyMetrics (Db.id client) date m) = Some e)) /\
             Db.daily_metrics (db w') = Db.daily_metrics (db w).
Proof.
  intros env client date w.
  destruct (syncClientMetrics_attempt env client date w) as (r & w' & Hrun & Ha).
  exists r, w'. split; [exact Hrun|].
  destruct (Attempt_logs _ _ _ _ _ _ Ha) as (ls & Hls & Hn & _).
  pose proof (Attempt_clients _ _ _ _ _ _ Ha) as Hcl.
  assert (Hstored := Attempt_stored _ _ _ _ _ _ Ha).
  destruct Ha as [m t ms w' Hm Hup Ht Hc Hd _ | e ms w' He Hn' Hc Hd _];
    cbn [Sync.clientId Sync.clientName Sync.r_date Sync.r_success Sync.metrics Sync.error];
    repeat (split; [solve [auto | eexists; eauto]|]).
  - exists m. repeat split; auto.
    + destruct (Hstored eq_refl) as (m' & Hm' & _ & Hne & _). exact Hne.
    + intros row Hrow. destruct (Hstored eq_refl) as (m' & Hm' & _ & _ & Hrows).
      cbn in Hm'. injection Hm' as <-. apply Hrows. exact Hrow.
  - exists e. repeat split; auto.
Qed.

(** ** What a batch leaves alone *)

Lemma in_roster_jobs (cs : list Db.ClientRow) date c d :
  In (c, d) (map jobKey (map (fun x => (x, date)) cs)) -> d = date /\ In c (map Db.id cs).
Proof.
  rewrite map_map. cbn. intros H. apply in_map_iff in H.
  destruct H as (x & Hx & Hin). unfold jobKey in Hx. cbn in Hx. injection Hx as <- <-.
  split; [reflexivity|]. apply in_map. exact Hin.
Qed.

(** X5 (what a batch leaves alone).  [syncAllClients], resolved or
    rejected, leaves [clients] as it is and leaves the [daily_metrics] rows
    of every other date, and of every tenant that is not active, as they
    are.  [sync_logs] only grows, by at most one row per active tenant; each
    new row is for the date of the batch and for an active tenant. *)
Theorem syncAllClients_touches_only_the_roster_and_the_date :
  forall env date w,
    let w' := snd (Sync.syncAllClients env date w) in
    Db.clients (db w') = Db.clients (db w) /\
    (forall c d, d <> date \/ ~ In c (map Db.id (roster w)) ->
       rowsFor c d w' = rowsFor c d w) /\
    exists ls,
      Db.sync_logs (db w') = (Db.sync_logs (db w) ++ ls)%list /\
      (List.length ls <= List.length (roster w))%nat /\
      forall l, In l ls ->
        Db.sl_sync_date l = date /\
        exists c, In c (roster w) /\ Db.sl_client_id l = Some (Db.id c).
Proof.
  intros env date w. cbv zeta.
  pose proof (syncAllClients_run env date w) as Hrun.
  destruct (statementFault env Db.SelectActiveClients) as [e|].
  - destruct Hrun as (w' & Hrun & Hdb & _). rewrite Hrun. cbn [snd].
    unfold rowsFor. rewrite Hdb. split; [reflexivity|]. split; [reflexivity|].
    exists []. rewrite app_nil_r. split; [reflexivity|]. split; [cbn; lia|]. intros l [].
  - destruct Hrun as (s & wa & wb & w' & Hrun & Hdba & _ & Hatts & Hdbb & _).
    rewrite Hrun. cbn [snd].
    pose proof (Attempts_clients _ _ _ _ _ Hatts) as Hcl.
    destruct (Attempts_logs _ _ _ _ _ Hatts) as (ls & Hls & Hn & Hl).
    unfold rowsFor in *. rewrite Hdbb. rewrite Hdba in *.
    split; [exact Hcl|]. split.
    + intros c d Hcd.
      pose proof (Attempts_other _ _ _ _ _ c d Hatts) as Ho. unfold rowsFor in Ho.
      rewrite Hdba in Ho. apply Ho. intros Hin.
      apply in_roster_jobs in Hin. destruct Hin as [Hd Hc]. destruct Hcd; auto.
    + exists ls. split; [exact Hls|]. rewrite length_map in Hn. split; [exact Hn|].
      intros l Hin. destruct (Hl l Hin) as (j & Hj & Hc & Hd).
      apply in_map_iff in Hj. destruct Hj as (c & <- & Hcin). cbn in *.
      split; [exact Hd|]. exists c. auto.
Qed.

(** ** The pauses between the attempts *)

Lemma forEach_elapsed env ms {A} (cl : A -> Db.ClientRow) (dt : A -> string) xs :
  0 <= ms ->
  forall w,
    now w + ms * Sync.len xs <=
    now (snd (forEach xs (fun x => r <- Sync.syncClientMetrics env (cl x) (dt x) ;;
                                   sleep ms ;; ret r) w)).
Proof.
  intros Hms. induction xs as [|x xs IH]; intros w.
  - cbn. unfold Sync.len. cbn. lia.
  - cbn [forEach]. unfold bind at 1. unfold bind at 1.
    destruct (syncClientMetrics_attempt env (cl x) (dt x) w) as (r & w1 & Hrun & Ha).
    rewrite Hrun. unfold bind at 1. unfold sleep at 1. unfold ret at 1.
    unfold bind at 1.
    specialize (IH (advance ms w1)).
    destruct (forEach xs _ (advance ms w1)) as [[rs|e] w2]; cbn [snd] in *;
      unfold ret; cbn [snd];
      pose proof (Attempt_now _ _ _ _ _ _ Ha); unfold advance in IH; cbn [now] in IH;
      unfold Sync.len in *; cbn [List.length]; lia.
Qed.

(** X6 (pacing).  A batch that resolves has taken at least half a second
    per tenant, the pause after each attempt, and the [totalTime] it reports
    lies between that and the time that has passed; a backfill that resolves
    has taken at least a second per day. *)
Theorem batches_pause_between_attempts :
  (forall env date w s w',
     Sync.syncAllClients env date w = (Resolved s, w') ->
     500 * Sync.totalClients s <= now w' - now w /\
     forall t, Sync.totalTime s = Some t -> 500 * Sync.totalClients s <= t <= now w' - now w) /\
  (forall env clientId startDate endDate w s w',
     Sync.backfillClientData env clientId startDate endDate w = (Resolved s, w') ->
     1000 * Sync.totalDays s <= now w' - now w).
Proof.
  split.
  - intros env date w s w'.
    unfold Sync.syncAllClients;
    do 3 (unfold bind at 1; unfold console_log at 1, say at 1);
    unfold bind at 1; unfold dateNow at 1; cbn [now db console];
    unfold tryCatch at 1; unfold bind at 1;
    match goal with |- context [query env _ ?x] => set (w0 := x) end.
    destruct (statementFault env Db.SelectActiveClients) as [e|] eqn:Hf.
    + rewrite (query_fault _ _ _ _ Hf).
      unfold bind, console_error, say, throw. discriminate.
    + destruct (query_ok env _ w0 Hf) as (wa & Hq & Hdb & Hnow & _).
      rewrite Hq. cbn [Db.execute fst snd] in *.
      change (Db.order_by_name (filter Db.is_active (Db.clients (db w0)))) with (roster w).
      assert (Hwa : now w <= now wa) by (rewrite Hnow; subst w0; cbn [now]; lia).
      destruct (Sync.len (roster w) =? 0) eqn:Hlen.
      * unfold bind, console_log, say, ret. cbn. intros H. injection H as <- <-.
        cbn. split; [lia|]. discriminate.
      * unfold bind at 1. unfold console_log at 1, say at 1.
        unfold bind at 1.
        match goal with |- context [forEach _ _ ?w1] => set (w1' := w1) end.
        assert (H500 : 0 <= 500) by lia.
        pose proof (forEach_elapsed env 500 (fun c : Db.ClientRow => c) (fun _ => date)
                      (roster w) H500 w1') as Hel.
        cbv beta in Hel.
        destruct (forEach (roster w) _ w1') as [[rs|e] wb]; cbn [snd] in Hel.
        -- unfold bind, console_log, say, dateNow, ret. cbn [now db console].
           intros H. injection H as <- <-.
           cbn [Sync.totalClients Sync.totalTime now].
           subst w1'. cbn [now] in Hel.
           split; [lia|]. intros t Ht. injection Ht as <-. lia.
        -- unfold bind, console_error, say, throw. discriminate.
  - intros env clientId startDate endDate w s w'.
    unfold Sync.backfillClientData;
    unfold bind at 1; unfold console_log at 1, say at 1;
    unfold tryCatch at 1; unfold bind at 1;
    match goal with |- context [query env _ ?x] => set (w0 := x) end.
    destruct (statementFault env (Db.SelectClientById clientId)) as [e|] eqn:Hf.
    + rewrite (query_fault _ _ _ _ Hf).
      unfold bind, console_error, say, throw. discriminate.
    + destruct (query_ok env _ w0 Hf) as (wa & Hq & Hdb & Hnow & _).
      rewrite Hq. cbn [Db.execute fst snd] in *.
      assert (Hwa : now w <= now wa) by (rewrite Hnow; subst w0; cbn [now]; lia).
      destruct (filter _ (Db.clients (db w0))) as [|client others].
      * unfold bind, console_error, say, throw. discriminate.
      * unfold bind at 1. unfold console_log at 1, say at 1. unfold bind at 1.
        match goal with |- context [forEach _ _ ?w1] => set (w1' := w1) end.
        assert (H1000 : 0 <= 1000) by lia.
        pose proof (forEach_elapsed env 1000 (fun _ : string => client) (fun date => date)
                      (Sync.generateDateRange (processTimeZone env) startDate endDate)
                      H1000 w1') as Hel.
        cbv beta in Hel.
        destruct (forEach _ _ w1') as [[rs|e] wb]; cbn [snd] in Hel.
        -- unfold bind, console_log, say, ret. cbn [now db console].
           intros H. injection H as <- <-.
           cbn [Sync.totalDays now]. subst w1'. cbn [now] in Hel. lia.
        -- unfold bind, console_error, say, throw. discriminate.
Qed.

Lemma batches_pause_between_attempts_witness :
  exists s w',
    Sync.syncAllClients Scenario.healthy "2024-03-01" Scenario.world0 = (Resolved s, w') /\
    Sync.totalClients s = 3 /\
    1500 <= now w' - now Scenario.world0.
Proof.
  destruct (Sync.syncAllClients Scenario.healthy "2024-03-01" Scenario.world0)
    as [[s|e] w'] eqn:Hrun; [|vm_compute in Hrun; discriminate].
  exists s, w'. split; [reflexivity|].
  assert (Hn : Sync.totalClients s = 3).
  { vm_compute in Hrun. injection Hrun as <- _. reflexivity. }
  split; [exact Hn|].
  destruct batches_pause_between_attempts as [H _].
  destruct (H _ _ _ _ _ Hrun) as [Hp _]. rewrite Hn in Hp. exact Hp.
Defined.

(** ** A range that ends before it starts *)

(** X7 (a range that ends before it starts).  For an existing tenant and
    a range whose end date is before its start date, [generateDateRange]
    gives no date, and [backfillClientData] resolves with a success over 0
    days and leaves the database as it is. *)
Theorem backfill_of_a_reversed_range_syncs_nothing :
  forall env clientId client others startDate endDate first last w,
    JsDate.parse startDate = Some first ->
    JsDate.parse endDate = Some last ->
    last < first ->
    statementFault env (Db.SelectClientById clientId) = None ->
    lookup clientId w = client :: others ->
    Sync.generateDateRange (processTimeZone env) startDate endDate = [] /\
    exists w',
      Sync.backfillClientData env clientId startDate endDate w =
        (Resolved (Sync.mkBackfill true clientId startDate endDate 0 0 0 []), w') /\
      db w' = db w.
Proof.
  intros env clientId client others startDate endDate first last w Hs He Hlt Hf Hl.
  assert (Hrange : Sync.generateDateRange (processTimeZone env) startDate endDate = []).
  { unfold Sync.generateDateRange. rewrite Hs, He.
    destruct (Sync.roundsBound first last); cbn [Sync.dateLoop]; auto.
    replace (first <=? last) with false; auto. symmetry. apply Z.leb_gt. lia. }
  split; [exact Hrange|].
  unfold Sync.backfillClientData;
    unfold bind at 1; unfold console_log at 1, say at 1;
    unfold tryCatch at 1; unfold bind at 1;
    match goal with |- context [query env _ ?x] => set (w0 := x) end.
  destruct (query_ok env _ w0 Hf) as (wa & Hq & Hdb & _).
  rewrite Hq. cbn [Db.execute fst snd] in *.
  change (filter _ (Db.clients (db w0))) with (lookup clientId w). rewrite Hl.
  rewrite Hrange. unfold bind, console_log, say, ret. cbn.
  eexists. split; [reflexivity|]. cbn. rewrite Hdb. reflexivity.
Qed.

Lemma backfill_of_a_reversed_range_syncs_nothing_witness :
  Sync.generateDateRange (processTimeZone Scenario.inNewYork) "2024-03-05" "2024-03-01" = [] /\
  exists w',
    Sync.backfillClientData Scenario.inNewYork 2 "2024-03-05" "2024-03-01" Scenario.world0 =
      (Resolved (Sync.mkBackfill true 2 "2024-03-05" "2024-03-01" 0 0 0 []), w') /\
    db w' = db Scenario.world0.
Proof.
  apply (backfill_of_a_reversed_range_syncs_nothing Scenario.inNewYork 2 Scenario.birch
           [] "2024-03-05" "2024-03-01" 1709596800000 1709251200000 Scenario.world0);
    try reflexivity.
Defined.

(** ** Printing a date and reading it back *)

Lemma digit_value_digit n :
  0 <= n < 10 ->
  Js.digit_value 10 (ascii_of_nat (48 + Z.to_nat n)) = Some n.
Proof.
  intros H.
  assert (Hk : (Z.to_nat n < 10)%nat) by lia.
  replace (Some n) with (Some (Z.of_nat (Z.to_nat n)))
    by (rewrite Z2Nat.id; [reflexivity | lia]).
  revert Hk. generalize (Z.to_nat n) as k. intros k Hk.
  do 10 (destruct k as [|k]; [reflexivity|]). lia.
Qed.

Lemma take_digits_app a :
  forall b s acc,
    JsDate.take_digits (a + b) s acc =
    match JsDate.take_digits a s acc with
    | Some (v, r) => JsDate.take_digits b r v
    | None => None
    end.
Proof.
  induction a as [|a IH]; intros b s acc; cbn [JsDate.take_digits Nat.add]; auto.
  destruct s as [|c s]; auto. destruct (Js.digit_value 10 c); auto.
Qed.

Lemma take_digits_pad k :
  forall n rest acc,
    JsDate.take_digits k (Js.pad k n ++ rest) acc
    = Some (acc * 10 ^ Z.of_nat k + n mod 10 ^ Z.of_nat k, rest).
Proof.
  induction k as [|k IH]; intros n rest acc.
  - cbn. f_equal. f_equal. rewrite Z.mod_1_r. lia.
  - cbn [Js.pad]. rewrite string_app_assoc.
    replace (S k) with (k + 1)%nat by lia.
    rewrite take_digits_app, IH. cbn [String.append JsDate.take_digits].
    rewrite digit_value_digit by (apply Z.mod_pos_bound; lia).
    f_equal. f_equal.
    replace (Z.of_nat (k + 1)) with (Z.of_nat k + 1) by lia.
    rewrite Z.pow_add_r by lia. change (10 ^ 1) with 10.
    rewrite (Z.mul_comm (10 ^ Z.of_nat k) 10).
    rewrite (Z.rem_mul_r n 10 (10 ^ Z.of_nat k)) by (try lia; apply Z.pow_pos_nonneg; lia).
    lia.
Qed.

Lemma string_app_nil_r (s : string) : s ++ "" = s.
Proof. induction s as [|c s IH]; cbn; congruence. Qed.

Lemma civil_from_days_range z :
  let '(y, m, d) := JsDate.civil_from_days z in 1 <= m <= 12 /\ 1 <= d <= 31.
Proof.
  unfold JsDate.civil_from_days.
  repeat match goal with |- context [if ?b then _ else _] => destruct b eqn:? end;
    Z.div_mod_to_equations; lia.
Qed.

Lemma era_year doe :
  0 <= doe < 146097 ->
  let yoe := (doe - doe / 1460 + doe / 36524 - doe / 146096) / 365 in
  let doy := doe - (365 * yoe + yoe / 4 - yoe / 100) in
  0 <= yoe <= 399 /\ 0 <= doy <= 365 /\
  (146037 <= doe -> yoe = 399 /\ 306 <= doy) /\
  (doe < 146037 -> yoe < 399 \/ doy < 306).
Proof.
  intros H. cbv zeta. Z.div_mod_to_equations. lia.
Qed.

Lemma civil_from_days_year z :
  fourDigitYear z ->
  let '(y, m, d) := JsDate.civil_from_days z in 0 <= y <= 9999.
Proof.
  unfold fourDigitYear, JsDate.civil_from_days. intros H. cbv zeta.
  pose proof (era_year ((z + 719468) mod 146097) ltac:(apply Z.mod_pos_bound; lia)) as He.
  cbv zeta in He.
  set (doe := (z + 719468) mod 146097) in *.
  set (yoe := (doe - doe / 1460 + doe / 36524 - doe / 146096) / 365) in *.
  set (doy := doe - (365 * yoe + yoe / 4 - yoe / 100)) in *.
  assert (Hera : -1 <= (z + 719468) / 146097 <= 24 /\
                 ((z + 719468) / 146097 = -1 -> 146037 <= doe) /\
                 ((z + 719468) / 146097 = 24 -> doe < 146037)).
  { subst doe. Z.div_mod_to_equations. lia. }
  set (era := (z + 719468) / 146097) in *.
  destruct He as (Hy & Hd & Hlo & Hhi). destruct Hera as (Hera & Hel & Heh).
  set (mp := (5 * doy + 2) / 153).
  assert (Hmp : (306 <= doy -> 10 <= mp) /\ (doy < 306 -> mp < 10)).
  { subst mp. Z.div_mod_to_equations. lia. }
  destruct Hmp as [Hmp1 Hmp2].
  assert (Hmp3 : 0 <= mp <= 11) by (subst mp; Z.div_mod_to_equations; lia).
  clearbody mp era doy yoe doe.
  destruct (mp <? 10) eqn:E1;
    [apply Z.ltb_lt in E1 | apply Z.ltb_ge in E1];
    match goal with |- context [if ?b then _ else _] => destruct b eqn:E2 end;
    rewrite ?Z.leb_le, ?Z.leb_gt in E2; lia.
Qed.

Lemma parse_calendarDate day :
  fourDigitYear day ->
  JsDate.parse (calendarDate day) = Some (day * JsDate.msPerDay).
Proof.
  intros Hy. unfold calendarDate.
  pose proof (civil_from_days_range day) as Hr.
  pose proof (civil_from_days_year day Hy) as Hyr.
  pose proof (MakeDay_civil_from_days day) as Hmk.
  destruct (JsDate.civil_from_days day) as [[y m] d].
  unfold JsDate.isoYear.
  replace ((0 <=? y) && (y <=? 9999)) with true
    by (symmetry; apply andb_true_iff; split; apply Z.leb_le; lia).
  unfold JsDate.parse.
  rewrite take_digits_pad. cbn [String.append].
  rewrite take_digits_pad. cbn [String.append].
  rewrite <- (string_app_nil_r (Js.pad 2 d)), take_digits_pad.
  change (10 ^ Z.of_nat 4) with 10000. change (10 ^ Z.of_nat 2) with 100.
  rewrite !Z.mul_0_l, !Z.add_0_l.
  rewrite (Z.mod_small y), (Z.mod_small m), (Z.mod_small d) by lia.
  replace ((1 <=? m) && (m <=? 12) && (1 <=? d) && (d <=? 31)) with true.
  - rewrite Hmk. reflexivity.
  - symmetry. rewrite !andb_true_iff, !Z.leb_le. lia.
Qed.

(** ** The window of the backfill scripts *)

Ltac unfold_run :=
  unfold service, print;
  unfold Run.tryCatch, Run.bind, Run.ret, Run.throw, Run.zoom, Run.modify, Run.get,
    Run.liftC; cbv beta.

Lemma lastThirtyDays_fixed env minutes w :
  processTimeZone env = JsDate.fixedOffset minutes ->
  Backfill.lastThirtyDays env w =
    (Resolved (calendarDate (JsDate.Day (now w) - 30), calendarDate (JsDate.Day (now w) - 1)), w).
Proof.
  intros Htz. unfold Backfill.lastThirtyDays; unfold_async. rewrite Htz.
  replace (JsDate.getDate (JsDate.fixedOffset minutes) (now w) - 1)
    with (JsDate.getDate (JsDate.fixedOffset minutes) (now w) + -1) by lia.
  replace (JsDate.getDate (JsDate.fixedOffset minutes) (now w) - 30)
    with (JsDate.getDate (JsDate.fixedOffset minutes) (now w) + -30) by lia.
  rewrite !setDate_getDate_fixed, !isoDate_calendarDate, !Day_shift.
  replace (JsDate.Day (now w) + -1) with (JsDate.Day (now w) - 1) by lia.
  replace (JsDate.Day (now w) + -30) with (JsDate.Day (now w) - 30) by lia.
  reflexivity.
Qed.

Lemma thirty_days_range minutes day :
  fourDigitYear (day - 30) ->
  fourDigitYear (day - 1) ->
  Sync.generateDateRange (JsDate.fixedOffset minutes)
    (calendarDate (day - 30)) (calendarDate (day - 1))
  = map calendarDate (daysFrom (day - 30) 30).
Proof.
  intros H30 H1.
  rewrite (generateDateRange_fixed minutes _ _ (day - 30) (day - 1))
    by (apply parse_calendarDate; assumption).
  replace (Z.to_nat (day - 1 - (day - 30) + 1)) with 30%nat by lia.
  reflexivity.
Qed.

Lemma daysFrom_length {A} (f : Z -> A) first n :
  List.length (map f (daysFrom first n)) = n.
Proof. unfold daysFrom. rewrite !length_map, length_seq. reflexivity. Qed.

(** X8 (the window of a new tenant).  In a process whose time zone has a
    fixed offset, and within the years that print with four digits, the
    window computed for the backfill of a tenant (from [getDate() - 30] to
    [getDate() - 1]) ends on the day before the UTC date, and
    [generateDateRange] over it gives the 30 consecutive days that end
    there. *)
Theorem backfill_window_is_thirty_days :
  forall env minutes w,
    processTimeZone env = JsDate.fixedOffset minutes ->
    fourDigitYear (JsDate.Day (now w) - 30) ->
    fourDigitYear (JsDate.Day (now w) - 1) ->
    exists startStr endStr,
      Backfill.lastThirtyDays env w = (Resolved (startStr, endStr), w) /\
      endStr = calendarDate (JsDate.Day (now w) - 1) /\
      Sync.generateDateRange (processTimeZone env) startStr endStr
        = map calendarDate (daysFrom (JsDate.Day (now w) - 30) 30) /\
      List.length (Sync.generateDateRange (processTimeZone env) startStr endStr) = 30%nat.
Proof.
  intros env minutes w Htz H30 H1.
  do 2 eexists. split; [apply (lastThirtyDays_fixed env minutes w Htz)|].
  split; [reflexivity|].
  rewrite Htz, (thirty_days_range minutes (JsDate.Day (now w)) H30 H1).
  split; [reflexivity|]. apply daysFrom_length.
Qed.

Lemma backfill_window_is_thirty_days_witness :
  exists startStr endStr,
    Backfill.lastThirtyDays Scenario.inKolkata Scenario.world0
      = (Resolved (startStr, endStr), Scenario.world0) /\
    endStr = "2024-03-01" /\
    List.length (Sync.generateDateRange JsDate.kolkata startStr endStr) = 30%nat.
Proof.
  destruct (backfill_window_is_thirty_days Scenario.inKolkata 330 Scenario.world0 eq_refl)
    as (s & e & Hw & He & _ & Hn).
  - unfold fourDigitYear. vm_compute. split; discriminate.
  - unfold fourDigitYear. vm_compute. split; discriminate.
  - exists s, e. split; [exact Hw|]. split; [rewrite He; vm_compute; reflexivity | exact Hn].
Defined.

Lemma lastThirtyDays_pure env w :
  exists startStr endStr, Backfill.lastThirtyDays env w = (Resolved (startStr, endStr), w).
Proof. do 2 eexists. unfold Backfill.lastThirtyDays; unfold_async. reflexivity. Qed.

(** X9 (the backfill script).  [runBackfill] always ends, with exit code 0 or
    1.  The code is 1 exactly when the lookup of tenant 2 fails or finds no
    row.  With code 0 in a process whose time zone has a fixed offset, the
    script has printed the window from 30 days to 1 day before the UTC date
    and the two counts of the backfill, which add up to 30. *)
Theorem runBackfill_exit_code :
  forall env h,
    exists code h',
      Backfill.runBackfill env h = (Resolved code, h') /\
      (code = 0 \/ code = 1) /\
      (code = 1 <->
       statementFault env (Db.SelectClientById 2) <> None \/ lookup 2 (world h) = []) /\
      (forall minutes,
         processTimeZone env = JsDate.fixedOffset minutes ->
         fourDigitYear (JsDate.Day (now (world h)) - 30) ->
         fourDigitYear (JsDate.Day (now (world h)) - 1) ->
         code = 0 ->
         exists succeeded failed,
           lines h' =
             (lines h ++
              [(Log, StartingBackfillFor 2
                       (calendarDate (JsDate.Day (now (world h)) - 30))
                       (calendarDate (JsDate.Day (now (world h)) - 1)));
               (Log, BackfillResults);
               (Log, BackfillSucceeded succeeded);
               (Log, BackfillFailedDays failed)])%list /\
           succeeded + failed = 30).
Proof.
  intros env h.
  destruct (lastThirtyDays_pure env (world h)) as (startStr & endStr & Hwin).
  pose proof (backfillClientData_run env 2 startStr endStr (world h)) as Hrun.
  unfold Backfill.runBackfill. unfold_run. rewrite Hwin. cbn [world lines].
  destruct (statementFault env (Db.SelectClientById 2)) as [e|] eqn:Hf;
    [| destruct (lookup 2 (world h)) as [|client others] eqn:Hl].
  - destruct Hrun as (w' & Hrun & _). rewrite Hrun. cbn [world lines].
    do 2 eexists. split; [reflexivity|]. split; [auto|]. split.
    + split; auto. intros _. left. discriminate.
    + intros; discriminate.
  - destruct Hrun as (w' & Hrun & _). rewrite Hrun. cbn [world lines].
    do 2 eexists. split; [reflexivity|]. split; [auto|]. split.
    + split; auto.
    + intros; discriminate.
  - destruct Hrun as (s & wa & wb & w' & Hrun & _ & Hatts & _ & _ & Hdays & Hsc & Hfc).
    rewrite Hrun. cbn [world lines].
    do 2 eexists. split; [reflexivity|]. split; [auto|]. split.
    + split; [discriminate|]. intros [H | H]; [congruence | discriminate].
    + intros minutes Htz H30 H1 _.
      rewrite (lastThirtyDays_fixed env minutes (world h) Htz) in Hwin.
      injection Hwin as <- <-.
      exists (Sync.b_successCount s), (Sync.b_failureCount s). split.
      * rewrite <- !app_assoc. cbn [app]. reflexivity.
      * rewrite Hsc, Hfc, len_filter_split.
        pose proof (Attempts_length _ _ _ _ _ Hatts) as Hn. rewrite length_map in Hn.
        unfold Sync.len. rewrite Hn, Htz, (thirty_days_range minutes _ H30 H1), daysFrom_length.
        reflexivity.
Qed.

(** ** [fetchMetricsRange] *)

Lemma metricValue_nth values i :
  (i < List.length values)%nat ->
  Ga4.metricValue values i = Resolved (nth i values "").
Proof.
  intros H. unfold Ga4.metricValue.
  destruct (nth_error values i) as [v|] eqn:E.
  - rewrite (nth_error_nth _ _ _ E). reflexivity.
  - apply nth_error_None in E. lia.
Qed.

Lemma metricValue_missing values i :
  (List.length values <= i)%nat ->
  Ga4.metricValue values i = Rejected (Js.typeErrorUndefined "value").
Proof.
  intros H. unfold Ga4.metricValue.
  apply nth_error_None in H. rewrite H. reflexivity.
Qed.

Lemma parseRow_readable row :
  readable row = true ->
  exists m,
    Ga4Range.parseRow row = Resolved m /\
    Ga4Range.date m = rowDate row /\
    Ga4Range.sessions m = rowSessions row /\
    Ga4Range.bounceRate m = rowBounceRate row.
Proof.
  unfold readable. rewrite andb_true_iff, !Nat.leb_le. intros [Hd Hm].
  unfold Ga4Range.parseRow.
  rewrite !metricValue_nth by lia. cbn [bindC].
  eexists. split; [reflexivity|]. repeat split.
Qed.

Lemma parseRow_unreadable row :
  readable row = false ->
  Ga4Range.parseRow row = Rejected (Js.typeErrorUndefined "value").
Proof.
  unfold readable. rewrite andb_false_iff, !Nat.leb_gt. intros H.
  unfold Ga4Range.parseRow.
  destruct (Nat.lt_ge_cases 0 (List.length (Ga4.dimensionValues row))) as [Hd | Hd].
  - rewrite (metricValue_nth _ 0%nat Hd). cbn [bindC].
    destruct H as [H | H]; [lia|].
    repeat match goal with
    | |- context [Ga4.metricValue (Ga4.metricValues row) ?i] =>
        let Hi := fresh "Hi" in
        destruct (Nat.lt_ge_cases i (List.length (Ga4.metricValues row))) as [Hi | Hi];
        [ rewrite (metricValue_nth _ i Hi); cbn [bindC]
        | rewrite (metricValue_missing _ i Hi); reflexivity ]
    end.
    lia.
  - rewrite (metricValue_missing _ 0%nat Hd). reflexivity.
Qed.

Lemma mapRows_readable rows :
  forallb readable rows = true ->
  exists ms,
    Ga4Range.mapRows rows = Resolved ms /\
    map Ga4Range.date ms = map rowDate rows /\
    map Ga4Range.sessions ms = map rowSessions rows /\
    map Ga4Range.bounceRate ms = map rowBounceRate rows.
Proof.
  induction rows as [|row rows IH]; cbn [forallb Ga4Range.mapRows].
  - intros _. exists []. repeat split.
  - rewrite andb_true_iff. intros [Hr Hrs].
    destruct (parseRow_readable row Hr) as (m & Hm & Hd & Hs & Hb).
    destruct (IH Hrs) as (ms & Hms & Hds & Hss & Hbs).
    rewrite Hm, Hms. cbn [bindC]. exists (m :: ms).
    cbn [map]. rewrite Hd, Hs, Hb, Hds, Hss, Hbs. repeat split.
Qed.

Lemma mapRows_unreadable rows :
  forallb readable rows = false ->
  Ga4Range.mapRows rows = Rejected (Js.typeErrorUndefined "value").
Proof.
  induction rows as [|row rows IH]; cbn [forallb Ga4Range.mapRows]; [discriminate|].
  destruct (readable row) eqn:Hr; cbn [andb].
  - intros Hrs. destruct (parseRow_readable row Hr) as (m & Hm & _).
    rewrite Hm, (IH Hrs). reflexivity.
  - intros _. rewrite (parseRow_unreadable row Hr). reflexivity.
Qed.

(** What [fetchMetricsRange] rejects with when the cause is [e]. *)
Lemma fetchMetricsRange_run provider propertyId startDate endDate h :
  let request := Ga4Range.mkRequest ("properties/" ++ propertyId) startDate endDate in
  let passed e := if Js.includes "invalid_rapt" (Js.message e) then sessionExpired else e in
  let run := Ga4Range.fetchMetricsRange provider propertyId startDate endDate h in
  fst run =
    match Ga4Range.runReportResult provider request with
    | Resolved response =>
        match Ga4Range.parseRows response with
        | Resolved ms => Resolved ms
        | Rejected e => Rejected (passed e)
        end
    | Rejected e => Rejected (passed e)
    end /\
  db (world (snd run)) = db (world h) /\
  now (world (snd run)) = now (world h) + Z.of_N (Ga4Range.runReportMs provider request).
Proof.
  cbv zeta. unfold Ga4Range.fetchMetricsRange, Ga4Range.runReport. unfold_run.
  cbn [world lines].
  destruct (Ga4Range.runReportResult provider _) as [response|e]; cbn [world lines].
  - destruct (Ga4Range.parseRows response) as [ms|e]; cbn [world lines fst snd].
    + repeat split.
    + destruct (Js.includes "invalid_rapt" (Js.message e)); repeat split.
  - destruct (Js.includes "invalid_rapt" (Js.message e)); repeat split.
Qed.

(** X10 (the range fetch).  When the provider answers the report,
    [fetchMetricsRange] resolves exactly when the response has [rows] and
    every row has a date and six metric values.  It then gives one record
    per row, in the order of the rows, with the date in calendar form, the
    sessions as a whole number and the bounce rate times 100.  A response
    without [rows] makes it reject with the [TypeError] of reading [map] of
    [undefined]: unlike [fetchDailyMetrics] it has no default for a range
    without traffic.  The database is not touched. *)
Theorem fetchMetricsRange_gives_one_record_per_row :
  forall provider propertyId startDate endDate h response,
    Ga4Range.runReportResult provider
      (Ga4Range.mkRequest ("properties/" ++ propertyId) startDate endDate)
      = Resolved response ->
    let run := Ga4Range.fetchMetricsRange provider propertyId startDate endDate h in
    (isResolved (fst run) = true <->
     exists rows, Ga4.rows response = Some rows /\ forallb readable rows = true) /\
    (forall rows,
       Ga4.rows response = Some rows -> forallb readable rows = true ->
       exists ms,
         fst run = Resolved ms /\
         map Ga4Range.date ms = map rowDate rows /\
         map Ga4Range.sessions ms = map rowSessions rows /\
         map Ga4Range.bounceRate ms = map rowBounceRate rows) /\
    (Ga4.rows response = None ->
     fst run = Rejected (Js.typeErrorUndefined "map")) /\
    db (world (snd run)) = db (world h).
Proof.
  intros provider propertyId startDate endDate h response Hres. cbv zeta.
  destruct (fetchMetricsRange_run provider propertyId startDate endDate h) as (Hrun & Hdb & _).
  cbv zeta in Hrun. rewrite Hres in Hrun. rewrite Hrun.
  unfold Ga4Range.parseRows.
  split; [| split; [| split; [| exact Hdb]]].
  - destruct (Ga4.rows response) as [rows|].
    + destruct (forallb readable rows) eqn:Hr.
      * destruct (mapRows_readable rows Hr) as (ms & Hms & _). rewrite Hms. cbn.
        split; auto. intros _. exists rows. auto.
      * rewrite (mapRows_unreadable rows Hr). cbn.
        split; [discriminate|]. intros (rows' & Heq & Hr'). congruence.
    + cbn. split; [discriminate|]. intros (rows' & Heq & _). discriminate.
  - intros rows Hrows Hr. rewrite Hrows.
    destruct (mapRows_readable rows Hr) as (ms & Hms & Hd & Hs & Hb). rewrite Hms.
    exists ms. auto.
  - intros Hrows. rewrite Hrows. reflexivity.
Qed.

Lemma fetchMetricsRange_gives_one_record_per_row_witness :
  exists ms,
    fst (Ga4Range.fetchMetricsRange Cases.provider "111111" "2024-03-01" "2024-03-02"
           (mkHost Scenario.world0 [])) = Resolved ms /\
    map Ga4Range.date ms = ["2024-03-01"; "2024-03-02"] /\
    map Ga4Range.sessions ms = [120; 131].
Proof.
  destruct (fetchMetricsRange_gives_one_record_per_row Cases.provider "111111"
              "2024-03-01" "2024-03-02" (mkHost Scenario.world0 []) Cases.twoDays eq_refl)
    as (_ & Hrows & _).
  destruct (Hrows _ eq_refl eq_refl) as (ms & Hms & Hdate & Hsessions & _).
  exists ms. split; [exact Hms|]. split; [exact Hdate | exact Hsessions].
Defined.

(** ** The database wrapper, for the other statements *)

Lemma queryWith_ok {A} served text (perform : Db.Database -> A * Db.Database) h :
  fault served = None ->
  exists h' extra,
    queryWith served text perform h = (Resolved (fst (perform (db (world h)))), h') /\
    db (world h') = snd (perform (db (world h))) /\
    now (world h') = now (world h) + Z.of_N (elapsed served) /\
    lines h' = (lines h ++ extra)%list /\
    (forall line, In line extra -> exists duration, line = (Warn, SlowStatement duration text)).
Proof.
  intros Hf. unfold queryWith, poolQueryWith. unfold_run. unfold dateNow, advance.
  cbn [world lines db now console]. rewrite Hf.
  destruct (perform (db (world h))) as [rows db'] eqn:Hp. cbn [world lines db now console fst snd].
  destruct (1000 <? _); cbn [world lines db now console].
  - do 2 eexists. split; [reflexivity|]. cbn [world lines db now]. repeat split.
    intros line [<- | []]. eexists. reflexivity.
  - exists (mkHost (mkWorld db' (now (world h) + Z.of_N (elapsed served)) (console (world h)))
                   (lines h)), [].
    cbn [world lines db now]. rewrite app_nil_r. repeat split. intros line [].
Qed.

Lemma queryWith_fault {A} served text (perform : Db.Database -> A * Db.Database) h e :
  fault served = Some e ->
  queryWith served text perform h =
    (Rejected e,
     mkHost (mkWorld (db (world h)) (now (world h) + Z.of_N (elapsed served)) (console (world h)))
            (lines h ++ [(Err, StatementError e)])).
Proof.
  intros Hf. unfold queryWith, poolQueryWith. unfold_run. unfold dateNow, advance.
  cbn [world lines db now console]. rewrite Hf. reflexivity.
Qed.

(** ** The auto-sync middleware *)

Ltac unfold_middleware :=
  unfold AutoSync.next, AutoSync.triggerBackgroundSync, queryWith, poolQueryWith,
    AutoSync.onHost;
  unfold_run; unfold dateNow, advance; cbn [world lines db now console
    AutoSync.host AutoSync.lastSyncCheck AutoSync.process AutoSync.nextCalls fst snd].

Lemma maxCreatedAt_from rows :
  forall acc,
    fold_left
      (fun acc l =>
         match acc with
         | None => Some (Db.sl_created_at l)
         | Some t => Some (Z.max t (Db.sl_created_at l))
         end) rows (Some acc)
    = Some (fold_left (fun t l => Z.max t (Db.sl_created_at l)) rows acc).
Proof. induction rows as [|l rows IH]; intros acc; cbn; auto. Qed.

Lemma fold_max_spec rows :
  forall acc,
    let t := fold_left (fun t l => Z.max t (Db.sl_created_at l)) rows acc in
    acc <= t /\ (forall l, In l rows -> Db.sl_created_at l <= t) /\
    (t = acc \/ exists l, In l rows /\ Db.sl_created_at l = t).
Proof.
  induction rows as [|l rows IH]; intros acc; cbn.
  - split; [lia|]. split; [intros l []|]. auto.
  - specialize (IH (Z.max acc (Db.sl_created_at l))). cbv zeta in IH.
    destruct IH as (H1 & H2 & H3). split; [lia|]. split.
    + intros l' [<- | Hin]; [lia | auto].
    + destruct H3 as [H3 | (l' & Hin & Heq)].
      * destruct (Z.max_spec acc (Db.sl_created_at l)) as [[_ Hm] | [_ Hm]].
        -- right. exists l. split; [left; reflexivity | congruence].
        -- left. congruence.
      * right. exists l'. auto.
Qed.

Lemma maxCreatedAt_spec rows :
  match AutoSync.maxCreatedAt rows with
  | None => rows = []
  | Some t =>
      (exists l, In l rows /\ Db.sl_created_at l = t) /\
      forall l, In l rows -> Db.sl_created_at l <= t
  end.
Proof.
  unfold AutoSync.maxCreatedAt. destruct rows as [|l rows]; cbn; auto.
  rewrite maxCreatedAt_from.
  pose proof (fold_max_spec rows (Db.sl_created_at l)) as H. cbv zeta in H.
  destruct H as (H1 & H2 & H3). split.
  - destruct H3 as [H3 | (l' & Hin & Heq)].
    + exists l. split; [left; reflexivity | congruence].
    + exists l'. auto.
  - intros l' [<- | Hin]; auto.
Qed.

Lemma moreThan12_iff now t :
  AutoSync.moreThan12 (AutoSync.hoursSince now t) = true <-> 12 * 3600000 < now - t.
Proof.
  unfold AutoSync.moreThan12, AutoSync.hoursSince.
  rewrite negb_true_iff, <- not_true_iff_false, Qle_bool_iff.
  unfold Qle, Qdiv, Qmult, Qinv, inject_Z. cbn. lia.
Qed.

(** The check, in terms of the rows of the audit table. *)
Lemma due_iff d now :
  due d now = true <->
  forall l, In l (Db.sync_logs d) -> Db.sl_status l = Db.success ->
            Db.sl_created_at l + 12 * 3600000 < now.
Proof.
  unfold due, AutoSync.lastSuccessfulSync.
  pose proof (maxCreatedAt_spec (filter AutoSync.isSuccess (Db.sync_logs d))) as H.
  destruct (AutoSync.maxCreatedAt _) as [t|].
  - destruct H as ((l & Hin & Ht) & Hmax). rewrite moreThan12_iff. split.
    + intros Hlt l' Hin' Hs.
      assert (Db.sl_created_at l' <= t).
      { apply Hmax. apply filter_In. split; auto. unfold AutoSync.isSuccess. rewrite Hs. auto. }
      lia.
    + intros Hall. apply filter_In in Hin. destruct Hin as [Hin Hs].
      unfold AutoSync.isSuccess in Hs.
      specialize (Hall l Hin). destruct (Db.sl_status l); try discriminate.
      specialize (Hall eq_refl). lia.
  - split; auto. intros _ l Hin Hs.
    assert (Hf : In l (filter AutoSync.isSuccess (Db.sync_logs d))).
    { apply filter_In. split; auto. unfold AutoSync.isSuccess. rewrite Hs. auto. }
    rewrite H in Hf. destruct Hf.
Qed.

(** What one call of the middleware does to the module's variables. *)
Lemma autoSyncMiddleware_variables served path s :
  let s' := snd (AutoSync.autoSyncMiddleware served path s) in
  AutoSync.lastSyncCheck s' =
    (if looks path s then Some (now (world (AutoSync.host s))) else AutoSync.lastSyncCheck s) /\
  AutoSync.process s' =
    (if looks path s && answered served &&
        due (db (world (AutoSync.host s))) (now (world (AutoSync.host s)))
     then EventLoop.triggerBackgroundSync (AutoSync.process s)
     else AutoSync.process s).
Proof.
  cbv zeta. unfold AutoSync.autoSyncMiddleware, looks, due, answered.
  rewrite <- negb_orb.
  destruct (Js.includes "/metrics" path || Js.includes "/clients" path); cbn [negb andb].
  2: { unfold_middleware. split; reflexivity. }
  unfold_middleware.
  destruct (AutoSync.checkedRecently _ _); cbn [negb andb].
  { unfold_middleware. split; reflexivity. }
  unfold_middleware.
  destruct (fault served) as [e|]; cbn [andb]; unfold_middleware.
  { split; reflexivity. }
  destruct (1000 <? _); unfold_middleware;
    destruct (AutoSync.lastSuccessfulSync _) as [t|]; unfold_middleware;
    try destruct (AutoSync.moreThan12 _); unfold_middleware;
    try (destruct (EventLoop.syncInProgress (AutoSync.process s)) eqn:Hflag;
         unfold_middleware);
    split; try reflexivity;
    unfold EventLoop.triggerBackgroundSync; rewrite Hflag; reflexivity.
Qed.

(** X11 (the request goes on).  [autoSyncMiddleware] resolves and calls
    [next()] exactly once, whatever the path is and whatever the database
    does, and writes nothing to the database.  For a path that holds neither
    [/metrics] nor [/clients] that call is all it does. *)
Theorem autoSyncMiddleware_never_blocks_the_request :
  forall served path s,
    exists s',
      AutoSync.autoSyncMiddleware served path s = (Resolved tt, s') /\
      AutoSync.nextCalls s' = S (AutoSync.nextCalls s) /\
      db (world (AutoSync.host s')) = db (world (AutoSync.host s)) /\
      (Js.includes "/metrics" path || Js.includes "/clients" path = false ->
       s' = AutoSync.mkState (AutoSync.host s) (AutoSync.lastSyncCheck s)
              (AutoSync.process s) (S (AutoSync.nextCalls s))).
Proof.
  intros served path s. unfold AutoSync.autoSyncMiddleware.
  destruct (Js.includes "/metrics" path) eqn:Hm;
    [| destruct (Js.includes "/clients" path) eqn:Hc]; cbn [negb andb orb].
  3: { unfold_middleware. eexists. repeat split. }
  all: unfold_middleware;
    destruct (AutoSync.checkedRecently _ _);
    [ eexists; repeat split; discriminate |];
    unfold_middleware;
    destruct (fault served) as [e|]; unfold_middleware;
    [ eexists; repeat split; discriminate |];
    destruct (1000 <? _); unfold_middleware;
    destruct (AutoSync.lastSuccessfulSync _) as [t|]; unfold_middleware;
    try destruct (AutoSync.moreThan12 _); unfold_middleware;
    try destruct (EventLoop.syncInProgress _); unfold_middleware;
    eexists; repeat split; discriminate.
Qed.

(** X12 (one look per half hour).  After a request on a watched path
    made the middleware look at the database (no look in the 30 minutes
    before, and the clock not at 0, which the code would take for no look),
    [lastSyncCheck] is the time of that request, and a request that comes
    less than 30 minutes after it is passed on untouched: no statement, no
    console line, no sync, no change of the module's variables. *)
Theorem autoSyncMiddleware_checks_once_per_half_hour :
  forall served1 path1 s1 served2 path2 s2,
    Js.includes "/metrics" path1 || Js.includes "/clients" path1 = true ->
    AutoSync.checkedRecently (AutoSync.lastSyncCheck s1) (now (world (AutoSync.host s1))) = false ->
    now (world (AutoSync.host s1)) <> 0 ->
    AutoSync.lastSyncCheck s2 =
      AutoSync.lastSyncCheck (snd (AutoSync.autoSyncMiddleware served1 path1 s1)) ->
    now (world (AutoSync.host s2)) - now (world (AutoSync.host s1)) < 30 * 60 * 1000 ->
    AutoSync.lastSyncCheck s2 = Some (now (world (AutoSync.host s1))) /\
    AutoSync.autoSyncMiddleware served2 path2 s2 =
      (Resolved tt,
       AutoSync.mkState (AutoSync.host s2) (AutoSync.lastSyncCheck s2) (AutoSync.process s2)
         (S (AutoSync.nextCalls s2))).
Proof.
  intros served1 path1 s1 served2 path2 s2 Hpath Hfirst Hnow Hlast Hsoon.
  assert (Hset : AutoSync.lastSyncCheck (snd (AutoSync.autoSyncMiddleware served1 path1 s1))
                 = Some (now (world (AutoSync.host s1)))).
  { unfold AutoSync.autoSyncMiddleware.
    replace (negb (Js.includes "/metrics" path1) && negb (Js.includes "/clients" path1))
      with false by (rewrite <- negb_orb, Hpath; reflexivity).
    unfold_middleware. rewrite Hfirst. unfold_middleware.
    destruct (fault served1) as [e|]; unfold_middleware; [reflexivity|].
    destruct (1000 <? _); unfold_middleware;
      destruct (AutoSync.lastSuccessfulSync _) as [t|]; unfold_middleware;
      try destruct (AutoSync.moreThan12 _); unfold_middleware;
      try destruct (EventLoop.syncInProgress _); unfold_middleware; reflexivity. }
  rewrite Hset in Hlast. split; [exact Hlast|].
  assert (Hrecent : AutoSync.checkedRecently (AutoSync.lastSyncCheck s2)
                      (now (world (AutoSync.host s2))) = true).
  { rewrite Hlast. unfold AutoSync.checkedRecently.
    apply andb_true_iff. split.
    - apply negb_true_iff, Z.eqb_neq. exact Hnow.
    - apply Z.ltb_lt. exact Hsoon. }
  unfold AutoSync.autoSyncMiddleware.
  destruct (negb (Js.includes "/metrics" path2) && negb (Js.includes "/clients" path2)).
  - unfold_middleware. reflexivity.
  - unfold_middleware. rewrite Hrecent. unfold_middleware.
    destruct s2 as [[w2 l2] c2 p2 n2]. reflexivity.
Qed.

Lemma autoSyncMiddleware_checks_once_per_half_hour_witness :
  let first := snd (AutoSync.autoSyncMiddleware Cases.served "/api/metrics/summary"
                      (Cases.fresh Scenario.world0)) in
  let second := Cases.later 600000 first in
  AutoSync.lastSyncCheck second = Some (now Scenario.world0) /\
  AutoSync.autoSyncMiddleware Cases.served "/api/clients" second =
    (Resolved tt,
     AutoSync.mkState (AutoSync.host second) (AutoSync.lastSyncCheck second)
       (AutoSync.process second) 1).
Proof.
  cbv zeta.
  apply (autoSyncMiddleware_checks_once_per_half_hour Cases.served "/api/metrics/summary"
           (Cases.fresh Scenario.world0) Cases.served "/api/clients").
  - reflexivity.
  - reflexivity.
  - discriminate.
  - reflexivity.
  - vm_compute. reflexivity.
Defined.

(** X13 (what the look decides).  When the middleware looks at the
    database (watched path, no recent look) and the database answers, it
    records the time of the look.  It starts a sync in the background,
    setting [syncInProgress] and adding one call of [syncYesterday], when no
    successful audit row is at most 12 hours old and no sync it started is
    running; if there is such a row, or such a sync is running, the flag and
    the calls stay as they are. *)
Theorem autoSyncMiddleware_starts_a_sync_iff_stale :
  forall served path s,
    Js.includes "/metrics" path || Js.includes "/clients" path = true ->
    AutoSync.checkedRecently (AutoSync.lastSyncCheck s) (now (world (AutoSync.host s))) = false ->
    fault served = None ->
    let s' := snd (AutoSync.autoSyncMiddleware served path s) in
    let checkedAt := now (world (AutoSync.host s)) in
    let stale :=
      forall l, In l (Db.sync_logs (db (world (AutoSync.host s)))) ->
                Db.sl_status l = Db.success ->
                Db.sl_created_at l + 12 * 3600000 < checkedAt in
    AutoSync.lastSyncCheck s' = Some checkedAt /\
    (stale /\ EventLoop.syncInProgress (AutoSync.process s) = false ->
     EventLoop.syncInProgress (AutoSync.process s') = true /\
     EventLoop.tasks (AutoSync.process s') =
       (EventLoop.tasks (AutoSync.process s) ++
        [EventLoop.mkTask EventLoop.AutoSync EventLoop.LoadingRoster])%list) /\
    (~ stale \/ EventLoop.syncInProgress (AutoSync.process s) = true ->
     AutoSync.process s' = AutoSync.process s).
Proof.
  intros served path s Hpath Hfirst Hfault. cbv zeta.
  destruct (autoSyncMiddleware_variables served path s) as [Hcheck Hproc]. cbv zeta in *.
  unfold looks, answered in *. rewrite Hpath, Hfirst, Hfault in *. cbn [negb andb] in *.
  pose proof (due_iff (db (world (AutoSync.host s))) (now (world (AutoSync.host s)))) as Hdue.
  split; [exact Hcheck|]. rewrite Hproc. split.
  - intros [Hs Hflag]. apply Hdue in Hs. rewrite Hs.
    unfold EventLoop.triggerBackgroundSync. rewrite Hflag. split; reflexivity.
  - intros [Hs | Hflag].
    + destruct (due _ _); [|reflexivity]. exfalso. apply Hs. apply Hdue. reflexivity.
    + destruct (due _ _); [|reflexivity].
      unfold EventLoop.triggerBackgroundSync. rewrite Hflag. reflexivity.
Qed.

Lemma autoSyncMiddleware_starts_a_sync_iff_stale_witness :
  let after := snd (AutoSync.autoSyncMiddleware Cases.served "/api/metrics/summary"
                      (Cases.fresh Scenario.world0)) in
  AutoSync.lastSyncCheck after = Some (now Scenario.world0) /\
  AutoSync.process after =
    EventLoop.mkProcess true [EventLoop.mkTask EventLoop.AutoSync EventLoop.LoadingRoster].
Proof.
  cbv zeta.
  destruct (autoSyncMiddleware_starts_a_sync_iff_stale Cases.served "/api/metrics/summary"
              (Cases.fresh Scenario.world0) eq_refl eq_refl eq_refl)
    as (Hcheck & Hstart & _).
  split; [exact Hcheck|].
  destruct Hstart as [Hflag Htasks].
  - split; [intros l [] | reflexivity].
  - destruct (AutoSync.process _) as [flag tasks]. cbn in Hflag, Htasks.
    rewrite Hflag, Htasks. reflexivity.
Defined.

(** ** The time stamps of the audit rows *)

Lemma Stamped_refl w : Stamped w w.
Proof.
  split; [lia|]. exists []. rewrite app_nil_r. split; [reflexivity|]. intros l [].
Qed.

Lemma Stamped_trans w1 w2 w3 : Stamped w1 w2 -> Stamped w2 w3 -> Stamped w1 w3.
Proof.
  intros (H1 & l1 & E1 & B1) (H2 & l2 & E2 & B2). split; [lia|].
  exists (l1 ++ l2)%list. rewrite E2, E1, app_assoc. split; [reflexivity|].
  intros l Hin. apply in_app_or in Hin. destruct Hin as [Hin | Hin].
  - specialize (B1 l Hin). lia.
  - specialize (B2 l Hin). lia.
Qed.

Lemma Stamped_same w w' :
  Db.sync_logs (db w') = Db.sync_logs (db w) -> now w <= now w' -> Stamped w w'.
Proof.
  intros Hdb Hnow. split; [exact Hnow|]. exists []. rewrite app_nil_r.
  split; [exact Hdb|]. intros l [].
Qed.

Lemma Stamps_ret {A} (a : A) : Stamps (ret a).
Proof. intros w. apply Stamped_refl. Qed.

Lemma Stamps_throw {A} e : Stamps (@throw A e).
Proof. intros w. apply Stamped_refl. Qed.

Lemma Stamps_liftC {A} (c : Completion A) : Stamps (liftC c).
Proof. intros w. apply Stamped_refl. Qed.

Lemma Stamps_dateNow : Stamps dateNow.
Proof. intros w. apply Stamped_refl. Qed.

Lemma Stamps_say l m : Stamps (say l m).
Proof. intros w. apply Stamped_same; cbn; [reflexivity | lia]. Qed.

Lemma Stamps_sleep ms : 0 <= ms -> Stamps (sleep ms).
Proof. intros H w. apply Stamped_same; cbn; [reflexivity | lia]. Qed.

Lemma Stamps_runReport env request : Stamps (runReport env request).
Proof. intros w. apply Stamped_same; cbn; [reflexivity | lia]. Qed.

Lemma Stamps_bind {A B} (m : Async A) (k : A -> Async B) :
  Stamps m -> (forall a, Stamps (k a)) -> Stamps (bind m k).
Proof.
  intros Hm Hk w. unfold bind. specialize (Hm w).
  destruct (m w) as [[a|e] w1]; cbn [snd] in *; auto.
  eapply Stamped_trans; [exact Hm|]. apply Hk.
Qed.

Lemma Stamps_tryCatch {A} (m : Async A) (handler : Js.Error -> Async A) :
  Stamps m -> (forall e, Stamps (handler e)) -> Stamps (tryCatch m handler).
Proof.
  intros Hm Hh w. unfold tryCatch. specialize (Hm w).
  destruct (m w) as [[a|e] w1]; cbn [snd] in *; auto.
  eapply Stamped_trans; [exact Hm|]. apply Hh.
Qed.

Lemma Stamps_forEach {A B} (xs : list A) (body : A -> Async B) :
  (forall x, Stamps (body x)) -> Stamps (forEach xs body).
Proof.
  intros Hb. induction xs as [|x xs IH]; cbn [forEach].
  - apply Stamps_ret.
  - apply Stamps_bind; [apply Hb|]. intros r.
    apply Stamps_bind; [exact IH|]. intros rs. apply Stamps_ret.
Qed.

Lemma Stamps_query env st : Stamps (query env st).
Proof.
  intros w. destruct (statementFault env st) as [e|] eqn:Hf.
  - rewrite (query_fault _ _ _ _ Hf). apply Stamped_same; cbn; [reflexivity | lia].
  - destruct (query_ok env st w Hf) as (w' & Hq & Hdb & Hnow & _).
    rewrite Hq. cbn [snd]. split; [lia|]. rewrite Hdb, Hnow.
    destruct st; cbn [Db.execute snd Db.sync_logs].
    + exists []. rewrite app_nil_r. split; [reflexivity|]. intros l [].
    + exists []. rewrite app_nil_r. split; [reflexivity|]. intros l [].
    + exists []. rewrite app_nil_r. split; [reflexivity|]. intros l [].
    + eexists. split; [reflexivity|]. intros l [<- | []]. cbn. lia.
Qed.

Create HintDb stamps.

#[local] Hint Resolve Stamps_ret Stamps_throw Stamps_liftC Stamps_dateNow Stamps_say
  Stamps_runReport Stamps_query : stamps.
#[local] Hint Extern 1 (Stamps (sleep _)) => apply Stamps_sleep; lia : stamps.

Ltac stamps :=
  repeat first
    [ solve [auto 1 with stamps nocore]
    | apply Stamps_forEach; intros ?
    | apply Stamps_bind; [| intros ?]
    | apply Stamps_tryCatch; [| intros ?]
    | match goal with
      | |- Stamps (if ?b then _ else _) => destruct b
      | |- Stamps (match ?x with _ => _ end) => destruct x
      end ].

Lemma Stamps_fetchDailyMetrics env propertyId date :
  Stamps (fetchDailyMetrics env propertyId date).
Proof. unfold fetchDailyMetrics, console_log, console_error. stamps. Qed.

Lemma Stamps_logSync env clientId date status n msg ms :
  Stamps (Sync.logSync env clientId date status n msg ms).
Proof. unfold Sync.logSync, console_error. stamps. Qed.

#[local] Hint Resolve Stamps_fetchDailyMetrics Stamps_logSync : stamps.

Lemma Stamps_syncClientMetrics env client date :
  Stamps (Sync.syncClientMetrics env client date).
Proof. unfold Sync.syncClientMetrics, console_log, console_error. stamps. Qed.

#[local] Hint Resolve Stamps_syncClientMetrics : stamps.

Lemma Stamps_syncAllClients env date : Stamps (Sync.syncAllClients env date).
Proof. unfold Sync.syncAllClients, console_log, console_error. stamps. Qed.

#[local] Hint Resolve Stamps_syncAllClients : stamps.

Lemma Stamps_syncYesterday env : Stamps (Sync.syncYesterday env).
Proof. unfold Sync.syncYesterday, Sync.getYesterdayDate. stamps. Qed.

(** ** The middleware after a sync *)

Lemma Attempts_logs_status env jobs w rs w' :
  Attempts env jobs w rs w' ->
  exists ls,
    Db.sync_logs (db w') = (Db.sync_logs (db w) ++ ls)%list /\
    forall l, In l ls ->
      exists r, In r rs /\
        Db.sl_status l = (if Sync.r_success r then Db.success else Db.failed).
Proof.
  induction 1 as [w | client date rest w r w1 rs w2 Ha _ IH].
  - exists []. rewrite app_nil_r. split; [reflexivity|]. intros l [].
  - destruct (Attempt_logs _ _ _ _ _ _ Ha) as (l1 & H1 & _ & Hl1).
    destruct IH as (l2 & H2 & Hl2).
    exists (l1 ++ l2)%list. rewrite H2, H1, app_assoc. split; [reflexivity|].
    intros l Hl. apply in_app_or in Hl. destruct Hl as [Hl | Hl].
    + exists r. split; [left; reflexivity|]. apply (Hl1 l Hl).
    + destruct (Hl2 l Hl) as (r' & Hr' & Hs). exists r'. split; [right; exact Hr' | exact Hs].
Qed.

Lemma Forall2_In_r {A B} (R : A -> B -> Prop) xs ys y :
  Forall2 R xs ys -> In y ys -> exists x, In x xs /\ R x y.
Proof.
  induction 1 as [|x y' xs ys Hxy _ IH]; intros Hin; [destruct Hin|].
  destruct Hin as [<- | Hin].
  - exists x. split; [left; reflexivity | exact Hxy].
  - destruct (IH Hin) as (x' & Hx' & Hr). exists x'. split; [right; exact Hx' | exact Hr].
Qed.

Lemma filter_app_none {A} (p : A -> bool) xs ys :
  (forall y, In y ys -> p y = false) -> filter p (xs ++ ys) = filter p xs.
Proof.
  intros H. rewrite filter_app, (filter_none p ys H). apply app_nil_r.
Qed.

(** X14 (a batch without a success does not count).  A batch of
    [syncAllClients] none of whose results is a success (rejected batches
    included) leaves the time of the last successful sync the middleware
    reads as it was, so the middleware finds a sync due after the batch at
    exactly the instants at which it would have found one due before. *)
Theorem sync_without_a_success_does_not_count :
  forall env date w,
    let run := Sync.syncAllClients env date w in
    (forall s r, fst run = Resolved s -> In r (Sync.results s) -> Sync.r_success r = false) ->
    AutoSync.lastSuccessfulSync (db (snd run)) = AutoSync.lastSuccessfulSync (db w) /\
    forall now, due (db (snd run)) now = due (db w) now.
Proof.
  intros env date w. cbv zeta. intros Hnone.
  assert (Hlast : AutoSync.lastSuccessfulSync (db (snd (Sync.syncAllClients env date w)))
                  = AutoSync.lastSuccessfulSync (db w)).
  { pose proof (syncAllClients_run env date w) as Hrun.
    destruct (statementFault env Db.SelectActiveClients) as [e|].
    - destruct Hrun as (w' & Hrun & Hdb & _). rewrite Hrun. cbn [snd]. rewrite Hdb. reflexivity.
    - destruct Hrun as (s & wa & wb & w' & Hrun & Hdba & _ & Hatts & Hdbb & _).
      rewrite Hrun in *. cbn [fst snd] in *.
      destruct (Attempts_logs_status _ _ _ _ _ Hatts) as (ls & Hls & Hst).
      unfold AutoSync.lastSuccessfulSync. rewrite Hdbb, Hls, Hdba.
      rewrite filter_app_none; [reflexivity|].
      intros l Hl. destruct (Hst l Hl) as (r & Hr & Hs).
      unfold AutoSync.isSuccess. rewrite Hs, (Hnone s r eq_refl Hr). reflexivity. }
  split; [exact Hlast|]. intros t. unfold due. rewrite Hlast. reflexivity.
Qed.

Lemma sync_without_a_success_does_not_count_witness :
  let run := Sync.syncAllClients Scenario.providerDown "2024-03-01" Scenario.world0 in
  (exists s, fst run = Resolved s /\ Sync.failureCount s = 3) /\
  AutoSync.lastSuccessfulSync (db (snd run)) = None /\
  forall now, due (db (snd run)) now = true.
Proof.
  cbv zeta.
  destruct (sync_without_a_success_does_not_count Scenario.providerDown "2024-03-01"
              Scenario.world0) as [Hlast Hdue].
  - cbv zeta. intros s r Hs. vm_compute in Hs. injection Hs as <-.
    intros [<- | [<- | [<- | []]]]; reflexivity.
  - split; [eexists; split; vm_compute; reflexivity|].
    split; [rewrite Hlast; reflexivity|].
    intros t. rewrite Hdue. reflexivity.
Defined.

(** X15 (a stored success silences the middleware).  After a batch
    that resolves with at least one success, the audit inserts being
    executed, the last successful sync the middleware reads is not older
    than the start of the batch; and a request that finds the database as
    the batch left it, at most 12 hours after the batch started, never makes
    the middleware start a sync, whatever its path and whatever the database
    does with the middleware's statement. *)
Theorem stored_success_silences_the_middleware :
  forall env date w s w' served path st,
    Sync.syncAllClients env date w = (Resolved s, w') ->
    auditWritesSucceed env ->
    (exists r, In r (Sync.results s) /\ Sync.r_success r = true) ->
    db (world (AutoSync.host st)) = db w' ->
    now (world (AutoSync.host st)) <= now w + 12 * 3600000 ->
    (exists t, AutoSync.lastSuccessfulSync (db w') = Some t /\ now w <= t) /\
    AutoSync.process (snd (AutoSync.autoSyncMiddleware served path st)) = AutoSync.process st.
Proof.
  intros env date w s w' served path st Hrun Haudit (r & Hr & Hsucc) Hdb Hnow.
  pose proof (syncAllClients_run env date w) as Hall.
  destruct (statementFault env Db.SelectActiveClients) as [e|].
  { destruct Hall as (w'' & Hall & _). congruence. }
  destruct Hall as (s' & wa & wb & w'' & Hall & Hdba & _ & Hatts & Hdbb & _).
  rewrite Hrun in Hall. injection Hall as <- <-.
  destruct (Attempts_audit _ _ _ _ _ Haudit Hatts) as (ls & Hls & Hdoc).
  destruct (Forall2_In_r _ _ _ _ Hdoc Hr) as (l & Hl & Hd).
  destruct Hd as (_ & _ & Hstatus & _). rewrite Hsucc in Hstatus.
  pose proof (Stamps_syncAllClients env date w) as (_ & ls' & Hls' & Hbound).
  rewrite Hrun in Hls', Hbound. cbn [snd] in *.
  rewrite Hdbb, Hls, Hdba in Hls'. apply app_inv_head in Hls'. subst ls'.
  assert (Hin : In l (Db.sync_logs (db w'))).
  { rewrite Hdbb, Hls. apply in_or_app. right. exact Hl. }
  assert (Hnotdue : forall t, t <= now w + 12 * 3600000 -> due (db w') t = false).
  { intros t Ht. apply not_true_iff_false. intros Hdue.
    pose proof (proj1 (due_iff _ _) Hdue l Hin Hstatus). specialize (Hbound l Hl). lia. }
  split.
  - specialize (Hnotdue (now w) ltac:(lia)). unfold due in Hnotdue.
    pose proof (maxCreatedAt_spec (filter AutoSync.isSuccess (Db.sync_logs (db w')))) as Hmax.
    unfold AutoSync.lastSuccessfulSync in *.
    destruct (AutoSync.maxCreatedAt _) as [t|]; [|discriminate].
    exists t. split; [reflexivity|].
    destruct Hmax as (_ & Hmax).
    assert (Db.sl_created_at l <= t).
    { apply Hmax. apply filter_In. split; [exact Hin|].
      unfold AutoSync.isSuccess. rewrite Hstatus. reflexivity. }
    specialize (Hbound l Hl). lia.
  - destruct (autoSyncMiddleware_variables served path st) as [_ Hproc]. cbv zeta in Hproc.
    rewrite Hproc, Hdb, (Hnotdue _ Hnow), !andb_false_r. reflexivity.
Qed.

Lemma stored_success_silences_the_middleware_witness :
  let after := snd (Sync.syncAllClients Scenario.healthy "2024-03-01" Scenario.world0) in
  (exists t, AutoSync.lastSuccessfulSync (db after) = Some t /\ now Scenario.world0 <= t) /\
  AutoSync.process
    (snd (AutoSync.autoSyncMiddleware Cases.served "/api/metrics/summary" (Cases.fresh after)))
  = EventLoop.initial.
Proof.
  cbv zeta.
  pose proof (stored_success_silences_the_middleware Scenario.healthy "2024-03-01"
                Scenario.world0) as H.
  destruct (Sync.syncAllClients Scenario.healthy "2024-03-01" Scenario.world0)
    as [[s|e] w'] eqn:Hrun; [|vm_compute in Hrun; discriminate].
  cbn [snd].
  assert (Hrun' := Hrun). vm_compute in Hrun'. injection Hrun' as Hs Hw.
  apply (H s w' Cases.served "/api/metrics/summary" (Cases.fresh w') eq_refl).
  - intros clientId date status n msg ms. reflexivity.
  - rewrite <- Hs. eexists. split; [left; reflexivity | reflexivity].
  - reflexivity.
  - rewrite <- Hw. vm_compute. discriminate.
Defined.

(** ** The scheduled job *)

Lemma syncAllClients_verdict env date w s :
  fst (Sync.syncAllClients env date w) = Resolved s ->
  (Sync.success s = true <-> forall r, In r (Sync.results s) -> Sync.r_success r = true).
Proof.
  intros Hs. pose proof (syncAllClients_run env date w) as Hrun.
  destruct (statementFault env Db.SelectActiveClients) as [e|].
  - destruct Hrun as (w' & Hrun & _). rewrite Hrun in Hs. discriminate.
  - destruct Hrun as (s' & wa & wb & w' & Hrun & _ & _ & _ & _ & _ & _ & _ & Hfc & Hsucc & _).
    rewrite Hrun in Hs. injection Hs as <-.
    rewrite Hsucc, Z.eqb_eq, Hfc, len_zero_iff. apply filter_negb_nil.
Qed.

Lemma syncYesterday_is_a_batch env w :
  exists date, Sync.syncYesterday env w = Sync.syncAllClients env date w.
Proof. eexists. unfold Sync.syncYesterday, Sync.getYesterdayDate; unfold_async. reflexivity. Qed.

(** X16 (the scheduled job).  The callback of the schedule always resolves: it
    runs [syncYesterday] once and reports a batch whose results are all
    successes at level log, a batch with a failed result at level error, and
    a rejected batch with its error, at level error.  [runSyncNow] runs
    [syncYesterday] once and gives back its outcome, resolved or rejected,
    reporting a rejection first. *)
Theorem cronCallback_never_rejects :
  forall env h,
    let sync := Sync.syncYesterday env (world h) in
    (exists verdict,
       DailySync.cronCallback env h =
         (Resolved tt,
          mkHost (snd sync) (lines h ++ [(Log, CronJobTriggered); verdict])%list) /\
       (verdict = (Log, DailySyncCompleted) <->
        exists s, fst sync = Resolved s /\
                  forall r, In r (Sync.results s) -> Sync.r_success r = true) /\
       (verdict = (Err, DailySyncCompletedWithErrors) <->
        exists s r, fst sync = Resolved s /\ In r (Sync.results s) /\
                    Sync.r_success r = false) /\
       (forall e, verdict = (Err, DailySyncFailed e) <-> fst sync = Rejected e)) /\
    DailySync.runSyncNow env h =
      (fst sync,
       mkHost (snd sync)
         (lines h ++ (Log, RunningSyncManually) ::
            match fst sync with
            | Resolved _ => []
            | Rejected e => [(Err, ManualSyncFailed e)]
            end)%list).
Proof.
  intros env h. cbv zeta.
  destruct (syncYesterday_is_a_batch env (world h)) as (date & Hdate).
  pose proof (syncAllClients_verdict env date (world h)) as Hverdict.
  rewrite <- Hdate in Hverdict.
  unfold DailySync.cronCallback, DailySync.runSyncNow. unfold_run. cbn [world lines].
  destruct (Sync.syncYesterday env (world h)) as [[s|e] w'] eqn:Hrun; cbn [fst snd world lines].
  - specialize (Hverdict s eq_refl). split.
    + destruct (Sync.success s) eqn:Hs; cbn [world lines]; rewrite <- app_assoc; cbn [app];
        eexists; (split; [reflexivity|]); split; [| split | | split].
      * split; [|reflexivity]. intros _. exists s. split; [reflexivity|].
        apply Hverdict. reflexivity.
      * split; [discriminate|]. intros (s' & r & Heq & Hin & Hr). injection Heq as <-.
        rewrite (proj1 Hverdict eq_refl r Hin) in Hr. discriminate.
      * intros e. split; discriminate.
      * split; [discriminate|]. intros (s' & Heq & Hall). injection Heq as <-.
        apply Hverdict in Hall. discriminate.
      * split; [|reflexivity]. intros _.
        destruct (existsb (fun r => negb (Sync.r_success r)) (Sync.results s)) eqn:Hex.
        -- apply existsb_exists in Hex. destruct Hex as (r & Hin & Hr).
           exists s, r. repeat split; auto. apply negb_true_iff. exact Hr.
        -- exfalso. assert (Hall : forall r, In r (Sync.results s) -> Sync.r_success r = true).
           { intros r Hin. destruct (Sync.r_success r) eqn:Hr; auto.
             assert (existsb (fun r => negb (Sync.r_success r)) (Sync.results s) = true).
             { apply existsb_exists. exists r. rewrite Hr. auto. }
             congruence. }
           apply Hverdict in Hall. congruence.
      * intros e. split; discriminate.
    + reflexivity.
  - split.
    + rewrite <- app_assoc; cbn [app]. eexists. split; [reflexivity|]. split; [| split].
      * split; [discriminate|]. intros (s & Heq & _). discriminate.
      * split; [discriminate|]. intros (s & r & Heq & _). discriminate.
      * intros e'. split; intros H; injection H as <-; reflexivity.
    + rewrite <- app_assoc. reflexivity.
Qed.

(** ** Who may read which tenant *)

(** X17 (who may read which tenant).  [requireClientAccess] reads the
    first truthy one of the ids of query, route and body, as a text and
    through [parseInt]; it throws exactly when that reading throws (a body
    that is missing, an object that cannot be printed).  Otherwise it passes
    the request on exactly when the number read is neither [NaN] nor zero
    and the user is an admin or is a client whose own tenant is that number.
    It then sets [req.clientId] to the number, which for a user that is no
    admin equals the user's own tenant, and leaves the user as it is.  In
    every other case it leaves the request as it is and answers 400 when the
    number is [NaN] or zero and 403 when it is not. *)
Theorem requireClientAccess_lets_a_client_read_only_its_own_tenant :
  forall req,
    let run := Auth.requireClientAccess req in
    let read := bindC (Auth.requestedValue req) Auth.toString in
    (forall e, run = Rejected e <-> read = Rejected e) /\
    (forall text,
       read = Resolved text ->
       let requested := Js.parseInt text in
       exists req' reply,
         run = Resolved (req', reply) /\
         (reply = Auth.Next <->
          Js.is_falsy requested = false /\
          (Auth.role (Auth.user req) = "admin" \/
           Auth.role (Auth.user req) = "client" /\
           Auth.isOwn (Auth.user req) requested = true)) /\
         (reply = Auth.Next ->
          Auth.reqClientId req' = Some requested /\ Auth.user req' = Auth.user req /\
          (Auth.role (Auth.user req) <> "admin" ->
           exists own,
             Auth.clientId (Auth.user req) = Some own /\
             PrimFloat.eqb (Js.number_of_Z false own) requested = true)) /\
         (reply <> Auth.Next ->
          req' = req /\
          exists status message,
            reply = Auth.Json status message /\
            (status = 400 <-> Js.is_falsy requested = true) /\
            (status = 403 <-> Js.is_falsy requested = false))).
Proof.
  intros req. cbv zeta. unfold Auth.requireClientAccess.
  destruct (Auth.requestedValue req) as [v|e0]; cbn [bindC].
  2: { split; [|discriminate]. intros e. split; intros H; injection H as <-; reflexivity. }
  destruct (Auth.toString v) as [text0|e0]; cbn [bindC].
  2: { split; [|discriminate]. intros e. split; intros H; injection H as <-; reflexivity. }
  match goal with |- _ /\ ?P => assert (Hmain : P) end.
  2: { split; [|exact Hmain]. intros e.
       destruct (Hmain text0 eq_refl) as (req' & reply & Hrun & _). rewrite Hrun.
       split; discriminate. }
  intros text Htext. injection Htext as <-.
  destruct (Js.is_falsy (Js.parseInt text0)) eqn:Hfalsy.
  { do 2 eexists. split; [reflexivity|]. split; [| split].
    - split; [discriminate | intros [H _]; discriminate].
    - discriminate.
    - intros _. split; [reflexivity|]. do 2 eexists. split; [reflexivity|].
      split; split; auto; discriminate. }
  destruct (String.eqb (Auth.role (Auth.user req)) "admin") eqn:Hadmin.
  { apply String.eqb_eq in Hadmin. do 2 eexists. split; [reflexivity|].
    cbn [Auth.setClientId Auth.reqClientId Auth.user]. split; [| split].
    - split; auto.
    - intros _. repeat split. intros H. congruence.
    - intros H. congruence. }
  apply String.eqb_neq in Hadmin.
  destruct (String.eqb (Auth.role (Auth.user req)) "client") eqn:Hclient; cbn [andb].
  - apply String.eqb_eq in Hclient.
    destruct (Auth.isOwn (Auth.user req) (Js.parseInt text0)) eqn:Hown.
    + do 2 eexists. split; [reflexivity|].
      cbn [Auth.setClientId Auth.reqClientId Auth.user]. split; [| split].
      * split; auto.
      * intros _. repeat split. intros _.
        unfold Auth.isOwn in Hown.
        destruct (Auth.clientId (Auth.user req)) as [own|]; [|discriminate].
        exists own. auto.
      * intros H. congruence.
    + do 2 eexists. split; [reflexivity|]. split; [| split].
      * split; [discriminate|]. intros [_ [Ha | [_ Hc]]]; congruence.
      * discriminate.
      * intros _. split; [reflexivity|]. do 2 eexists. split; [reflexivity|].
        split; split; auto; discriminate.
  - apply String.eqb_neq in Hclient.
    do 2 eexists. split; [reflexivity|]. split; [| split].
    + split; [discriminate|]. intros [_ [Ha | [Hc _]]]; congruence.
    + discriminate.
    + intros _. split; [reflexivity|]. do 2 eexists. split; [reflexivity|].
      split; split; auto; discriminate.
Qed.

Lemma requireClientAccess_lets_a_client_read_only_its_own_tenant_witness :
  (exists req',
     Auth.requireClientAccess (Cases.get Cases.admin (Auth.Str Cases.paddedSeven))
       = Resolved (req', Auth.Next) /\
     Auth.reqClientId req' = Some 7%float) /\
  (exists req',
     Auth.requireClientAccess (Cases.post Cases.admin (Auth.Num 1e21%float))
       = Resolved (req', Auth.Next) /\
     Auth.reqClientId req' = Some 1%float) /\
  (exists req',
     Auth.requireClientAccess (Cases.get Cases.birchUser (Auth.Str "2"))
       = Resolved (req', Auth.Next) /\
     Auth.reqClientId req' = Some 2%float) /\
  (exists req' message,
     Auth.requireClientAccess (Cases.get Cases.birchUser (Auth.Str "3"))
       = Resolved (req', Auth.Json 403 message)).
Proof.
  repeat split.
  - destruct (requireClientAccess_lets_a_client_read_only_its_own_tenant
                (Cases.get Cases.admin (Auth.Str Cases.paddedSeven))) as [_ H].
    destruct (H _ eq_refl) as (req' & reply & Hrun & Hnext & Hset & _).
    assert (reply = Auth.Next) as -> by (apply Hnext; split; [reflexivity | left; reflexivity]).
    exists req'. split; [exact Hrun|]. rewrite (proj1 (Hset eq_refl)). reflexivity.
  - destruct (requireClientAccess_lets_a_client_read_only_its_own_tenant
                (Cases.post Cases.admin (Auth.Num 1e21%float))) as [_ H].
    destruct (H _ eq_refl) as (req' & reply & Hrun & Hnext & Hset & _).
    assert (reply = Auth.Next) as -> by (apply Hnext; split; [reflexivity | left; reflexivity]).
    exists req'. split; [exact Hrun|]. rewrite (proj1 (Hset eq_refl)). reflexivity.
  - destruct (requireClientAccess_lets_a_client_read_only_its_own_tenant
                (Cases.get Cases.birchUser (Auth.Str "2"))) as [_ H].
    destruct (H _ eq_refl) as (req' & reply & Hrun & Hnext & Hset & _).
    assert (reply = Auth.Next) as ->
      by (apply Hnext; split; [reflexivity | right; split; reflexivity]).
    exists req'. split; [exact Hrun|]. rewrite (proj1 (Hset eq_refl)). reflexivity.
  - destruct (requireClientAccess_lets_a_client_read_only_its_own_tenant
                (Cases.get Cases.birchUser (Auth.Str "3"))) as [_ H].
    destruct (H _ eq_refl) as (req' & reply & Hrun & Hnext & _ & Hdenied).
    assert (Hno : reply <> Auth.Next).
    { intros Hreply. apply Hnext in Hreply. destruct Hreply as [_ [Ha | [_ Hown]]]; discriminate. }
    destruct (Hdenied Hno) as (_ & status & message & -> & _ & H403).
    assert (status = 403) as -> by (apply H403; reflexivity).
    exists req', message. exact Hrun.
Defined.

(** ** The middleware that looks for missing data *)

Lemma rowsFor_existsb c d w :
  existsb (Db.same_key c d) (Db.daily_metrics (db w)) = true <-> rowsFor c d w <> [].
Proof.
  unfold rowsFor. split.
  - intros H. apply existsb_exists in H. destruct H as (r & Hin & Hr).
    intros Hnil.
    assert (Hf : In r (filter (Db.same_key c d) (Db.daily_metrics (db w))))
      by (apply filter_In; auto).
    rewrite Hnil in Hf. destruct Hf.
  - intros H. apply nonempty_In in H. destruct H as (r & Hr).
    apply filter_In in Hr. apply existsb_exists. exists r. exact Hr.
Qed.

Lemma firstn_one_nil {A} (l : list A) : firstn 1 l = [] <-> l = [].
Proof. destruct l; cbn; split; congruence. Qed.

(** No active tenant lacks the row of [date]. *)
Lemma clientsMissing_nil date w :
  AutoSync.clientsMissing date (db w) = [] <->
  forall c, In c (Db.clients (db w)) -> Db.is_active c = true -> rowsFor (Db.id c) date w <> [].
Proof.
  unfold AutoSync.clientsMissing. rewrite firstn_one_nil. split.
  - intros Hnil c Hin Hact. apply rowsFor_existsb.
    destruct (existsb _ _) eqn:E; auto.
    assert (Hf : In c (filter (fun c => Db.is_active c &&
                negb (existsb (Db.same_key (Db.id c) date) (Db.daily_metrics (db w))))
                (Db.clients (db w)))).
    { apply filter_In. split; auto. rewrite Hact, E. reflexivity. }
    rewrite Hnil in Hf. destruct Hf.
  - intros Hall. apply filter_none. intros c Hin.
    destruct (Db.is_active c) eqn:Hact; auto. cbn [andb].
    apply negb_false_iff, rowsFor_existsb. auto.
Qed.

Lemma autoSyncMiddlewareByData_variables tz served path s :
  let s' := snd (AutoSync.autoSyncMiddlewareByData tz served path s) in
  let date := yesterdayAt tz (now (world (AutoSync.host s))) in
  fst (AutoSync.autoSyncMiddlewareByData tz served path s) = Resolved tt /\
  AutoSync.nextCalls s' = S (AutoSync.nextCalls s) /\
  db (world (AutoSync.host s')) = db (world (AutoSync.host s)) /\
  AutoSync.lastSyncCheck s' =
    (if looks path s then Some (now (world (AutoSync.host s))) else AutoSync.lastSyncCheck s) /\
  AutoSync.process s' =
    (if looks path s && answered served &&
        negb (Sync.len (AutoSync.clientsMissing date (db (world (AutoSync.host s)))) =? 0)
     then EventLoop.triggerBackgroundSync (AutoSync.process s)
     else AutoSync.process s).
Proof.
  cbv zeta. unfold AutoSync.autoSyncMiddlewareByData, looks, answered, yesterdayAt.
  rewrite <- negb_orb.
  destruct (Js.includes "/metrics" path || Js.includes "/clients" path); cbn [negb andb].
  2: { unfold_middleware. repeat split. }
  unfold_middleware.
  destruct (AutoSync.checkedRecently _ _); cbn [negb andb].
  { unfold_middleware. repeat split. }
  unfold_middleware.
  destruct (fault served) as [e|]; cbn [andb]; unfold_middleware.
  { repeat split. }
  destruct (1000 <? _); unfold_middleware;
    destruct (AutoSync.clientsMissing _ _) as [|c cs]; unfold_middleware;
    try (destruct (EventLoop.syncInProgress (AutoSync.process s)) eqn:Hflag;
         unfold_middleware);
    repeat split; try reflexivity;
    unfold EventLoop.triggerBackgroundSync; rewrite Hflag; reflexivity.
Qed.

(** X18 (the data check).  When the second version of the middleware looks
    at the database (watched path, no recent look) and the database answers,
    it resolves and calls [next()] once; it calls [triggerBackgroundSync]
    when some active tenant has no [daily_metrics] row for the date
    [getYesterdayDate] would give at that instant, and leaves the flag and
    the calls as they are when every active tenant has one. *)
Theorem autoSyncMiddlewareByData_starts_a_sync_iff_a_row_is_missing :
  forall tz served path s,
    Js.includes "/metrics" path || Js.includes "/clients" path = true ->
    AutoSync.checkedRecently (AutoSync.lastSyncCheck s) (now (world (AutoSync.host s))) = false ->
    fault served = None ->
    let run := AutoSync.autoSyncMiddlewareByData tz served path s in
    let date := yesterdayAt tz (now (world (AutoSync.host s))) in
    let complete :=
      forall c, In c (Db.clients (db (world (AutoSync.host s)))) -> Db.is_active c = true ->
                rowsFor (Db.id c) date (world (AutoSync.host s)) <> [] in
    fst run = Resolved tt /\
    AutoSync.nextCalls (snd run) = S (AutoSync.nextCalls s) /\
    (complete -> AutoSync.process (snd run) = AutoSync.process s) /\
    (~ complete ->
     AutoSync.process (snd run) = EventLoop.triggerBackgroundSync (AutoSync.process s)).
Proof.
  intros tz served path s Hpath Hfirst Hfault. cbv zeta.
  destruct (autoSyncMiddlewareByData_variables tz served path s)
    as (Hres & Hnext & _ & _ & Hproc). cbv zeta in *.
  unfold looks, answered in Hproc. rewrite Hpath, Hfirst, Hfault in Hproc. cbn [negb andb] in Hproc.
  pose proof (clientsMissing_nil (yesterdayAt tz (now (world (AutoSync.host s))))
                (world (AutoSync.host s))) as Hnil.
  split; [exact Hres|]. split; [exact Hnext|]. rewrite Hproc. split.
  - intros Hc. apply Hnil in Hc. rewrite Hc. reflexivity.
  - intros Hc. destruct (AutoSync.clientsMissing _ _) as [|c cs] eqn:E.
    + exfalso. apply Hc. apply Hnil. reflexivity.
    + unfold Sync.len. cbn [List.length]. replace (Z.of_nat (S (List.length cs)) =? 0) with false.
      * reflexivity.
      * symmetry. apply Z.eqb_neq. lia.
Qed.

Lemma autoSyncMiddlewareByData_starts_a_sync_iff_a_row_is_missing_witness :
  let run := AutoSync.autoSyncMiddlewareByData JsDate.utcZone Cases.served
               "/api/metrics/summary" (Cases.fresh Scenario.world0) in
  fst run = Resolved tt /\
  AutoSync.process (snd run) =
    EventLoop.mkProcess true [EventLoop.mkTask EventLoop.AutoSync EventLoop.LoadingRoster].
Proof.
  cbv zeta.
  destruct (autoSyncMiddlewareByData_starts_a_sync_iff_a_row_is_missing JsDate.utcZone
              Cases.served "/api/metrics/summary" (Cases.fresh Scenario.world0)
              eq_refl eq_refl eq_refl)
    as (Hnext & _ & _ & Hstart).
  split; [exact Hnext|].
  rewrite Hstart; [reflexivity|].
  intros Hcomplete.
  apply (Hcomplete Scenario.birch); [right; left; reflexivity | reflexivity | reflexivity].
Defined.

Lemma Attempts_success_rows env jobs w rs w' :
  Attempts env jobs w rs w' ->
  forall j r, In (j, r) (combine jobs rs) -> Sync.r_success r = true ->
              rowsFor (Db.id (fst j)) (snd j) w' <> [].
Proof.
  induction 1 as [w | client date rest w r w1 rs w2 Ha Has IH]; intros j r' Hin Hs.
  - destruct Hin.
  - destruct Hin as [Heq | Hin].
    + injection Heq as <- <-. cbn [fst snd].
      destruct (Attempt_stored _ _ _ _ _ _ Ha Hs) as (m & _ & _ & Hne & _).
      apply nonempty_In in Hne. destruct Hne as (row0 & Hrow0).
      destruct (Attempts_identity _ _ _ _ _ _ _ _ Has Hrow0) as (row & Hrow & _).
      intros Hnil. rewrite Hnil in Hrow. destruct Hrow.
    + apply (IH j r' Hin Hs).
Qed.

(** X19 (a complete batch silences the data check).  After a batch
    of [syncAllClients] that resolves with successes only, every active
    tenant has a row for the date of the batch; and a request that finds the
    database as the batch left it, at an instant whose yesterday is that
    date, never makes the second version of the middleware start a sync. *)
Theorem complete_sync_silences_the_data_check :
  forall env date w s w' served path st,
    Sync.syncAllClients env date w = (Resolved s, w') ->
    (forall r, In r (Sync.results s) -> Sync.r_success r = true) ->
    db (world (AutoSync.host st)) = db w' ->
    yesterdayAt (processTimeZone env) (now (world (AutoSync.host st))) = date ->
    (forall c, In c (Db.clients (db w')) -> Db.is_active c = true ->
               rowsFor (Db.id c) date w' <> []) /\
    AutoSync.process
      (snd (AutoSync.autoSyncMiddlewareByData (processTimeZone env) served path st))
    = AutoSync.process st.
Proof.
  intros env date w s w' served path st Hrun Hall Hdb Hdate.
  pose proof (syncAllClients_run env date w) as Hsync.
  destruct (statementFault env Db.SelectActiveClients) as [e|].
  { destruct Hsync as (w'' & Hsync & _). congruence. }
  destruct Hsync as (s' & wa & wb & w'' & Hsync & Hdba & _ & Hatts & Hdbb & _).
  rewrite Hrun in Hsync. injection Hsync as <- <-.
  assert (Hcomplete : forall c, In c (Db.clients (db w')) -> Db.is_active c = true ->
                                rowsFor (Db.id c) date w' <> []).
  { intros c Hin Hact.
    pose proof (Attempts_clients _ _ _ _ _ Hatts) as Hcl.
    assert (Hroster : In c (roster w)).
    { apply roster_active. split; [|exact Hact]. rewrite <- Hdba, <- Hcl, <- Hdbb. exact Hin. }
    pose proof (Attempts_length _ _ _ _ _ Hatts) as Hlen.
    assert (Hjob : In (c, date) (map (fun c => (c, date)) (roster w)))
      by (apply in_map_iff; exists c; auto).
    destruct (In_nth _ _ (c, date) Hjob) as (i & Hi & Hnth).
    assert (Hi' : (i < List.length (Sync.results s))%nat) by lia.
    set (r := nth i (Sync.results s) (Sync.mkResult true 0 "" "" None None 0)).
    assert (Hcomb : In ((c, date), r) (combine (map (fun c => (c, date)) (roster w))
                                               (Sync.results s))).
    { rewrite <- Hnth. unfold r. rewrite <- combine_nth by lia.
      apply nth_In. rewrite length_combine. lia. }
    pose proof (Attempts_success_rows _ _ _ _ _ Hatts _ _ Hcomb) as Hrows.
    cbn [fst snd] in Hrows. unfold rowsFor in *. rewrite Hdbb. apply Hrows.
    apply Hall. unfold r. apply nth_In. exact Hi'. }
  split; [exact Hcomplete|].
  destruct (autoSyncMiddlewareByData_variables (processTimeZone env) served path st)
    as (_ & _ & _ & _ & Hproc). cbv zeta in Hproc.
  rewrite Hproc, Hdate, Hdb.
  replace (AutoSync.clientsMissing date (db w')) with (@nil Db.ClientRow).
  - cbn. rewrite andb_false_r. reflexivity.
  - symmetry. apply clientsMissing_nil. exact Hcomplete.
Qed.

Lemma complete_sync_silences_the_data_check_witness :
  let after := snd (Sync.syncAllClients Scenario.healthy "2024-03-01" Scenario.world0) in
  (forall c, In c (Db.clients (db after)) -> Db.is_active c = true ->
             rowsFor (Db.id c) "2024-03-01" after <> []) /\
  AutoSync.process
    (snd (AutoSync.autoSyncMiddlewareByData JsDate.utcZone Cases.served
            "/api/metrics/summary" (Cases.fresh after)))
  = EventLoop.initial.
Proof.
  cbv zeta.
  pose proof (complete_sync_silences_the_data_check Scenario.healthy "2024-03-01"
                Scenario.world0) as H.
  destruct (Sync.syncAllClients Scenario.healthy "2024-03-01" Scenario.world0)
    as [[s|e] w'] eqn:Hrun; [|vm_compute in Hrun; discriminate].
  cbn [snd].
  assert (Hrun' := Hrun). vm_compute in Hrun'. injection Hrun' as Hs Hw.
  apply (H s w' Cases.served "/api/metrics/summary" (Cases.fresh w') eq_refl).
  - rewrite <- Hs. intros r [<- | [<- | [<- | []]]]; reflexivity.
  - reflexivity.
  - rewrite <- Hw. vm_compute. reflexivity.
Defined.

(** ** The bulk backfill *)

Lemma backfillClientData_clients env clientId startDate endDate w :
  Db.clients (db (snd (Sync.backfillClientData env clientId startDate endDate w)))
  = Db.clients (db w).
Proof.
  pose proof (backfillClientData_run env clientId startDate endDate w) as Hrun.
  destruct (statementFault env (Db.SelectClientById clientId)) as [e|];
    [| destruct (lookup clientId w) as [|client others]].
  - destruct Hrun as (w' & Hrun & Hdb). rewrite Hrun. cbn [snd]. rewrite Hdb. reflexivity.
  - destruct Hrun as (w' & Hrun & Hdb). rewrite Hrun. cbn [snd]. rewrite Hdb. reflexivity.
  - destruct Hrun as (s & wa & wb & w' & Hrun & Hdba & Hatts & Hdbb & _).
    rewrite Hrun. cbn [snd]. rewrite Hdbb, (Attempts_clients _ _ _ _ _ Hatts), Hdba.
    reflexivity.
Qed.

(** One round of the loop: it never throws, and writes the opening line and
    one more. *)
Lemma processClient_run env startStr endStr client h :
  exists h' closing,
    Backfill.processClient env startStr endStr client h = (Resolved tt, h') /\
    lines h' = (lines h ++ [(Log, Processing (Db.name client) (Db.id client)); closing])%list /\
    isProcessing closing = false /\
    Db.clients (db (world h')) = Db.clients (db (world h)).
Proof.
  pose proof (backfillClientData_clients env (Db.id client) startStr endStr (world h)) as Hcl.
  unfold Backfill.processClient. unfold_run. cbn [world lines].
  destruct (Sync.backfillClientData env (Db.id client) startStr endStr (world h))
    as [[s|e] w'] eqn:Hrun; cbn [world lines snd] in *;
    do 2 eexists; (split; [reflexivity|]); cbn [world lines];
    rewrite <- app_assoc; cbn [app]; repeat split; auto.
Qed.

Lemma newLines_app h h' added :
  lines h' = (lines h ++ added)%list -> newLines h h' = added.
Proof.
  intros H. unfold newLines. rewrite H, skipn_app, skipn_all, Nat.sub_diag. reflexivity.
Qed.

Lemma forEach_processClient env startStr endStr clients :
  forall h,
    exists h',
      Run.forEach clients (Backfill.processClient env startStr endStr) h = (Resolved tt, h') /\
      (exists added,
         lines h' = (lines h ++ added)%list /\
         filter isProcessing added =
           map (fun c => (Log, Processing (Db.name c) (Db.id c))) clients) /\
      Db.clients (db (world h')) = Db.clients (db (world h)).
Proof.
  induction clients as [|c cs IH]; intros h; cbn [Run.forEach].
  - exists h. unfold Run.ret. split; [reflexivity|]. split; [|reflexivity].
    exists []. rewrite app_nil_r. split; reflexivity.
  - destruct (processClient_run env startStr endStr c h) as (h1 & closing & Hrun & Hl1 & Hc & Hcl1).
    unfold Run.bind. rewrite Hrun.
    destruct (IH h1) as (h2 & Hloop & (added & Hl2 & Hf) & Hcl2).
    exists h2. split; [exact Hloop|]. split; [|congruence].
    exists ((Log, Processing (Db.name c) (Db.id c)) :: closing :: added).
    split.
    + rewrite Hl2, Hl1, <- app_assoc. reflexivity.
    + cbn [filter isProcessing snd map]. rewrite Hc, Hf. reflexivity.
Qed.

(** X20 (the bulk backfill).  [backfillAllMissing] always ends, with exit
    code 0 or 1; the code is 1 exactly when the statement that reads the
    active tenants fails.  It leaves [clients] as it is, and with code 0 it
    has announced every active tenant once, in the order of the table: a
    tenant whose backfill rejects does not stop the ones after it. *)
Theorem backfillAllMissing_works_through_every_active_tenant :
  forall env served h,
    exists code h',
      Backfill.backfillAllMissing env served h = (Resolved code, h') /\
      (code = 0 \/ code = 1) /\
      (code = 1 <-> fault served <> None) /\
      Db.clients (db (world h')) = Db.clients (db (world h)) /\
      (code = 0 ->
       filter isProcessing (newLines h h') =
         map (fun c => (Log, Processing (Db.name c) (Db.id c)))
             (filter Db.is_active (Db.clients (db (world h))))).
Proof.
  intros env served h.
  unfold Backfill.backfillAllMissing.
  unfold Run.tryCatch at 1. unfold Run.bind at 1.
  destruct (fault served) as [e|] eqn:Hf.
  - rewrite (queryWith_fault _ _ _ _ e Hf). unfold_run. cbn [world lines].
    do 2 eexists. split; [reflexivity|]. cbn [world lines db].
    split; [auto|]. split; [split; auto; discriminate|]. split; [reflexivity|]. discriminate.
  - destruct (queryWith_ok served SelectActiveIdsAndNames
                (fun d => (Backfill.activeClients d, d)) h Hf)
      as (h1 & extra & Hq & Hdb1 & _ & Hl1 & Hextra).
    rewrite Hq. cbn [fst snd] in *.
    unfold Run.bind at 1. unfold service at 1, Run.zoom at 1.
    destruct (lastThirtyDays_pure env (world h1)) as (startStr & endStr & Hwin). rewrite Hwin.
    unfold Run.bind at 1. unfold print at 1, Run.modify at 1. cbn [world lines].
    unfold Run.bind at 1.
    match goal with |- context [Run.forEach ?cs ?body ?h0] =>
      destruct (forEach_processClient env startStr endStr cs h0)
        as (h2 & Hloop & (added & Hl2 & Hfilter) & Hcl2)
    end.
    rewrite Hloop. unfold_run. cbn [world lines] in *.
    do 2 eexists. split; [reflexivity|]. cbn [world lines].
    split; [auto|]. split; [split; [discriminate | congruence]|].
    split; [rewrite Hcl2, Hdb1; reflexivity|]. intros _.
    erewrite newLines_app; [| cbn [lines]; rewrite Hl2, Hl1, <- !app_assoc; reflexivity].
    rewrite !filter_app. cbn [filter isProcessing snd]. rewrite app_nil_r.
    rewrite (filter_none isProcessing extra).
    + cbn [app]. exact Hfilter.
    + intros line Hin. destruct (Hextra line Hin) as (d & ->). reflexivity.
Qed.

(** ** Joining and splitting *)

Lemma without_app c a b : without c (a ++ b) = without c a && without c b.
Proof. induction a as [|x a IH]; cbn; auto. rewrite IH, andb_assoc. reflexivity. Qed.

Lemma split_without c s : without c s = true -> split c s = [s].
Proof.
  induction s as [|x s IH]; cbn; auto.
  rewrite andb_true_iff, negb_true_iff. intros [Hx Hs]. rewrite Hx, (IH Hs). reflexivity.
Qed.

Lemma split_app c p rest :
  without c p = true -> split c (p ++ String c rest) = p :: split c rest.
Proof.
  induction p as [|x p IH]; cbn.
  - intros _. rewrite Ascii.eqb_refl. reflexivity.
  - rewrite andb_true_iff, negb_true_iff. intros [Hx Hp]. rewrite Hx, (IH Hp). reflexivity.
Qed.

Lemma split_join c parts :
  parts <> [] ->
  (forall p, In p parts -> without c p = true) ->
  split c (Csv.join (String c "") parts) = parts.
Proof.
  induction parts as [|p rest IH]; [congruence|]. intros _ Hall.
  cbn [Csv.join]. destruct rest as [|q rest].
  - apply split_without. apply Hall. left. reflexivity.
  - change (p ++ String c "" ++ Csv.join (String c "") (q :: rest))
      with (p ++ String c (Csv.join (String c "") (q :: rest))).
    rewrite split_app by (apply Hall; left; reflexivity).
    f_equal. apply IH; [discriminate|]. intros p' Hin. apply Hall. right. exact Hin.
Qed.

Lemma without_join c sep parts :
  without c sep = true ->
  (forall p, In p parts -> without c p = true) ->
  without c (Csv.join sep parts) = true.
Proof.
  intros Hsep. induction parts as [|p rest IH]; intros Hall; cbn [Csv.join]; auto.
  destruct rest as [|q rest].
  - apply Hall. left. reflexivity.
  - rewrite !without_app, Hsep, (Hall p (or_introl eq_refl)). cbn [andb].
    apply IH. intros p' Hin. apply Hall. right. exact Hin.
Qed.

Lemma plain_comma s : plain s = true -> without "," s = true.
Proof. unfold plain. rewrite andb_true_iff. tauto. Qed.

Lemma plain_newline s : plain s = true -> without (ascii_of_nat 10) s = true.
Proof. unfold plain. rewrite andb_true_iff. tauto. Qed.

(** X21 (the export reads back).  [convertToCSV] of no rows is the text
    [No data available].  For rows that have at least one column each,
    whose first row's keys and whose printed values hold neither a comma nor
    a line feed, splitting the output at the line feeds and each line at the
    commas gives back the keys of the first row followed, row by row, by the
    printed values (a text between double quotes, [null] as the empty text).
    The keys of the other rows are not looked at. *)
Theorem convertToCSV_splits_back_into_its_cells :
  Csv.convertToCSV [] = "No data available" /\
  forall first rest,
    let data := first :: rest in
    (forall row, In row data -> row <> []) ->
    (forall key, In key (map fst first) -> plain key = true) ->
    (forall row kv, In row data -> In kv row -> plain (Csv.cell (snd kv)) = true) ->
    map (split ",") (split (ascii_of_nat 10) (Csv.convertToCSV data))
    = map fst first :: map (fun row => map (fun kv => Csv.cell (snd kv)) row) data.
Proof.
  split; [reflexivity|]. intros first rest. cbv zeta. intros Hrows Hkeys Hcells.
  unfold Csv.convertToCSV.
  set (line := fun row : Csv.Row => Csv.join "," (map (fun kv => Csv.cell (snd kv)) row)).
  change Csv.newline with (String (ascii_of_nat 10) "").
  rewrite split_join.
  - cbn [map]. f_equal.
    + apply (split_join ","%char).
      * intros Hnil. apply map_eq_nil in Hnil. apply (Hrows first); [left; reflexivity | exact Hnil].
      * intros p Hin. apply plain_comma, Hkeys, Hin.
    + assert (Hall : forall rows, (forall row, In row rows -> In row (first :: rest)) ->
                map (split ",") (map line rows)
                = map (fun row => map (fun kv => Csv.cell (snd kv)) row) rows).
      { induction rows as [|row rows IH]; intros Hsub; cbn [map]; auto.
        f_equal.
        - unfold line. apply (split_join ","%char).
          + intros Hnil. apply map_eq_nil in Hnil.
            apply (Hrows row); [apply Hsub; left; reflexivity | exact Hnil].
          + intros p Hin. apply in_map_iff in Hin. destruct Hin as (kv & <- & Hkv).
            apply plain_comma. apply (Hcells row kv); [apply Hsub; left; reflexivity | exact Hkv].
        - apply IH. intros row' Hin. apply Hsub. right. exact Hin. }
      exact (Hall (first :: rest) (fun _ H => H)).
  - discriminate.
  - intros p [<- | Hin].
    + apply without_join; [reflexivity|]. intros q Hq. apply plain_newline, Hkeys, Hq.
    + apply in_map_iff in Hin. destruct Hin as (row & <- & Hrow).
      unfold line. apply without_join; [reflexivity|].
      intros q Hq. apply in_map_iff in Hq. destruct Hq as (kv & <- & Hkv).
      apply plain_newline. apply (Hcells row kv Hrow Hkv).
Qed.

Lemma convertToCSV_splits_back_into_its_cells_witness :
  map (split ",") (split (ascii_of_nat 10) (Csv.convertToCSV Cases.exported)) =
    [ ["date"; "sessions"; "bounce_rate"];
      ["Fri Mar 01 2024 00:00:00 GMT+0000 (Coordinated Universal Time)"; "120";
       Csv.quote ++ "38.00" ++ Csv.quote];
      ["Sat Mar 02 2024 00:00:00 GMT+0000 (Coordinated Universal Time)"; "131";
       Csv.quote ++ "45.32" ++ Csv.quote] ].
Proof.
  destruct convertToCSV_splits_back_into_its_cells as [_ Hcells].
  match eval unfold Cases.exported in Cases.exported with
  | ?first :: ?rest => apply (Hcells first rest)
  end.
  - intros row [<- | [<- | []]]; discriminate.
  - intros key [<- | [<- | [<- | []]]]; reflexivity.
  - intros row kv [<- | [<- | []]] [<- | [<- | [<- | []]]]; reflexivity.
Defined.

(** ** Creating a tenant *)

Lemma validatePropertyAccess_run env propertyId w :
  exists w',
    validatePropertyAccess env propertyId w =
      (Resolved (isResolved
                   (getMetadataResult env (("properties/" ++ propertyId) ++ "/metadata"))), w') /\
    db w' = db w /\ now w <= now w'.
Proof.
  unfold validatePropertyAccess; unfold_async.
  destruct (getMetadataResult env _) as [[]|e]; cbn.
  - eexists. split; [reflexivity|]. cbn. split; [reflexivity | lia].
  - destruct (Js.includes "invalid_rapt" (Js.message e)); cbn;
      eexists; (split; [reflexivity|]); cbn; (split; [reflexivity | lia]).
Qed.

Lemma lastThirtyDays_windowAt env w :
  Backfill.lastThirtyDays env w = (Resolved (windowAt (processTimeZone env) (now w)), w).
Proof. unfold Backfill.lastThirtyDays, windowAt; unfold_async. reflexivity. Qed.

Ltac unfold_handler :=
  unfold Clients.onHost; unfold_run;
  cbn [world lines db now console Clients.host Clients.background fst snd].

(** Closes the goals about an answer that is not [Created]. *)
Ltac refused :=
  split; [| split; [| split; [| split; [| split]]]];
  [ split; [ intros (c & Hc); discriminate
           | intros H; decompose [and] H; congruence ]
  | intros c Hc; discriminate
  | intros _; split; reflexivity
  | intros H1 H2; first [ reflexivity | congruence ]
  | reflexivity
  | reflexivity ].

(** X22 (creating a tenant).  The handler of [POST /api/clients] always
    answers.  It answers 201 exactly when the validators passed, the
    metadata probe of the property resolved, and the database executed both
    statements and held no tenant with that property.  The tenant is then
    added at the end of [clients], active, with the given name and property
    and the given time zone or [UTC], and exactly one backfill is started in
    the background, for the new tenant and the 30-day window of that
    instant.  With any other answer [clients] and the background calls are
    as before; a probe that fails, for whatever reason, gives the answer
    that names the service account.  [daily_metrics] and [sync_logs] are
    never touched. *)
Theorem createClient_registers_only_reachable_new_properties :
  forall setting body s,
    let propertyId := Clients.gaPropertyId body in
    let probe :=
      getMetadataResult (Clients.env setting) (("properties/" ++ propertyId) ++ "/metadata") in
    let before := db (world (Clients.host s)) in
    let timezone := match Clients.timezone body with Some tz => tz | None => "UTC" end in
    exists response s',
      Clients.createClient setting body s = (Resolved response, s') /\
      ((exists c, response = Clients.Created c) <->
       Clients.valid setting = true /\ isResolved probe = true /\
       fault (Clients.lookupServed setting) = None /\
       Clients.withProperty propertyId before = [] /\
       fault (Clients.insertServed setting) = None) /\
      (forall c, response = Clients.Created c ->
         c = Db.mkClient (Clients.nextId setting) (Clients.name body) propertyId timezone true /\
         Db.clients (db (world (Clients.host s'))) = (Db.clients before ++ [c])%list /\
         Clients.background s' =
           (Clients.background s ++
            [Clients.mkJob (Clients.nextId setting)
               (fst (windowAt (processTimeZone (Clients.env setting))
                              (now (world (Clients.host s')))))
               (snd (windowAt (processTimeZone (Clients.env setting))
                              (now (world (Clients.host s')))))])%list) /\
      ((forall c, response <> Clients.Created c) ->
         Db.clients (db (world (Clients.host s'))) = Db.clients before /\
         Clients.background s' = Clients.background s) /\
      (Clients.valid setting = true -> isResolved probe = false ->
         response = Clients.CannotAccess
                      (Clients.getServiceAccountEmail (Clients.authClient setting)) propertyId) /\
      Db.daily_metrics (db (world (Clients.host s'))) = Db.daily_metrics before /\
      Db.sync_logs (db (world (Clients.host s'))) = Db.sync_logs before.
Proof.
  intros setting body s. cbv zeta.
  unfold Clients.createClient.
  destruct (Clients.valid setting) eqn:Hvalid; cbn [negb].
  2: { unfold_handler. do 2 eexists. split; [reflexivity|].
       cbn [world db Clients.host Clients.background].
       refused. }
  unfold Run.tryCatch at 1. unfold Run.bind at 1.
  unfold_handler.
  destruct (validatePropertyAccess_run (Clients.env setting) (Clients.gaPropertyId body)
              (world (Clients.host s))) as (w1 & Hprobe & Hdb1 & _).
  rewrite Hprobe. cbn [world lines db now console Clients.host Clients.background fst snd].
  destruct (isResolved (getMetadataResult _ _)) eqn:Haccess; cbn [negb].
  2: { do 2 eexists. split; [reflexivity|].
       cbn [world db Clients.host Clients.background]. rewrite Hdb1.
       refused. }
  set (h1 := mkHost w1 _). cbn [Clients.host Clients.background].
  destruct (fault (Clients.lookupServed setting)) as [e|] eqn:Hlookup.
  { rewrite (queryWith_fault _ _ _ h1 e Hlookup). subst h1.
    cbn [world lines db now console Clients.host Clients.background fst snd].
    do 2 eexists. split; [reflexivity|].
    cbn [world db Clients.host Clients.background]. rewrite Hdb1.
    refused. }
  match goal with |- context [queryWith _ ?text ?perform h1] =>
    destruct (queryWith_ok (Clients.lookupServed setting) text perform h1 Hlookup)
      as (h2 & extra2 & Hq2 & Hdb2 & _ & _ & _)
  end.
  rewrite Hq2. subst h1. cbn [fst snd world db] in Hdb2 |- *. rewrite Hdb1 in *.
  destruct (Clients.withProperty (Clients.gaPropertyId body) (db (world (Clients.host s))))
    as [|existing others] eqn:Hexisting.
  2: { replace (0 <? Sync.len (existing :: others)) with true
         by (symmetry; apply Z.ltb_lt; unfold Sync.len; cbn [List.length]; lia).
       cbn [world lines db now console Clients.host Clients.background fst snd].
       do 2 eexists. split; [reflexivity|].
       cbn [world db Clients.host Clients.background]. rewrite Hdb2.
       refused. }
  change (0 <? Sync.len []) with false. cbv iota.
  cbn [world lines db now console Clients.host Clients.background fst snd].
  destruct (fault (Clients.insertServed setting)) as [e|] eqn:Hinsert.
  { rewrite (queryWith_fault _ _ _ h2 e Hinsert).
    cbn [world lines db now console Clients.host Clients.background fst snd].
    do 2 eexists. split; [reflexivity|].
    cbn [world db Clients.host Clients.background]. rewrite Hdb2.
    refused. }
  match goal with |- context [queryWith _ ?text ?perform h2] =>
    destruct (queryWith_ok (Clients.insertServed setting) text perform h2 Hinsert)
      as (h3 & extra3 & Hq3 & Hdb3 & _ & _ & _)
  end.
  rewrite Hq3. cbn [fst snd Clients.insertClient] in *.
  cbn [world lines db now console Clients.host Clients.background fst snd].
  rewrite lastThirtyDays_windowAt.
  cbn [world lines db now console Clients.host Clients.background fst snd Db.id Db.name].
  destruct (windowAt _ _) as [startStr endStr] eqn:Hwindow.
  cbn [world lines db now console Clients.host Clients.background fst snd].
  do 2 eexists. split; [reflexivity|].
  cbn [world db now Clients.host Clients.background]. rewrite Hdb3, Hdb2.
  cbn [Db.clients Db.daily_metrics Db.sync_logs].
  split; [| split; [| split; [| split; [| split]]]]; try reflexivity.
  - split; auto. intros _. eexists. reflexivity.
  - intros c Hc. injection Hc as <-. rewrite Hwindow. repeat split.
  - intros Hnone. exfalso. eapply Hnone. reflexivity.
  - intros _ H. discriminate.
Qed.
